(** * Genesis bootstrap and the exp/eth dispatch facade of go-expanse

  A shallow embedding of [core/genesis.go] (construction of the genesis
  block, its installation into the chain database and the genesis blocks
  of the tests) and, of the [api] package, of the method table, the list
  of methods, the index-guarded handlers and the handlers over the
  transaction pool.

  Go packages become modules of the same name.  What the two files import
  from other packages (hashing, the state trie, the JSON decoder, the
  string conversions of [common], the node behind the api) is an
  interface here: a type class whose methods the theorems quantify over.
  The definitions come first, the theorems after them. *)

From Stdlib Require Import Ascii.
From stdpp Require Import gmap strings list fin_maps.

Open Scope Z_scope.
Set Warnings "-register-all".

(** Go's [error] values are compared by identity only; a message stands for one. *)
Abbreviation error := string (only parsing).

(** ** Package [types]: headers and blocks *)
Module types.

(** [BlockNonce] is [[8]byte]: the big-endian bytes of a [uint64]. *)
Fixpoint be_bytes (width : nat) (n : Z) : list Z :=
  match width with
  | O => []
  | S w => be_bytes w (n / 256) ++ [n mod 256]
  end.

Definition EncodeNonce (i : Z) : list Z := be_bytes 8 (i mod 2 ^ 64).

(** Modelled from the spec: the block header of section 3 ([core/types]),
    with the fields [WriteGenesisBlock] sets; [Number] is the height, which a
    header literal that omits it leaves at zero. *)
Record Header := {
  ParentHash : Z;
  Coinbase : Z;
  Root : Z;
  Difficulty : Z;
  Number : Z;
  GasLimit : Z;
  Time : Z;
  Extra : list Z;
  MixDigest : Z;
  Nonce : list Z;
}.

(** Modelled from the spec: a block is a header and the lists of
    transactions and uncles, both empty for genesis. *)
Record Block := {
  header : Header;
  transactions : list Z;
  uncles : list Header;
}.

(** [NewBlock(header, nil, nil, nil)]: a copy of the header and an empty body. *)
Definition NewBlock (h : Header) (txs : list Z) (us : list Header) : Block :=
  {| header := h; transactions := txs; uncles := us |}.

(** The identity of a block is a hash over its header (Keccak-256 of the
    RLP encoding): a parameter of the development. *)
Class Hasher := HeaderHash : Header → Z.

Definition Hash `{Hasher} (b : Block) : Z := HeaderHash (header b).
Definition NumberU64 (b : Block) : Z := Number (header b) mod 2 ^ 64.

End types.

(** ** Package [state]: the world state *)
Module state.

(** Modelled from the spec: the account of section 3 ([core/state]): a
    balance, code bytes and a sparse storage, created on first reference. *)
Record StateObject := {
  balance : Z;
  code : list Z;
  storage : gmap Z Z;
}.

Definition newObject : StateObject :=
  {| balance := 0; code := []; storage := ∅ |}.

(** The live objects of a [StateDB], by address; [state.New] with the zero
    root starts from none. *)
Abbreviation StateDB := (gmap Z StateObject).

Definition New (root : Z) : StateDB := ∅.

Definition GetOrNewStateObject (self : StateDB) (addr : Z) : StateObject :=
  default newObject (self !! addr).

Definition AddBalance (addr amount : Z) (self : StateDB) : StateDB :=
  let o := GetOrNewStateObject self addr in
  <[addr := {| balance := balance o + amount; code := code o; storage := storage o |}]> self.

Definition SetCode (addr : Z) (c : list Z) (self : StateDB) : StateDB :=
  let o := GetOrNewStateObject self addr in
  <[addr := {| balance := balance o; code := c; storage := storage o |}]> self.

Definition SetState (addr key value : Z) (self : StateDB) : StateDB :=
  let o := GetOrNewStateObject self addr in
  <[addr := {| balance := balance o; code := code o; storage := <[key := value]> (storage o) |}]> self.

(** The commitment of a set of accounts (the root of the secure trie): a
    parameter.  As a function of the final account set it is deterministic
    and independent of the order of the mutations, which is the contract
    section 6 of the spec puts on the collaborator. *)
Class Trie := trieRoot : StateDB → Z.

(** [SyncObjects] moves the live objects into the trie, from which [Root]
    reads the commitment. *)
Definition SyncObjects (self : StateDB) : StateDB := self.
Definition Root `{Trie} (self : StateDB) : Z := trieRoot self.

End state.

(** ** Package [common]: conversions from the strings of a genesis file *)
Module common.

(** The conversions the genesis code calls.  None of them reports an error:
    each returns a plain value for every string. *)
Class Conversions := {
  String2Big : string → Z;
  HexToAddress : string → Z;
  HexToHash : string → Z;
  Hex2Bytes : string → list Z;
  FromHex : string → list Z;
}.

(** [Uint64] of a [big.Int]: the low 64 bits of the magnitude. *)
Definition Uint64 (x : Z) : Z := Z.abs x mod 2 ^ 64.

End common.

(** ** Package [params] *)
Module params.

(** The default difficulty and gas limit of a genesis block: constants of
    the [params] package, parameters here. *)
Class Defaults := {
  GenesisGasLimit : Z;
  GenesisDifficulty : Z;
}.

End params.

(** ** The conversions of [common], [math/big] and [fmt], concretely

    Modelled from the spec: the genesis description holds hex or decimal
    strings (sections 4.1 and 6); these are the conversions of the
    [common] package over Go's [encoding/hex] and [math/big], which the
    repository files call without looking at an error. *)
Module conv.

Definition code (c : ascii) : Z := Z.of_N (N_of_ascii c).

(** A digit of [math/big] in a base up to 36. *)
Definition bigDigit (base : Z) (c : ascii) : option Z :=
  let n := code c in
  let d := if (48 <=? n) && (n <=? 57) then n - 48
           else if (97 <=? n) && (n <=? 122) then n - 87
           else if (65 <=? n) && (n <=? 90) then n - 55
           else 36 in
  if d <? base then Some d else None.

Fixpoint scanDigits (base acc : Z) (s : string) : option Z :=
  match s with
  | EmptyString => Some acc
  | String c t =>
      match bigDigit base c with
      | Some d => scanDigits base (acc * base + d) t
      | None => None
      end
  end.

Definition digits (base : Z) (s : string) : option Z :=
  match s with
  | EmptyString => None
  | _ => scanDigits base 0 s
  end.

(** [SetString(s, 0)] of [big.Int]: an optional sign, then a prefix that
    selects the base (0x or 0X: 16, 0b or 0B: 2, 0: 8, none: 10), then
    digits up to the end of the string; [None] when it reports failure. *)
Definition SetString (s : string) : option Z :=
  let '(neg, s) := match s with
                   | String "-" t => (true, t)
                   | String "+" t => (false, t)
                   | _ => (false, s)
                   end in
  let magnitude :=
    match s with
    | String "0" EmptyString => Some 0
    | String "0" (String "x" t) | String "0" (String "X" t) => digits 16 t
    | String "0" (String "b" t) | String "0" (String "B" t) => digits 2 t
    | String "0" t => digits 8 t
    | _ => digits 10 s
    end in
  (λ m, if neg : bool then - m else m) <$> magnitude.

(** [String2Big] drops the failure report; the number then is zero. *)
Definition String2Big (s : string) : Z := default 0 (SetString s).

(** [hex.DecodeString]: two hex digits a byte. *)
Fixpoint DecodeString (s : string) : option (list Z) :=
  match s with
  | EmptyString => Some []
  | String a (String b t) =>
      match bigDigit 16 a, bigDigit 16 b, DecodeString t with
      | Some hi, Some lo, Some rest => Some (hi * 16 + lo :: rest)
      | _, _, _ => None
      end
  | String _ EmptyString => None
  end.

(** [Hex2Bytes] drops the error; the bytes then are none. *)
Definition Hex2Bytes (s : string) : list Z := default [] (DecodeString s).

(** The text [FromHex] hands to [Hex2Bytes]: without a leading 0x, and
    with a leading 0 when the length is odd. *)
Definition hexText (s : string) : string :=
  let s := match s with
           | String "0" (String "x" t) => t
           | _ => s
           end in
  if Nat.odd (String.length s) then String "0" s else s.

Definition FromHex (s : string) : list Z :=
  if (1 <? String.length s)%nat then Hex2Bytes (hexText s) else [].

(** A byte string read as a big-endian number. *)
Definition be_value (bs : list Z) : Z := foldl (λ acc b, acc * 256 + b) 0 bs.

(** [BytesToAddress] and [BytesToHash] keep the last 20 and 32 bytes. *)
Definition lastBytes (n : nat) (bs : list Z) : list Z := drop (length bs - n) bs.

Definition HexToAddress (s : string) : Z := be_value (lastBytes 20 (FromHex s)).
Definition HexToHash (s : string) : Z := be_value (lastBytes 32 (FromHex s)).

(** Whether the text of a balance, and of an address, can be parsed. *)
Definition balanceParses (s : string) : bool := bool_decide (is_Some (SetString s)).
Definition addressParses (s : string) : bool :=
  (1 <? String.length s)%nat && bool_decide (is_Some (DecodeString (hexText s))).

Definition isByte (b : Z) : Prop := 0 ≤ b < 256.

(** [Bytes] of a [big.Int]: the big-endian bytes of the magnitude, none
    for zero. *)
Definition byteLength (n : Z) : nat :=
  if n =? 0 then O else Z.to_nat (Z.log2 n / 8 + 1).

Definition Bytes (n : Z) : list Z := types.be_bytes (byteLength (Z.abs n)) (Z.abs n).

(** The verb [%x] of [fmt] on bytes: two lower-case hex digits a byte. *)
Definition hexChar (d : Z) : ascii :=
  ascii_of_N (Z.to_N (if d <? 10 then 48 + d else 87 + d)).

Definition hexOfBytes (bs : list Z) : string :=
  foldr (λ b s, String (hexChar (b / 16)) (String (hexChar (b mod 16)) s)) EmptyString bs.

(** [fmt.Sprintf] for formats whose only verb is [%x] and whose operands
    are bytes: the text of the format with each verb replaced by the hex
    text of the next operand.  A formatted text is kept as its segments,
    the characters of the format and the texts put in for the verbs. *)
Inductive segment :=
| Chr (c : ascii)
| Verb (text : string).

Fixpoint segments (format : string) (operands : list string) : list segment :=
  match format with
  | EmptyString => []
  | String c t =>
      match t with
      | String c' t' =>
          if (code c =? 37) && (code c' =? 120) then
            match operands with
            | o :: operands' => Verb o :: segments t' operands'
            | [] => Verb "%!x(MISSING)" :: segments t' []
            end
          else Chr c :: segments t operands
      | EmptyString => [Chr c]
      end
  end.

Fixpoint flatten (segs : list segment) : string :=
  match segs with
  | [] => EmptyString
  | Chr c :: rest => String c (flatten rest)
  | Verb text :: rest => text +:+ flatten rest
  end.

Definition Sprintf (format : string) (operands : list (list Z)) : string :=
  flatten (segments format (hexOfBytes <$> operands)).

Definition conversions : common.Conversions :=
  {| common.String2Big := String2Big;
     common.HexToAddress := HexToAddress;
     common.HexToHash := HexToHash;
     common.Hex2Bytes := Hex2Bytes;
     common.FromHex := FromHex |}.

End conv.

(** ** Package [ethdb] and the chain index kept in it *)
Module ethdb.

(** Modelled from the spec: the Chain Index of sections 3 and 4.4, four
    independently addressable records in one key-value store, together with
    the committed world states the same store holds (by root). *)
Record Database := {
  blocks : gmap Z types.Block;
  tds : gmap Z Z;
  canonical : gmap Z Z;
  head : option Z;
  tries : gmap Z state.StateDB;
}.

Definition empty : Database :=
  {| blocks := ∅; tds := ∅; canonical := ∅; head := None; tries := ∅ |}.

(** The single-key writes of the Chain Index. *)
Inductive Put :=
| PutTotalDifficulty (hash td : Z)
| PutBlock (hash : Z) (block : types.Block)
| PutCanonicalHash (number hash : Z)
| PutHead (hash : Z).

Definition apply (db : Database) (w : Put) : Database :=
  match w with
  | PutTotalDifficulty h td =>
      {| blocks := blocks db; tds := <[h := td]> (tds db); canonical := canonical db;
         head := head db; tries := tries db |}
  | PutBlock h b =>
      {| blocks := <[h := b]> (blocks db); tds := tds db; canonical := canonical db;
         head := head db; tries := tries db |}
  | PutCanonicalHash n h =>
      {| blocks := blocks db; tds := tds db; canonical := <[n := h]> (canonical db);
         head := head db; tries := tries db |}
  | PutHead h =>
      {| blocks := blocks db; tds := tds db; canonical := canonical db;
         head := Some h; tries := tries db |}
  end.

(** A block is stored under its own hash (section 3 of the spec). *)
Definition keyedByHash `{!types.Hasher} (d : Database) : Prop :=
  ∀ h b, blocks d !! h = Some b → types.Hash b = h.

(** [Commit] of a world state: the store holds it under its root. *)
Definition commit (root : Z) (st : state.StateDB) (db : Database) : Database :=
  {| blocks := blocks db; tds := tds db; canonical := canonical db;
     head := head db; tries := <[root := st]> (tries db) |}.

(** A run against the store: the database, the journal of the Chain Index
    writes issued so far (oldest first, failed ones included), and the
    outcomes the store will give to the coming writes ([Some e]: the write
    fails with [e] and changes nothing; past the end of the list every
    write succeeds). *)
Record Store := {
  db : Database;
  journal : list Put;
  faults : list (option error);
}.

(** Code that reads and writes the store and may return an error. *)
Definition M (A : Type) : Type := Store → (error + A) * Store.

#[global] Instance M_ret : MRet M := λ A a s, (inr a, s).
#[global] Instance M_bind : MBind M := λ A B f m s,
  match m s with
  | (inl e, s') => (inl e, s')
  | (inr a, s') => f a s'
  end.

Definition fail {A} (e : error) : M A := λ s, (inl e, s).

(** One write: journalled, then applied unless the store refuses it. *)
Definition put (w : Put) : M unit := λ s,
  match faults s with
  | Some e :: fs =>
      (inl e, {| db := db s; journal := journal s ++ [w]; faults := fs |})
  | _ =>
      (inr (), {| db := apply (db s) w; journal := journal s ++ [w];
                  faults := tail (faults s) |})
  end.

Definition get {A} (f : Database → A) : M A := λ s, (inr (f (db s)), s).

Definition modify (f : Database → Database) : M unit := λ s,
  (inr (), {| db := f (db s); journal := journal s; faults := faults s |}).

End ethdb.

(** ** Package [core]: the genesis block *)
Module core.
Import ethdb.

(** What [ioutil.ReadAll] meets: a reader that yields its contents or fails. *)
Inductive Reader :=
| NewReader (contents : string)
| FailingReader (err : error).

Definition ReadAll (reader : Reader) : M string :=
  match reader with
  | NewReader contents => mret contents
  | FailingReader err => fail err
  end.

(** The entry type of [Alloc] (an anonymous struct in the source). *)
Record AllocEntry := {
  Code : string;
  Storage : gmap string string;
  Balance : string;
}.

(** The [genesis] struct the JSON document is decoded into. *)
Record Genesis := {
  Nonce : string;
  Timestamp : string;
  ParentHash : string;
  ExtraData : string;
  GasLimit : string;
  Difficulty : string;
  Mixhash : string;
  Coinbase : string;
  Alloc : gmap string AllocEntry;
}.

(** [json.Unmarshal] into that struct: a parameter. *)
Class Decoder := Unmarshal : string → error + Genesis.

(** A [range] statement visits the entries of a Go map in an order the
    runtime picks anew each time: some permutation of the entries. *)
Record Range := { visit : ∀ A : Type, list A → list A }.

Definition fair (r : Range) : Prop := ∀ (A : Type) (l : list A), visit r A l ≡ₚ l.

Definition range {V} (r : Range) (m : gmap string V) : list (string * V) :=
  visit r _ (map_to_list m).

(** Modelled from the spec: the Chain Index operations of section 4.4
    ([core/chain_util.go]), each a single key-value read or write;
    absence of the key is the [nil] block. *)
Definition GetBlock (hash : Z) : M (option types.Block) :=
  get (λ d, blocks d !! hash).

(** Modelled from the spec: [PutTotalDifficulty] of section 4.4. *)
Definition WriteTd (hash td : Z) : M unit := put (PutTotalDifficulty hash td).

(** Modelled from the spec: [PutBlock] of section 4.4, keyed by the block's
    own hash. *)
Definition WriteBlock `{!types.Hasher} (block : types.Block) : M unit :=
  put (PutBlock (types.Hash block) block).

(** Modelled from the spec: [PutCanonicalHash] of section 4.4. *)
Definition WriteCanonicalHash (hash number : Z) : M unit :=
  put (PutCanonicalHash number hash).

(** Modelled from the spec: [PutHead] of section 4.4. *)
Definition WriteHeadBlockHash (hash : Z) : M unit := put (PutHead hash).

(** Modelled from the spec: [Commit] of the world-state collaborator
    (section 6); [Sync] returns nothing, so it cannot report a failure. *)
Definition Sync `{!state.Trie} (statedb : state.StateDB) : M unit :=
  modify (commit (state.Root statedb) statedb).

Section Genesis.
Context `{!types.Hasher, !state.Trie, !common.Conversions, !Decoder}.
Import common.

(** Lines 68-70: the inner loop over one account's storage. *)
Definition setStorage (r : Range) (address : Z) (statedb : state.StateDB)
    (storage : gmap string string) : state.StateDB :=
  foldl (λ st kv, state.SetState address (HexToHash kv.1) (HexToHash kv.2) st)
        statedb (range r storage).

(** Lines 64-71: the loop over the allocation table. *)
Definition allocStep (r : Range) (statedb : state.StateDB)
    (entry : string * AllocEntry) : state.StateDB :=
  let address := HexToAddress entry.1 in
  let statedb := state.AddBalance address (String2Big (Balance entry.2)) statedb in
  let statedb := state.SetCode address (Hex2Bytes (Code entry.2)) statedb in
  setStorage r address statedb (Storage entry.2).

Definition allocate (r : Range) (statedb : state.StateDB)
    (alloc : gmap string AllocEntry) : state.StateDB :=
  foldl (allocStep r) statedb (range r alloc).

(** Lines 63-72: the world state of the genesis description. *)
Definition genesisState (r : Range) (genesis : Genesis) : state.StateDB :=
  state.SyncObjects (allocate r (state.New 0) (Alloc genesis)).

(** Lines 75-85: the block built from the description and the state root. *)
Definition genesisBlock (genesis : Genesis) (root : Z) : types.Block :=
  types.NewBlock
    {| types.Nonce := types.EncodeNonce (Uint64 (String2Big (Nonce genesis)));
       types.Time := String2Big (Timestamp genesis);
       types.ParentHash := HexToHash (ParentHash genesis);
       types.Extra := FromHex (ExtraData genesis);
       types.GasLimit := String2Big (GasLimit genesis);
       types.Difficulty := String2Big (Difficulty genesis);
       types.MixDigest := HexToHash (Mixhash genesis);
       types.Coinbase := HexToAddress (Coinbase genesis);
       types.Root := root;
       types.Number := 0 |}
    [] [].

(** Lines 87-109: the installation of the block. *)
Definition install (statedb : state.StateDB) (block : types.Block)
    (difficulty : Z) : M types.Block :=
  found ← GetBlock (types.Hash block);
  match found with
  | Some block =>
      WriteCanonicalHash (types.Hash block) (types.NumberU64 block);;
      mret block
  | None =>
      Sync statedb;;
      WriteTd (types.Hash block) difficulty;;
      WriteBlock block;;
      WriteCanonicalHash (types.Hash block) (types.NumberU64 block);;
      WriteHeadBlockHash (types.Hash block);;
      mret block
  end.

(** [WriteGenesisBlock] writes the genesis block to the database as block
    number 0. *)
Definition WriteGenesisBlock (r : Range) (reader : Reader) : M types.Block :=
  contents ← ReadAll reader;
  match Unmarshal contents with
  | inl err => fail err
  | inr genesis =>
      let statedb := genesisState r genesis in
      let difficulty := String2Big (Difficulty genesis) in
      let block := genesisBlock genesis (state.Root statedb) in
      install statedb block difficulty
  end.

(** A line feed, a tab and a text between double quotes, to write the
    documents of this file with. *)
Definition nl : string := String (ascii_of_N 10) EmptyString.
Definition tab : string := String (ascii_of_N 9) EmptyString.
Definition quoted (s : string) : string :=
  String (ascii_of_N 34) (s +:+ String (ascii_of_N 34) EmptyString).

(** The format of [WriteTestNetGenesisBlock]; its three verbs take the
    bytes of the nonce, of the gas limit and of the difficulty. *)
Definition testGenesisFormat : string :=
  "{" +:+ nl +:+
  tab +:+ quoted "nonce" +:+ ":" +:+ quoted "0x%x" +:+ "," +:+ nl +:+
  tab +:+ quoted "gasLimit" +:+ ":" +:+ quoted "0x%x" +:+ "," +:+ nl +:+
  tab +:+ quoted "difficulty" +:+ ":" +:+ quoted "0x%x" +:+ "," +:+ nl +:+
  tab +:+ quoted "alloc" +:+ ": {" +:+ nl +:+
  tab +:+ tab +:+ quoted "0000000000000000000000000000000000000001" +:+ ": {" +:+ quoted "balance" +:+ ": " +:+ quoted "1" +:+ "}," +:+ nl +:+
  tab +:+ tab +:+ quoted "0000000000000000000000000000000000000002" +:+ ": {" +:+ quoted "balance" +:+ ": " +:+ quoted "1" +:+ "}," +:+ nl +:+
  tab +:+ tab +:+ quoted "0000000000000000000000000000000000000003" +:+ ": {" +:+ quoted "balance" +:+ ": " +:+ quoted "1" +:+ "}," +:+ nl +:+
  tab +:+ tab +:+ quoted "0000000000000000000000000000000000000004" +:+ ": {" +:+ quoted "balance" +:+ ": " +:+ quoted "1" +:+ "}," +:+ nl +:+
  tab +:+ tab +:+ quoted "dbdbdb2cbd23b783741e8d7fcf51e459b497e4a6" +:+ ": {" +:+ quoted "balance" +:+ ": " +:+ quoted "1606938044258990275541962092341162602522202993782792835301376" +:+ "}," +:+ nl +:+
  tab +:+ tab +:+ quoted "e4157b34ea9615cfbde6b4fda419828124b70c78" +:+ ": {" +:+ quoted "balance" +:+ ": " +:+ quoted "1606938044258990275541962092341162602522202993782792835301376" +:+ "}," +:+ nl +:+
  tab +:+ tab +:+ quoted "b9c015918bdaba24b4ff057a92a3873d6eb201be" +:+ ": {" +:+ quoted "balance" +:+ ": " +:+ quoted "1606938044258990275541962092341162602522202993782792835301376" +:+ "}," +:+ nl +:+
  tab +:+ tab +:+ quoted "6c386a4b26f73c802f34673f7248bb118f97424a" +:+ ": {" +:+ quoted "balance" +:+ ": " +:+ quoted "1606938044258990275541962092341162602522202993782792835301376" +:+ "}," +:+ nl +:+
  tab +:+ tab +:+ quoted "cd2a3d9f938e13cd947ec05abc7fe734df8dd826" +:+ ": {" +:+ quoted "balance" +:+ ": " +:+ quoted "1606938044258990275541962092341162602522202993782792835301376" +:+ "}," +:+ nl +:+
  tab +:+ tab +:+ quoted "2ef47100e0787b915105fd5e3f4ff6752079d5cb" +:+ ": {" +:+ quoted "balance" +:+ ": " +:+ quoted "1606938044258990275541962092341162602522202993782792835301376" +:+ "}," +:+ nl +:+
  tab +:+ tab +:+ quoted "e6716f9544a56c530d868e4bfbacb172315bdead" +:+ ": {" +:+ quoted "balance" +:+ ": " +:+ quoted "1606938044258990275541962092341162602522202993782792835301376" +:+ "}," +:+ nl +:+
  tab +:+ tab +:+ quoted "1a26338f0d905e295fccb71fa9ea849ffa12aaf4" +:+ ": {" +:+ quoted "balance" +:+ ": " +:+ quoted "1606938044258990275541962092341162602522202993782792835301376" +:+ "}" +:+ nl +:+
  tab +:+ "}" +:+ nl +:+
  "}".

Definition testGenesis (nonce gasLimit difficulty : list Z) : string :=
  conv.Sprintf testGenesisFormat [nonce; gasLimit; difficulty].

Definition WriteTestNetGenesisBlock `{!params.Defaults} (r : Range) (nonce : Z) : M types.Block :=
  WriteGenesisBlock r
    (NewReader (testGenesis (types.EncodeNonce nonce)
                            (conv.Bytes params.GenesisGasLimit)
                            (conv.Bytes params.GenesisDifficulty))).

(** *** Well-formed descriptions

    The keys of the allocation table are distinct addresses, and the keys
    of each storage table distinct slots (section 3 of the spec): no two
    textual keys of a table may convert to the same address or slot. *)
Definition wellFormed (genesis : Genesis) : Prop :=
  NoDup (HexToAddress <$> (map_to_list (Alloc genesis)).*1) ∧
  ∀ addr account, Alloc genesis !! addr = Some account →
    NoDup (HexToHash <$> (map_to_list (Storage account)).*1).

(** What one pass of the allocation loop does to the object it touches. *)
Definition storeSlot (o : state.StateObject) (kv : string * string) : state.StateObject :=
  {| state.balance := state.balance o; state.code := state.code o;
     state.storage := <[HexToHash kv.1 := HexToHash kv.2]> (state.storage o) |}.

Definition allocObject (r : Range) (entry : string * AllocEntry)
    (o : state.StateObject) : state.StateObject :=
  foldl storeSlot
    {| state.balance := state.balance o + String2Big (Balance entry.2);
       state.code := Hex2Bytes (Code entry.2);
       state.storage := state.storage o |}
    (range r (Storage entry.2)).

(** *** What an installation is expected to issue

    The writes [install] issues against a database, in order, and the
    database they start from: one canonical-number write over the untouched
    database when the block is already stored, the four writes of a fresh
    installation over the database with the world state committed
    otherwise. *)
Definition freshWrites (block : types.Block) (difficulty : Z) : list Put :=
  [ PutTotalDifficulty (types.Hash block) difficulty;
    PutBlock (types.Hash block) block;
    PutCanonicalHash (types.NumberU64 block) (types.Hash block);
    PutHead (types.Hash block) ].

Definition installWrites (d : Database) (block : types.Block) (difficulty : Z) : list Put :=
  match blocks d !! types.Hash block with
  | Some found => [ PutCanonicalHash (types.NumberU64 found) (types.Hash found) ]
  | None => freshWrites block difficulty
  end.

Definition installBase (d : Database) (statedb : state.StateDB) (block : types.Block) : Database :=
  match blocks d !! types.Hash block with
  | Some _ => d
  | None => commit (state.Root statedb) statedb d
  end.

Definition installed (d : Database) (block : types.Block) : types.Block :=
  default block (blocks d !! types.Hash block).

End Genesis.

(** How a store answers [n] writes issued in a row: how many of them it
    grants before the first refusal, the error of that refusal, and the
    outcomes left for later writes. *)
Fixpoint granted (fs : list (option error)) (n : nat) {struct n} : nat :=
  match n, fs with
  | O, _ => O
  | S _, Some _ :: _ => O
  | S n', None :: fs' => S (granted fs' n')
  | S n', [] => S n'
  end.

Fixpoint refusal (fs : list (option error)) (n : nat) {struct n} : option error :=
  match n, fs with
  | O, _ => None
  | S _, Some e :: _ => Some e
  | S n', None :: fs' => refusal fs' n'
  | S _, [] => None
  end.

Fixpoint leftover (fs : list (option error)) (n : nat) {struct n} : list (option error) :=
  match n, fs with
  | O, _ => fs
  | S _, Some _ :: fs' => fs'
  | S n', None :: fs' => leftover fs' n'
  | S _, [] => []
  end.

End core.

(** ** A decoder for genesis documents

    Modelled from the spec: the genesis description format of section 6, a
    JSON document whose fields are strings and whose [alloc] maps address
    strings to objects; unknown fields are ignored and missing ones keep
    their zero value.  The decoder follows [encoding/json] on such
    documents: a lexer, a parser of the JSON grammar and the assignment of
    the members to the fields of the struct, matched without regard to
    case.  Escapes by code point (backslash u) are outside it and are
    reported as errors; bytes above 127 are taken as they are. *)
Module json.
Import core.

Inductive token :=
| LBrace | RBrace | LBracket | RBracket | Colon | Comma
| Str (s : string)
| Bare (s : string).

Inductive mode :=
| Outside
| InString (acc : string)
| Escaped (acc : string)
| InBare (acc : string).

Inductive class :=
| Blank
| Punct (t : token)
| Quote
| Other.

Definition classify (c : ascii) : class :=
  let n := conv.code c in
  if (n =? 32) || (n =? 9) || (n =? 10) || (n =? 13) then Blank
  else if n =? 123 then Punct LBrace
  else if n =? 125 then Punct RBrace
  else if n =? 91 then Punct LBracket
  else if n =? 93 then Punct RBracket
  else if n =? 58 then Punct Colon
  else if n =? 44 then Punct Comma
  else if n =? 34 then Quote
  else Other.

(** The character an escape stands for. *)
Definition unescape (c : ascii) : option ascii :=
  let n := conv.code c in
  if (n =? 34) || (n =? 92) || (n =? 47) then Some c
  else if n =? 98 then Some (ascii_of_N 8)
  else if n =? 102 then Some (ascii_of_N 12)
  else if n =? 110 then Some (ascii_of_N 10)
  else if n =? 114 then Some (ascii_of_N 13)
  else if n =? 116 then Some (ascii_of_N 9)
  else None.

Definition snoc (acc : string) (c : ascii) : string := acc +:+ String c EmptyString.

(** One character: the mode it leaves the lexer in and the tokens it
    completes. *)
Definition step (m : mode) (c : ascii) : option (mode * list token) :=
  match m with
  | Outside =>
      match classify c with
      | Blank => Some (Outside, [])
      | Punct p => Some (Outside, [p])
      | Quote => Some (InString EmptyString, [])
      | Other => Some (InBare (String c EmptyString), [])
      end
  | InString acc =>
      if conv.code c =? 34 then Some (Outside, [Str acc])
      else if conv.code c =? 92 then Some (Escaped acc, [])
      else if conv.code c <? 32 then None
      else Some (InString (snoc acc c), [])
  | Escaped acc =>
      match unescape c with
      | Some c' => Some (InString (snoc acc c'), [])
      | None => None
      end
  | InBare acc =>
      match classify c with
      | Blank => Some (Outside, [Bare acc])
      | Punct p => Some (Outside, [Bare acc; p])
      | Quote => Some (InString EmptyString, [Bare acc])
      | Other => Some (InBare (snoc acc c), [])
      end
  end.

(** The end of the input: a string must be closed. *)
Definition finish (m : mode) : option (list token) :=
  match m with
  | Outside => Some []
  | InBare acc => Some [Bare acc]
  | InString _ | Escaped _ => None
  end.

Fixpoint lex (m : mode) (s : string) : option (list token) :=
  match s with
  | EmptyString => finish m
  | String c t =>
      match step m c with
      | Some (m', ts) => app ts <$> lex m' t
      | None => None
      end
  end.

(** The lexer over the segments of a formatted text, where a text put in
    for a verb falls inside a string literal. *)
Fixpoint lexSegments (m : mode) (segs : list conv.segment) : option (list token) :=
  match segs with
  | [] => finish m
  | conv.Chr c :: rest =>
      match step m c with
      | Some (m', ts) => app ts <$> lexSegments m' rest
      | None => None
      end
  | conv.Verb text :: rest =>
      match m with
      | InString acc => lexSegments (InString (acc +:+ text)) rest
      | _ => None
      end
  end.

(** Characters that stand for themselves inside a string literal. *)
Fixpoint plain (s : string) : bool :=
  match s with
  | EmptyString => true
  | String c t =>
      negb (conv.code c =? 34) && negb (conv.code c =? 92) && negb (conv.code c <? 32)
      && plain t
  end.

Definition plainVerb (g : conv.segment) : Prop :=
  match g with
  | conv.Chr _ => True
  | conv.Verb text => plain text = true
  end.

Inductive value :=
| Null
| Bool (b : bool)
| Number (literal : string)
| Text (s : string)
| Array (elements : list value)
| Object (members : list (string * value)).

(** The grammar of a JSON number. *)
Definition isDigit (c : ascii) : bool := (48 <=? conv.code c) && (conv.code c <=? 57).

Fixpoint skipDigits (s : string) : string :=
  match s with
  | String c t => if isDigit c then skipDigits t else s
  | EmptyString => s
  end.

Definition digitsThen (k : string → bool) (s : string) : bool :=
  match s with
  | String c t => isDigit c && k (skipDigits t)
  | EmptyString => false
  end.

Definition exponent (s : string) : bool :=
  match s with
  | EmptyString => true
  | String c t =>
      if (conv.code c =? 101) || (conv.code c =? 69) then
        match t with
        | String "+" u | String "-" u => digitsThen (λ r, bool_decide (r = EmptyString)) u
        | _ => digitsThen (λ r, bool_decide (r = EmptyString)) t
        end
      else false
  end.

Definition fraction (s : string) : bool :=
  match s with
  | String "." t => digitsThen exponent t
  | _ => exponent s
  end.

Definition isNumber (s : string) : bool :=
  let s := match s with String "-" t => t | _ => s end in
  match s with
  | String "0" t => fraction t
  | String c t => isDigit c && fraction (skipDigits t)
  | EmptyString => false
  end.

Definition bareValue (s : string) : option value :=
  if bool_decide (s = "null") then Some Null
  else if bool_decide (s = "true") then Some (Bool true)
  else if bool_decide (s = "false") then Some (Bool false)
  else if isNumber s then Some (Number s)
  else None.

Fixpoint parseValue (fuel : nat) (ts : list token) : option (value * list token) :=
  match fuel with
  | O => None
  | S fuel =>
      match ts with
      | Str s :: ts => Some (Text s, ts)
      | Bare b :: ts => (λ v, (v, ts)) <$> bareValue b
      | LBrace :: RBrace :: ts => Some (Object [], ts)
      | LBrace :: ts => (λ r, (Object r.1, r.2)) <$> parseMembers fuel ts
      | LBracket :: RBracket :: ts => Some (Array [], ts)
      | LBracket :: ts => (λ r, (Array r.1, r.2)) <$> parseElements fuel ts
      | _ => None
      end
  end
with parseMembers (fuel : nat) (ts : list token) : option (list (string * value) * list token) :=
  match fuel with
  | O => None
  | S fuel =>
      match ts with
      | Str k :: Colon :: ts =>
          match parseValue fuel ts with
          | Some (v, Comma :: ts') => (λ r, ((k, v) :: r.1, r.2)) <$> parseMembers fuel ts'
          | Some (v, RBrace :: ts') => Some ([(k, v)], ts')
          | _ => None
          end
      | _ => None
      end
  end
with parseElements (fuel : nat) (ts : list token) : option (list value * list token) :=
  match fuel with
  | O => None
  | S fuel =>
      match parseValue fuel ts with
      | Some (v, Comma :: ts') => (λ r, (v :: r.1, r.2)) <$> parseElements fuel ts'
      | Some (v, RBracket :: ts') => Some ([v], ts')
      | _ => None
      end
  end.

Definition parse (s : string) : option value :=
  match lex Outside s with
  | Some ts =>
      match parseValue (length ts) ts with
      | Some (v, []) => Some v
      | _ => None
      end
  | None => None
  end.

(** Field names are matched without regard to case. *)
Definition lower (c : ascii) : ascii :=
  let n := conv.code c in
  if (65 <=? n) && (n <=? 90) then ascii_of_N (Z.to_N (n + 32)) else c.

Fixpoint fold (s : string) : string :=
  match s with
  | EmptyString => EmptyString
  | String c t => String (lower c) (fold t)
  end.

(** A string field takes a JSON string, and keeps its value on [null]. *)
Definition asString (old : string) (v : value) : option string :=
  match v with
  | Text s => Some s
  | Null => Some old
  | _ => None
  end.

Definition decodeStorage (old : gmap string string) (v : value) : option (gmap string string) :=
  match v with
  | Null => Some old
  | Object ms =>
      foldl (λ acc kv, m ← acc; s ← asString EmptyString kv.2; Some (<[kv.1 := s]> m))
            (Some old) ms
  | _ => None
  end.

Definition zeroEntry : AllocEntry :=
  {| Code := EmptyString; Storage := ∅; Balance := EmptyString |}.

Definition setEntryField (e : AllocEntry) (kv : string * value) : option AllocEntry :=
  let name := fold kv.1 in
  if bool_decide (name = "code") then
    s ← asString (Code e) kv.2; Some {| Code := s; Storage := Storage e; Balance := Balance e |}
  else if bool_decide (name = "storage") then
    m ← decodeStorage (Storage e) kv.2; Some {| Code := Code e; Storage := m; Balance := Balance e |}
  else if bool_decide (name = "balance") then
    s ← asString (Balance e) kv.2; Some {| Code := Code e; Storage := Storage e; Balance := s |}
  else Some e.

Definition decodeEntry (v : value) : option AllocEntry :=
  match v with
  | Null => Some zeroEntry
  | Object ms => foldl (λ acc kv, e ← acc; setEntryField e kv) (Some zeroEntry) ms
  | _ => None
  end.

Definition decodeAlloc (old : gmap string AllocEntry) (v : value) : option (gmap string AllocEntry) :=
  match v with
  | Null => Some old
  | Object ms =>
      foldl (λ acc kv, m ← acc; e ← decodeEntry kv.2; Some (<[kv.1 := e]> m)) (Some old) ms
  | _ => None
  end.

Definition zeroGenesis : Genesis :=
  {| Nonce := EmptyString; Timestamp := EmptyString; ParentHash := EmptyString;
     ExtraData := EmptyString; GasLimit := EmptyString; Difficulty := EmptyString;
     Mixhash := EmptyString; Coinbase := EmptyString; Alloc := ∅ |}.

Definition setField (g : Genesis) (kv : string * value) : option Genesis :=
  let name := fold kv.1 in
  let upd (f : Genesis → string) (mk : string → Genesis) := mk <$> asString (f g) kv.2 in
  if bool_decide (name = "nonce") then
    upd Nonce (λ s, {| Nonce := s; Timestamp := Timestamp g; ParentHash := ParentHash g;
      ExtraData := ExtraData g; GasLimit := GasLimit g; Difficulty := Difficulty g;
      Mixhash := Mixhash g; Coinbase := Coinbase g; Alloc := Alloc g |})
  else if bool_decide (name = "timestamp") then
    upd Timestamp (λ s, {| Nonce := Nonce g; Timestamp := s; ParentHash := ParentHash g;
      ExtraData := ExtraData g; GasLimit := GasLimit g; Difficulty := Difficulty g;
      Mixhash := Mixhash g; Coinbase := Coinbase g; Alloc := Alloc g |})
  else if bool_decide (name = "parenthash") then
    upd ParentHash (λ s, {| Nonce := Nonce g; Timestamp := Timestamp g; ParentHash := s;
      ExtraData := ExtraData g; GasLimit := GasLimit g; Difficulty := Difficulty g;
      Mixhash := Mixhash g; Coinbase := Coinbase g; Alloc := Alloc g |})
  else if bool_decide (name = "extradata") then
    upd ExtraData (λ s, {| Nonce := Nonce g; Timestamp := Timestamp g; ParentHash := ParentHash g;
      ExtraData := s; GasLimit := GasLimit g; Difficulty := Difficulty g;
      Mixhash := Mixhash g; Coinbase := Coinbase g; Alloc := Alloc g |})
  else if bool_decide (name = "gaslimit") then
    upd GasLimit (λ s, {| Nonce := Nonce g; Timestamp := Timestamp g; ParentHash := ParentHash g;
      ExtraData := ExtraData g; GasLimit := s; Difficulty := Difficulty g;
      Mixhash := Mixhash g; Coinbase := Coinbase g; Alloc := Alloc g |})
  else if bool_decide (name = "difficulty") then
    upd Difficulty (λ s, {| Nonce := Nonce g; Timestamp := Timestamp g; ParentHash := ParentHash g;
      ExtraData := ExtraData g; GasLimit := GasLimit g; Difficulty := s;
      Mixhash := Mixhash g; Coinbase := Coinbase g; Alloc := Alloc g |})
  else if bool_decide (name = "mixhash") then
    upd Mixhash (λ s, {| Nonce := Nonce g; Timestamp := Timestamp g; ParentHash := ParentHash g;
      ExtraData := ExtraData g; GasLimit := GasLimit g; Difficulty := Difficulty g;
      Mixhash := s; Coinbase := Coinbase g; Alloc := Alloc g |})
  else if bool_decide (name = "coinbase") then
    upd Coinbase (λ s, {| Nonce := Nonce g; Timestamp := Timestamp g; ParentHash := ParentHash g;
      ExtraData := ExtraData g; GasLimit := GasLimit g; Difficulty := Difficulty g;
      Mixhash := Mixhash g; Coinbase := s; Alloc := Alloc g |})
  else if bool_decide (name = "alloc") then
    (λ m, {| Nonce := Nonce g; Timestamp := Timestamp g; ParentHash := ParentHash g;
      ExtraData := ExtraData g; GasLimit := GasLimit g; Difficulty := Difficulty g;
      Mixhash := Mixhash g; Coinbase := Coinbase g; Alloc := m |}) <$> decodeAlloc (Alloc g) kv.2
  else Some g.

Definition decodeGenesis (v : value) : option Genesis :=
  match v with
  | Null => Some zeroGenesis
  | Object ms => foldl (λ acc kv, g ← acc; setField g kv) (Some zeroGenesis) ms
  | _ => None
  end.

Definition Unmarshal (contents : string) : error + Genesis :=
  match parse contents with
  | None => inl "invalid character or unexpected end of JSON input"
  | Some v =>
      match decodeGenesis v with
      | None => inl "json: cannot unmarshal value into Go value"
      | Some g => inr g
      end
  end.

Definition decoder : Decoder := Unmarshal.

End json.

(** ** The fixed test network

    What the claim about [WriteTestNetGenesisBlock] expects of the decoded
    description: twelve allocation entries, four with balance 1 and eight
    with one large balance, no code and no storage, and the nonce, gas
    limit and difficulty as the texts put into the format. *)
Module testnet.
Import core.

Definition entry (balance : string) : AllocEntry :=
  {| Code := EmptyString; Storage := ∅; Balance := balance |}.

Definition fixedBalance : string :=
  "1606938044258990275541962092341162602522202993782792835301376".

Definition alloc : gmap string AllocEntry :=
  list_to_map
    [
      ("0000000000000000000000000000000000000001", entry "1");
      ("0000000000000000000000000000000000000002", entry "1");
      ("0000000000000000000000000000000000000003", entry "1");
      ("0000000000000000000000000000000000000004", entry "1");
      ("dbdbdb2cbd23b783741e8d7fcf51e459b497e4a6", entry fixedBalance);
      ("e4157b34ea9615cfbde6b4fda419828124b70c78", entry fixedBalance);
      ("b9c015918bdaba24b4ff057a92a3873d6eb201be", entry fixedBalance);
      ("6c386a4b26f73c802f34673f7248bb118f97424a", entry fixedBalance);
      ("cd2a3d9f938e13cd947ec05abc7fe734df8dd826", entry fixedBalance);
      ("2ef47100e0787b915105fd5e3f4ff6752079d5cb", entry fixedBalance);
      ("e6716f9544a56c530d868e4bfbacb172315bdead", entry fixedBalance);
      ("1a26338f0d905e295fccb71fa9ea849ffa12aaf4", entry fixedBalance)
    ].

Definition genesis (nonce gasLimit difficulty : string) : Genesis :=
  {| Nonce := "0x" +:+ nonce; Timestamp := EmptyString; ParentHash := EmptyString;
     ExtraData := EmptyString; GasLimit := "0x" +:+ gasLimit;
     Difficulty := "0x" +:+ difficulty; Mixhash := EmptyString;
     Coinbase := EmptyString; Alloc := alloc |}.

End testnet.

(** ** Package [shared]: requests and errors of the RPC layer *)
Module shared.

Record Request := {
  Id : Z;
  Jsonrpc : string;
  Method : string;
  Params : string;
}.

(** The errors the handlers make, by constructor. *)
Inductive Error :=
| NotImplementedError (method : string)
| NotAvailableError (method reason : string)
| DecodeParamError (message : string)
| NotReadyError (resource : string)
| OtherError (message : string).

End shared.

(** ** Package [api]: the exp api provider *)
Module api.
Import shared.

(** The methods of [ethApi] that the table names: a value of the function
    type [ethhandler] is one of them. *)
Module ethhandler.
Inductive t :=
| Accounts | BlockNumber | GetBalance | ProtocolVersion | Coinbase | IsMining | IsSyncing
| GasPrice | GetStorage | GetStorageAt | GetTransactionCount | GetBlockTransactionCountByHash
| GetBlockTransactionCountByNumber | GetUncleCountByBlockHash | GetUncleCountByBlockNumber
| GetData | GetNatSpec | Sign | SendRawTransaction | SendTransaction | EstimateGas | Call
| Flush | GetBlockByHash | GetBlockByNumber | GetTransactionByHash | GetTransactionByBlockNumberAndIndex
| GetTransactionByBlockHashAndIndex | GetUncleByBlockHashAndIndex | GetUncleByBlockNumberAndIndex
| GetCompilers | CompileSolidity | NewFilter | NewBlockFilter | NewPendingTransactionFilter
| UninstallFilter | GetFilterChanges | GetFilterLogs | GetLogs | Hashrate | GetWork
| SubmitWork | SubmitHashrate | Resend | PendingTransactions | GetTransactionReceipt.

End ethhandler.

#[global] Instance ethhandler_eq_dec : EqDecision ethhandler.t.
Proof. solve_decision. Defined.

Definition ethMapping : gmap string ethhandler.t :=
  list_to_map [
    ("eth_accounts", ethhandler.Accounts);
    ("eth_blockNumber", ethhandler.BlockNumber);
    ("eth_getBalance", ethhandler.GetBalance);
    ("eth_protocolVersion", ethhandler.ProtocolVersion);
    ("eth_coinbase", ethhandler.Coinbase);
    ("eth_mining", ethhandler.IsMining);
    ("eth_syncing", ethhandler.IsSyncing);
    ("eth_gasPrice", ethhandler.GasPrice);
    ("eth_getStorage", ethhandler.GetStorage);
    ("eth_storageAt", ethhandler.GetStorage);
    ("eth_getStorageAt", ethhandler.GetStorageAt);
    ("eth_getTransactionCount", ethhandler.GetTransactionCount);
    ("eth_getBlockTransactionCountByHash", ethhandler.GetBlockTransactionCountByHash);
    ("eth_getBlockTransactionCountByNumber", ethhandler.GetBlockTransactionCountByNumber);
    ("eth_getUncleCountByBlockHash", ethhandler.GetUncleCountByBlockHash);
    ("eth_getUncleCountByBlockNumber", ethhandler.GetUncleCountByBlockNumber);
    ("eth_getData", ethhandler.GetData);
    ("eth_getCode", ethhandler.GetData);
    ("eth_getNatSpec", ethhandler.GetNatSpec);
    ("eth_sign", ethhandler.Sign);
    ("eth_sendRawTransaction", ethhandler.SendRawTransaction);
    ("eth_sendTransaction", ethhandler.SendTransaction);
    ("eth_transact", ethhandler.SendTransaction);
    ("eth_estimateGas", ethhandler.EstimateGas);
    ("eth_call", ethhandler.Call);
    ("eth_flush", ethhandler.Flush);
    ("eth_getBlockByHash", ethhandler.GetBlockByHash);
    ("eth_getBlockByNumber", ethhandler.GetBlockByNumber);
    ("eth_getTransactionByHash", ethhandler.GetTransactionByHash);
    ("eth_getTransactionByBlockNumberAndIndex", ethhandler.GetTransactionByBlockNumberAndIndex);
    ("eth_getTransactionByBlockHashAndIndex", ethhandler.GetTransactionByBlockHashAndIndex);
    ("eth_getUncleByBlockHashAndIndex", ethhandler.GetUncleByBlockHashAndIndex);
    ("eth_getUncleByBlockNumberAndIndex", ethhandler.GetUncleByBlockNumberAndIndex);
    ("eth_getCompilers", ethhandler.GetCompilers);
    ("eth_compileSolidity", ethhandler.CompileSolidity);
    ("eth_newFilter", ethhandler.NewFilter);
    ("eth_newBlockFilter", ethhandler.NewBlockFilter);
    ("eth_newPendingTransactionFilter", ethhandler.NewPendingTransactionFilter);
    ("eth_uninstallFilter", ethhandler.UninstallFilter);
    ("eth_getFilterChanges", ethhandler.GetFilterChanges);
    ("eth_getFilterLogs", ethhandler.GetFilterLogs);
    ("eth_getLogs", ethhandler.GetLogs);
    ("eth_hashrate", ethhandler.Hashrate);
    ("eth_getWork", ethhandler.GetWork);
    ("eth_submitWork", ethhandler.SubmitWork);
    ("eth_submitHashrate", ethhandler.SubmitHashrate);
    ("eth_resend", ethhandler.Resend);
    ("eth_pendingTransactions", ethhandler.PendingTransactions);
    ("eth_getTransactionReceipt", ethhandler.GetTransactionReceipt);
    ("exp_accounts", ethhandler.Accounts);
    ("exp_blockNumber", ethhandler.BlockNumber);
    ("exp_getBalance", ethhandler.GetBalance);
    ("exp_protocolVersion", ethhandler.ProtocolVersion);
    ("exp_coinbase", ethhandler.Coinbase);
    ("exp_mining", ethhandler.IsMining);
    ("exp_syncing", ethhandler.IsSyncing);
    ("exp_gasPrice", ethhandler.GasPrice);
    ("exp_getStorage", ethhandler.GetStorage);
    ("exp_storageAt", ethhandler.GetStorage);
    ("exp_getStorageAt", ethhandler.GetStorageAt);
    ("exp_getTransactionCount", ethhandler.GetTransactionCount);
    ("exp_getBlockTransactionCountByHash", ethhandler.GetBlockTransactionCountByHash);
    ("exp_getBlockTransactionCountByNumber", ethhandler.GetBlockTransactionCountByNumber);
    ("exp_getUncleCountByBlockHash", ethhandler.GetUncleCountByBlockHash);
    ("exp_getUncleCountByBlockNumber", ethhandler.GetUncleCountByBlockNumber);
    ("exp_getData", ethhandler.GetData);
    ("exp_getCode", ethhandler.GetData);
    ("exp_sign", ethhandler.Sign);
    ("exp_sendRawTransaction", ethhandler.SendRawTransaction);
    ("exp_sendTransaction", ethhandler.SendTransaction);
    ("exp_transact", ethhandler.SendTransaction);
    ("exp_estimateGas", ethhandler.EstimateGas);
    ("exp_call", ethhandler.Call);
    ("exp_flush", ethhandler.Flush);
    ("exp_getBlockByHash", ethhandler.GetBlockByHash);
    ("exp_getBlockByNumber", ethhandler.GetBlockByNumber);
    ("exp_getTransactionByHash", ethhandler.GetTransactionByHash);
    ("exp_getTransactionByBlockNumberAndIndex", ethhandler.GetTransactionByBlockNumberAndIndex);
    ("exp_getTransactionByBlockHashAndIndex", ethhandler.GetTransactionByBlockHashAndIndex);
    ("exp_getUncleByBlockHashAndIndex", ethhandler.GetUncleByBlockHashAndIndex);
    ("exp_getUncleByBlockNumberAndIndex", ethhandler.GetUncleByBlockNumberAndIndex);
    ("exp_getCompilers", ethhandler.GetCompilers);
    ("exp_compileSolidity", ethhandler.CompileSolidity);
    ("exp_newFilter", ethhandler.NewFilter);
    ("exp_newBlockFilter", ethhandler.NewBlockFilter);
    ("exp_newPendingTransactionFilter", ethhandler.NewPendingTransactionFilter);
    ("exp_uninstallFilter", ethhandler.UninstallFilter);
    ("exp_getFilterChanges", ethhandler.GetFilterChanges);
    ("exp_getFilterLogs", ethhandler.GetFilterLogs);
    ("exp_getLogs", ethhandler.GetLogs);
    ("exp_hashrate", ethhandler.Hashrate);
    ("exp_getWork", ethhandler.GetWork);
    ("exp_submitWork", ethhandler.SubmitWork);
    ("exp_submitHashrate", ethhandler.SubmitHashrate);
    ("exp_resend", ethhandler.Resend);
    ("exp_pendingTransactions", ethhandler.PendingTransactions);
    ("exp_getTransactionReceipt", ethhandler.GetTransactionReceipt)
  ].

(** What a call of a handler comes to: the two results it returns, or a
    run-time panic. *)
Inductive outcome (V : Type) :=
| Return (result : option V) (err : option Error)
| Panic.
Arguments Return {V} result err.
Arguments Panic {V}.

Record HashIndexArgs := {
  Hash : string;
  Index : Z;
}.

(** The second field is [Index] in the source as well. *)
Record BlockNumIndexArgs := {
  BlockNumber : Z;
  Index' : Z;
}.

Record BlockRes (T U : Type) := {
  Transactions : list T;
  Uncles : list U;
}.
Arguments Transactions {T U} b.
Arguments Uncles {T U} b.

(** What the handlers call into: the node ([xeth], [expanse]), the codec
    and the result types, all of other packages.  [call] stands
    for the bodies of the handlers that are not modelled one by one; each
    of them reads the parameters of the request and nothing else of it. *)
Class Node := {
  XEth : Type;
  Block : Type;
  TransactionRes : Type;
  UncleRes : Type;
  Reply : Type;
  ofTransaction : TransactionRes → Reply;
  ofUncle : UncleRes → Reply;
  DecodeHashIndexArgs : string → error + HashIndexArgs;
  DecodeBlockNumIndexArgs : string → error + BlockNumIndexArgs;
  EthBlockByHash : XEth → string → option Block;
  EthBlockByNumber : XEth → Z → option Block;
  Td : XEth → Block → Z;
  NewBlockRes : Block → Z → bool → BlockRes TransactionRes UncleRes;
  Solc : XEth → bool;
  call : ethhandler.t → XEth → string → outcome Reply;
}.

Section Api.
Context `{Node}.

Record ethApi := {
  xeth : XEth;
  methods : gmap string ethhandler.t;
}.

Definition NewEthApi (x : XEth) : ethApi := {| xeth := x; methods := ethMapping |}.

(** Indexing a slice with an [int64]: out of range is a run-time panic. *)
Definition at_index {A} (l : list A) (i : Z) : option A :=
  if (i <? 0) || (Z.of_nat (length l) <=? i) then None else l !! Z.to_nat i.

Definition GetTransactionByBlockHashAndIndex (self : ethApi) (req : Request) : outcome Reply :=
  match DecodeHashIndexArgs (Params req) with
  | inl err => Return None (Some (DecodeParamError err))
  | inr args =>
      match EthBlockByHash (xeth self) (Hash args) with
      | None => Return None None
      | Some raw =>
          let block := NewBlockRes raw (Td (xeth self) raw) true in
          if (Z.of_nat (length (Transactions block)) <=? Index args) || (Index args <? 0)
          then Return None None
          else match at_index (Transactions block) (Index args) with
               | Some t => Return (Some (ofTransaction t)) None
               | None => Panic
               end
      end
  end.

Definition GetTransactionByBlockNumberAndIndex (self : ethApi) (req : Request) : outcome Reply :=
  match DecodeBlockNumIndexArgs (Params req) with
  | inl err => Return None (Some (DecodeParamError err))
  | inr args =>
      match EthBlockByNumber (xeth self) (BlockNumber args) with
      | None => Return None None
      | Some raw =>
          let block := NewBlockRes raw (Td (xeth self) raw) true in
          if (Z.of_nat (length (Transactions block)) <=? Index' args) || (Index' args <? 0)
          then Return None None
          else match at_index (Transactions block) (Index' args) with
               | Some t => Return (Some (ofTransaction t)) None
               | None => Panic
               end
      end
  end.

Definition GetUncleByBlockHashAndIndex (self : ethApi) (req : Request) : outcome Reply :=
  match DecodeHashIndexArgs (Params req) with
  | inl err => Return None (Some (DecodeParamError err))
  | inr args =>
      match EthBlockByHash (xeth self) (Hash args) with
      | None => Return None None
      | Some raw =>
          let block := NewBlockRes raw (Td (xeth self) raw) false in
          if (Z.of_nat (length (Uncles block)) <=? Index args) || (Index args <? 0)
          then Return None None
          else match at_index (Uncles block) (Index args) with
               | Some u => Return (Some (ofUncle u)) None
               | None => Panic
               end
      end
  end.

Definition GetUncleByBlockNumberAndIndex (self : ethApi) (req : Request) : outcome Reply :=
  match DecodeBlockNumIndexArgs (Params req) with
  | inl err => Return None (Some (DecodeParamError err))
  | inr args =>
      match EthBlockByNumber (xeth self) (BlockNumber args) with
      | None => Return None None
      | Some raw =>
          let block := NewBlockRes raw (Td (xeth self) raw) true in
          if (Z.of_nat (length (Uncles block)) <=? Index' args) || (Index' args <? 0)
          then Return None None
          else match at_index (Uncles block) (Index' args) with
               | Some u => Return (Some (ofUncle u)) None
               | None => Panic
               end
      end
  end.

Definition Flush (self : ethApi) (req : Request) : outcome Reply :=
  Return None (Some (NotImplementedError (Method req))).

Definition CompileSolidity (self : ethApi) (req : Request) : outcome Reply :=
  if Solc (xeth self) then call ethhandler.CompileSolidity (xeth self) (Params req)
  else Return None (Some (NotAvailableError (Method req) "solc (solidity compiler) not found")).

(** [callback(self, req)] for a handler of the table. *)
Definition invoke (callback : ethhandler.t) (self : ethApi) (req : Request) : outcome Reply :=
  match callback with
  | ethhandler.GetTransactionByBlockHashAndIndex => GetTransactionByBlockHashAndIndex self req
  | ethhandler.GetTransactionByBlockNumberAndIndex => GetTransactionByBlockNumberAndIndex self req
  | ethhandler.GetUncleByBlockHashAndIndex => GetUncleByBlockHashAndIndex self req
  | ethhandler.GetUncleByBlockNumberAndIndex => GetUncleByBlockNumberAndIndex self req
  | ethhandler.Flush => Flush self req
  | ethhandler.CompileSolidity => CompileSolidity self req
  | other => call other (xeth self) (Params req)
  end.

(** Execute given request *)
Definition Execute (self : ethApi) (req : Request) : outcome Reply :=
  match methods self !! Method req with
  | Some callback => invoke callback self req
  | None => Return None (Some (NotImplementedError (Method req)))
  end.

(** The request [req] under another method name. *)
Definition withMethod (req : Request) (method : string) : Request :=
  {| Id := Id req; Jsonrpc := Jsonrpc req; Method := method; Params := Params req |}.

(** Whether a handler reads the method name of the request: [Flush]
    always, [CompileSolidity] when the compiler is missing. *)
Definition readsMethod (callback : ethhandler.t) (self : ethApi) : bool :=
  match callback with
  | ethhandler.Flush => true
  | ethhandler.CompileSolidity => negb (Solc (xeth self))
  | _ => false
  end.

Definition isPanic {V} (o : outcome V) : bool :=
  match o with
  | Panic => true
  | Return _ _ => false
  end.

End Api.

(** [strings.TrimPrefix], with the report whether the prefix was there. *)
Fixpoint trimPrefix (prefix s : string) : option string :=
  match prefix with
  | EmptyString => Some s
  | String c prefix' =>
      match s with
      | String c' s' => if Ascii.eqb c c' then trimPrefix prefix' s' else None
      | EmptyString => None
      end
  end.

(** Whether an entry of the table, if its name starts with exp_, has a twin
    under eth_ with the same handler. *)
Definition twinned (entry : string * ethhandler.t) : bool :=
  match trimPrefix "exp_" entry.1 with
  | Some X => bool_decide (ethMapping !! ("eth_" +:+ X) = Some entry.2)
  | None => true
  end.

End api.

(** ** Package [fmt]: the verbs the genesis code uses *)
Module fmt.

(** An operand of [Sprintf]: bytes (a byte slice or a byte array) or a
    string. *)
Inductive operand :=
| bytes (bs : list Z)
| text (s : string).

Fixpoint codes (s : string) : list Z :=
  match s with
  | EmptyString => []
  | String c t => conv.code c :: codes t
  end.

Definition chars (bs : list Z) : string :=
  foldr (λ b s, String (ascii_of_N (Z.to_N b)) s) EmptyString bs.

(** What a verb writes for an operand: [%x] two lower-case hex digits for
    each byte, [%s] the bytes as they are. *)
Definition verbText (verb : ascii) (o : operand) : string :=
  if conv.code verb =? 120 then
    match o with
    | bytes bs => conv.hexOfBytes bs
    | text s => conv.hexOfBytes (codes s)
    end
  else
    match o with
    | bytes bs => chars bs
    | text s => s
    end.

(** [Sprintf] for formats whose verbs are [%x] and [%s]. *)
Fixpoint segments (format : string) (operands : list operand) : list conv.segment :=
  match format with
  | EmptyString => []
  | String c t =>
      match t with
      | String c' t' =>
          if (conv.code c =? 37) && ((conv.code c' =? 120) || (conv.code c' =? 115)) then
            match operands with
            | o :: operands' => conv.Verb (verbText c' o) :: segments t' operands'
            | [] => conv.Verb ("%!" +:+ String c' "(MISSING)") :: segments t' []
            end
          else conv.Chr c :: segments t operands
      | EmptyString => [conv.Chr c]
      end
  end.

Definition Sprintf (format : string) (operands : list operand) : string :=
  conv.flatten (segments format operands).

End fmt.

(** ** Package [core]: the genesis blocks of the tests *)
Module core_testing.
Import ethdb core.

Record GenesisAccount := {
  Address : Z;
  Balance : Z;
}.

(** The format of one account and of the whole description in
    [WriteGenesisBlockForTesting]. *)
Definition accountFormat : string :=
  quoted "0x%x" +:+ ":{" +:+ quoted "balance" +:+ ":" +:+ quoted "0x%x" +:+ "}".

Definition forTestingFormat : string :=
  "{" +:+ nl +:+
  tab +:+ quoted "nonce" +:+ ":" +:+ quoted "0x%x" +:+ "," +:+ nl +:+
  tab +:+ quoted "gasLimit" +:+ ":" +:+ quoted "0x%x" +:+ "," +:+ nl +:+
  tab +:+ quoted "difficulty" +:+ ":" +:+ quoted "0x%x" +:+ "," +:+ nl +:+
  tab +:+ quoted "alloc" +:+ ": %s" +:+ nl +:+
  "}".

(** Lines 135-140: the loop over the accounts, with its index. *)
Fixpoint accountLoop (i : nat) (accountJson : string) (accounts : list GenesisAccount) : string :=
  match accounts with
  | [] => accountJson
  | account :: accounts =>
      let accountJson := if (i =? 0)%nat then accountJson else accountJson +:+ "," in
      let accountJson :=
        accountJson +:+ fmt.Sprintf accountFormat
          [fmt.bytes (types.be_bytes 20 (Address account));
           fmt.bytes (conv.Bytes (Balance account))] in
      accountLoop (S i) accountJson accounts
  end.

Definition accountJson (accounts : list GenesisAccount) : string :=
  accountLoop 0 "{" accounts +:+ "}".

Section Testing.
Context `{!types.Hasher, !state.Trie, !common.Conversions, !Decoder, !params.Defaults}.

Definition SetBalance (amount : Z) (o : state.StateObject) : state.StateObject :=
  {| state.balance := amount; state.code := state.code o; state.storage := state.storage o |}.

(** [GenesisBlockForTesting] creates a block in which [addr] has the given
    wei balance.  The state trie of the block is written to [db]. *)
Definition GenesisBlockForTesting (addr balance : Z) : M types.Block :=
  let statedb := state.New 0 in
  let obj := state.GetOrNewStateObject statedb addr in
  let statedb := <[addr := SetBalance balance obj]> statedb in
  let statedb := state.SyncObjects statedb in
  Sync statedb;;
  mret (types.NewBlock
          {| types.Difficulty := params.GenesisDifficulty;
             types.GasLimit := params.GenesisGasLimit;
             types.Root := state.Root statedb;
             types.Nonce := replicate 8 0;
             types.Time := 0;
             types.ParentHash := 0;
             types.Extra := [];
             types.MixDigest := 0;
             types.Coinbase := 0;
             types.Number := 0 |}
          [] []).

Definition forTestingDocument (accounts : list GenesisAccount) : string :=
  fmt.Sprintf forTestingFormat
    [fmt.bytes (types.EncodeNonce 0);
     fmt.bytes (conv.Bytes params.GenesisGasLimit);
     fmt.bytes (conv.Bytes params.GenesisDifficulty);
     fmt.text (accountJson accounts)].

(** [WriteGenesisBlockForTesting] drops the error of [WriteGenesisBlock]:
    the block it returns is [nil] then. *)
Definition WriteGenesisBlockForTesting (r : Range) (accounts : list GenesisAccount) :
    Store → option types.Block * Store := λ s,
  let '(res, s') := WriteGenesisBlock r (NewReader (forTestingDocument accounts)) s in
  (match res with inr block => Some block | inl _ => None end, s').

(** *** What the test genesis is expected to be

    The description the document stands for, the world state in which
    each account has the magnitude of its balance and nothing else, and the
    block over that state. *)
Definition forTestingGenesis (accounts : list GenesisAccount) : Genesis :=
  {| Nonce := "0x" +:+ conv.hexOfBytes (types.EncodeNonce 0);
     Timestamp := EmptyString; ParentHash := EmptyString; ExtraData := EmptyString;
     GasLimit := "0x" +:+ conv.hexOfBytes (conv.Bytes params.GenesisGasLimit);
     Difficulty := "0x" +:+ conv.hexOfBytes (conv.Bytes params.GenesisDifficulty);
     Mixhash := EmptyString; Coinbase := EmptyString;
     Alloc := foldl (λ m account,
                       <["0x" +:+ conv.hexOfBytes (types.be_bytes 20 (Address account)) :=
                           testnet.entry ("0x" +:+ conv.hexOfBytes (conv.Bytes (Balance account)))]> m)
                    ∅ accounts |}.

Definition forTestingState (accounts : list GenesisAccount) : state.StateDB :=
  foldl (λ st account,
           <[Address account :=
               {| state.balance := Z.abs (Balance account); state.code := [];
                  state.storage := ∅ |}]> st)
        ∅ accounts.

Definition forTestingBlock (accounts : list GenesisAccount) : types.Block :=
  types.NewBlock
    {| types.Difficulty := Z.abs params.GenesisDifficulty;
       types.GasLimit := Z.abs params.GenesisGasLimit;
       types.Root := state.Root (forTestingState accounts);
       types.Nonce := types.EncodeNonce 0;
       types.Time := 0;
       types.ParentHash := 0;
       types.Extra := [];
       types.MixDigest := 0;
       types.Coinbase := 0;
       types.Number := 0 |}
    [] [].

End Testing.

(** An account of the tests is well typed when its address fits the 20
    bytes of [common.Address]. *)
Definition wellTyped (account : GenesisAccount) : Prop := 0 ≤ Address account < 2 ^ 160.

End core_testing.

(** ** The lexer over the pieces of a formatted document

    The lexer up to the end of a piece of the input: the mode it is left
    in and the tokens completed so far.  After it, what the document of
    [WriteGenesisBlockForTesting] is expected to lex, parse and decode to. *)
Module jsonscan.
Import core json.

Fixpoint scan (m : mode) (s : string) : option (mode * list token) :=
  match s with
  | EmptyString => Some (m, [])
  | String c t =>
      match step m c with
      | Some (m', ts) => (λ r, (r.1, ts ++ r.2)) <$> scan m' t
      | None => None
      end
  end.

(** A double quote. *)
Definition dq : string := String (ascii_of_N 34) EmptyString.

(** The hex texts of an account, and the tokens of its entry. *)
Definition keyText (account : core_testing.GenesisAccount) : string :=
  conv.hexOfBytes (types.be_bytes 20 (core_testing.Address account)).
Definition balanceText (account : core_testing.GenesisAccount) : string :=
  conv.hexOfBytes (conv.Bytes (core_testing.Balance account)).

Definition entryTokens (key balance : string) : list token :=
  [Str ("0x" +:+ key); Colon; LBrace; Str "balance"; Colon; Str ("0x" +:+ balance); RBrace].

(** The tokens the loop over the accounts adds, from the index [i] on. *)
Fixpoint loopTokens (i : nat) (accounts : list core_testing.GenesisAccount) : list token :=
  match accounts with
  | [] => []
  | account :: accounts =>
      (if (i =? 0)%nat then [] else [Comma])
      ++ entryTokens (keyText account) (balanceText account) ++ loopTokens (S i) accounts
  end.

(** The tokens of the document up to its allocation table. *)
Definition headTokens (n g d : string) : list token :=
  [LBrace; Str "nonce"; Colon; Str ("0x" +:+ n); Comma;
   Str "gasLimit"; Colon; Str ("0x" +:+ g); Comma;
   Str "difficulty"; Colon; Str ("0x" +:+ d); Comma;
   Str "alloc"; Colon].

(** The members of the allocation object, and the table they decode to. *)
Definition members (accounts : list core_testing.GenesisAccount) : list (string * value) :=
  (λ account, ("0x" +:+ keyText account,
               Object [("balance", Text ("0x" +:+ balanceText account))])) <$> accounts.

Definition allocPair (account : core_testing.GenesisAccount) : string * AllocEntry :=
  ("0x" +:+ keyText account, testnet.entry ("0x" +:+ balanceText account)).

Definition allocOf (accounts : list core_testing.GenesisAccount) (old : gmap string AllocEntry) :
    gmap string AllocEntry :=
  foldl (λ m account, <["0x" +:+ keyText account := testnet.entry ("0x" +:+ balanceText account)]> m)
        old accounts.

End jsonscan.

(** ** Keys of the allocation table that denote one address *)
Module alloc.
Import core.
Section Alloc.
Context `{!common.Conversions}.
Import common.

(** The entries of an allocation list whose key denotes the address [a],
    and the sum of the balances a list of entries names. *)
Definition sameAddress (a : Z) (l : list (string * AllocEntry)) : list (string * AllocEntry) :=
  filter (λ e, HexToAddress e.1 = a) l.

Definition credit (l : list (string * AllocEntry)) : Z :=
  foldr (λ e acc, String2Big (Balance e.2) + acc) 0 l.

End Alloc.
End alloc.

(** ** Package [api]: the list of methods and the handlers over the
    transaction pool *)
Module api_pool.
Import shared api.

(** Whether an entry of the table, if its name starts with eth_, has a twin
    under exp_ with the same handler; getNatSpec is set apart. *)
Definition twinnedBack (entry : string * ethhandler.t) : bool :=
  match trimPrefix "eth_" entry.1 with
  | Some X => bool_decide (X = "getNatSpec")
              || bool_decide (ethMapping !! ("exp_" +:+ X) = Some entry.2)
  | None => true
  end.

(** The transaction a [ResendArgs] carries, and the arguments. *)
Record ResendTx (Transaction : Type) := {
  From : string;
  To : string;
  Nonce : string;
  Value : string;
  Data : string;
  Hash : string;
  tx : Transaction;
}.
Arguments From {Transaction} r.
Arguments To {Transaction} r.
Arguments Nonce {Transaction} r.
Arguments Value {Transaction} r.
Arguments Data {Transaction} r.
Arguments Hash {Transaction} r.
Arguments tx {Transaction} r.

Record ResendArgs (Transaction : Type) := {
  Tx : ResendTx Transaction;
  GasLimit : string;
  GasPrice : string;
}.
Arguments Tx {Transaction} r.
Arguments GasLimit {Transaction} r.
Arguments GasPrice {Transaction} r.

(** What the two handlers call into: the transaction pool and the account
    manager of the node, [xeth.Transact] and the codec, all of other
    packages.  The node is a value that the calls with an effect
    transform. *)
Class Pool := {
  Expanse : Type;
  Transaction : Type;
  Account : Type;
  TxRes : Type;
  TxFrom : Transaction → error + Z;
  SigHash : Transaction → Z;
  GetTransactions : Expanse → list Transaction;
  RemoveTx : Z → Expanse → Expanse;
  Accounts : Expanse → error + list Account;
  AccountAddress : Account → Z;
  newTx : Transaction → TxRes;
  Transact : string → string → string → string → string → string → string →
             Expanse → (string * option Error) * Expanse;
  DecodeResendArgs : string → error + ResendArgs Transaction;
}.

Section Api.
Context `{Node, Pool, !common.Conversions}.

(** [Methods]: a slice as long as the table, filled in the order of the
    visit; an assignment past its end is a run-time panic ([None]). *)
Definition Methods (r : core.Range) (self : ethApi) : option (list string) :=
  fst <$>
  foldl (λ acc kv,
           '(methods, i) ← acc;
           if decide (i < length methods)%nat then Some (<[i := kv.1]> methods, S i) else None)
        (Some (replicate (size (methods self)) EmptyString, 0%nat))
        (core.range r (methods self)).

(** Lines 669-674: the loop over the pending transactions. *)
Fixpoint resendLoop (args : ResendArgs Transaction) (from : Z) (pending : list Transaction)
    (node : Expanse) : outcome string * Expanse :=
  match pending with
  | [] =>
      (Return None (Some (OtherError (fmt.Sprintf "Transaction %s not found"
                                        [fmt.text (Hash (Tx args))]))), node)
  | p :: pending =>
      let hit := match TxFrom p with
                 | inr pFrom => bool_decide (pFrom = from)
                                && bool_decide (SigHash p = SigHash (tx (Tx args)))
                 | inl _ => false
                 end in
      if hit then
        let node := RemoveTx (common.HexToHash (Hash (Tx args))) node in
        let '((v, err), node) :=
          Transact (From (Tx args)) (To (Tx args)) (Nonce (Tx args)) (Value (Tx args))
                   (GasLimit args) (GasPrice args) (Data (Tx args)) node in
        (Return (Some v) err, node)
      else resendLoop args from pending node
  end.

Definition Resend (self : ethApi) (req : Request) (node : Expanse) : outcome string * Expanse :=
  match DecodeResendArgs (Params req) with
  | inl err => (Return None (Some (DecodeParamError err)), node)
  | inr args =>
      let from := common.HexToAddress (From (Tx args)) in
      let pending := GetTransactions node in
      resendLoop args from pending node
  end.

(** The sender of a pooled transaction as [PendingTransactions] takes it:
    the error of [From] is dropped, the address then is the zero one. *)
Definition senderOrZero (t : Transaction) : Z :=
  match TxFrom t with
  | inr from => from
  | inl _ => 0
  end.

Definition PendingTransactions (self : ethApi) (req : Request) (node : Expanse) :
    outcome (list TxRes) :=
  let txs := GetTransactions node in
  match Accounts node with
  | inl err => Return None (Some (OtherError err))
  | inr accounts =>
      let accountSet : gset Z :=
        foldl (λ set account, {[ AccountAddress account ]} ∪ set) ∅ accounts in
      let ltxs :=
        foldl (λ ltxs t, if bool_decide (senderOrZero t ∈ accountSet)
                         then ltxs ++ [newTx t] else ltxs) [] txs in
      Return (Some ltxs) None
  end.

(** What [Resend] does once it has found the transaction: the removal from
    the pool, then the new submission. *)
Definition resubmit (args : ResendArgs Transaction) (node : Expanse) :
    (string * option Error) * Expanse :=
  Transact (From (Tx args)) (To (Tx args)) (Nonce (Tx args)) (Value (Tx args))
           (GasLimit args) (GasPrice args) (Data (Tx args))
           (RemoveTx (common.HexToHash (Hash (Tx args))) node).

(** Whether a pending transaction is the one to resend. *)
Definition resent (args : ResendArgs Transaction) (p : Transaction) : Prop :=
  TxFrom p = inr (common.HexToAddress (From (Tx args))) ∧ SigHash p = SigHash (tx (Tx args)).

End Api.
End api_pool.

(** ** Concrete inputs

    To run the model on concrete inputs the two cryptographic parameters
    need values: a stand-in hash of headers and a stand-in commitment of
    account sets.  The theorems are stated for every hash and every
    commitment; the stand-ins only serve the examples. *)
Module sample.
Import core.

Definition hasher : types.Hasher := λ h,
  conv.be_value (types.Nonce h) + 3 * types.Root h + 5 * types.Difficulty h
  + 7 * types.GasLimit h + 11 * types.Time h + 13 * types.ParentHash h
  + 17 * types.MixDigest h + 19 * types.Coinbase h + 23 * conv.be_value (types.Extra h).

Definition trie : state.Trie := λ st,
  foldr (λ ao acc,
           acc + ao.1 * (1 + state.balance ao.2)
           + conv.be_value (state.code ao.2)
           + foldr (λ kv a, a + kv.1 * kv.2) 0 (map_to_list (state.storage ao.2)))
        1 (map_to_list st).

Definition defaults : params.Defaults :=
  {| params.GenesisGasLimit := 4712388; params.GenesisDifficulty := 131072 |}.

(** Two orders of iteration: as listed, and backwards. *)
Definition listed : Range := {| visit := λ A l, l |}.
Definition backwards : Range := {| visit := λ A l, reverse l |}.

Definition member (key value : string) : string := quoted key +:+ ":" +:+ quoted value.

(** A description with two accounts, one with storage and one with code. *)
Definition description : string :=
  "{" +:+ member "nonce" "0x42" +:+ "," +:+ member "difficulty" "0x400000000" +:+ ","
  +:+ member "gasLimit" "0x1388000" +:+ "," +:+ quoted "alloc" +:+ ":{"
  +:+ quoted "0x01" +:+ ":{" +:+ member "balance" "100" +:+ "," +:+ quoted "storage" +:+ ":{"
  +:+ member "0x01" "0x02" +:+ "," +:+ member "0x03" "0x04" +:+ "}},"
  +:+ quoted "0x02" +:+ ":{" +:+ member "balance" "7" +:+ "," +:+ member "code" "6000" +:+ "}"
  +:+ "}}".

(** A description whose one allocation entry has an address and a balance
    that are not numbers. *)
Definition unparseable : string :=
  "{" +:+ quoted "alloc" +:+ ":{" +:+ quoted "zz" +:+ ":{" +:+ member "balance" "xyz" +:+ "}}}".

(** A description that is not well formed: two keys of the allocation
    table, 0x01 and 01, denote the same address and give it different
    code. *)
Definition duplicated : string :=
  "{" +:+ quoted "alloc" +:+ ":{"
  +:+ quoted "0x01" +:+ ":{" +:+ member "code" "60" +:+ "},"
  +:+ quoted "01" +:+ ":{" +:+ member "code" "61" +:+ "}"
  +:+ "}}".

Definition fresh : ethdb.Store :=
  {| ethdb.db := ethdb.empty; ethdb.journal := []; ethdb.faults := [] |}.

Definition run (r : Range) (contents : string) (s : ethdb.Store) :
    (error + types.Block) * ethdb.Store :=
  @WriteGenesisBlock hasher trie conv.conversions json.decoder r (NewReader contents) s.

(** What the description decodes to, the block built from it, and the
    store after one installation into the empty one. *)
Definition genesis : Genesis :=
  match json.Unmarshal description with
  | inr g => g
  | inl _ => json.zeroGenesis
  end.

Definition block : types.Block :=
  @genesisBlock conv.conversions genesis
    (@state.Root trie (@genesisState conv.conversions listed genesis)).

Definition installed : ethdb.Store := (run listed description fresh).2.

(** The store after a run that the third write cut short. *)
Definition cut : ethdb.Store :=
  (run listed description
     {| ethdb.db := ethdb.empty; ethdb.journal := [];
        ethdb.faults := [None; None; Some "power loss"] |}).2.

(** A node with one block of three transactions and one uncle, whatever
    the hash or number asked for; the parameters of a request are the
    digits of the index. *)
Definition node : api.Node :=
  {| api.XEth := unit;
     api.Block := list Z * list Z;
     api.TransactionRes := Z;
     api.UncleRes := Z;
     api.Reply := Z;
     api.ofTransaction := id;
     api.ofUncle := id;
     api.DecodeHashIndexArgs := λ p,
       match conv.SetString p with
       | Some i => inr {| api.Hash := "0x00"; api.Index := i |}
       | None => inl "invalid index"
       end;
     api.DecodeBlockNumIndexArgs := λ p,
       match conv.SetString p with
       | Some i => inr {| api.BlockNumber := 0; api.Index' := i |}
       | None => inl "invalid index"
       end;
     api.EthBlockByHash := λ _ _, Some ([10; 20; 30], [7]);
     api.EthBlockByNumber := λ _ _, Some ([10; 20; 30], [7]);
     api.Td := λ _ _, 0;
     api.NewBlockRes := λ raw _ _, {| api.Transactions := raw.1; api.Uncles := raw.2 |};
     api.Solc := λ _, false;
     api.call := λ _ _ _, api.Return None None |}.

Definition request (method params : string) : shared.Request :=
  {| shared.Id := 1; shared.Jsonrpc := "2.0"; shared.Method := method;
     shared.Params := params |}.

End sample.

(** ** Further concrete inputs *)
Module fixtures.
Import core.

(** What the duplicated description of [sample] decodes to. *)
Definition duplicated : Genesis :=
  match json.Unmarshal sample.duplicated with
  | inr g => g
  | inl _ => json.zeroGenesis
  end.

(** Two accounts of a test, the second with a negative balance. *)
Definition accounts : list core_testing.GenesisAccount :=
  [ {| core_testing.Address := 1; core_testing.Balance := 100 |};
    {| core_testing.Address := 2; core_testing.Balance := -5 |} ].

(** A node whose pool is a list of transactions, each a sender and a
    signature hash (a negative sender: the signature is invalid), with the
    accounts 1 and 2; [Transact] adds a transaction of sender 1. *)
Definition pool : api_pool.Pool :=
  {| api_pool.Expanse := list (Z * Z);
     api_pool.Transaction := Z * Z;
     api_pool.Account := Z;
     api_pool.TxRes := Z * Z;
     api_pool.TxFrom := λ t, if t.1 <? 0 then inl "invalid sender" else inr t.1;
     api_pool.SigHash := λ t, t.2;
     api_pool.GetTransactions := λ node, node;
     api_pool.RemoveTx := λ h node, filter (λ t, t.2 ≠ h) node;
     api_pool.Accounts := λ _, inr [1; 2];
     api_pool.AccountAddress := λ a, a;
     api_pool.newTx := λ t, t;
     api_pool.Transact := λ from to nonce value gas price data node,
       (("0x08", None), node ++ [(1, 8)]);
     api_pool.DecodeResendArgs := λ p,
       match conv.SetString p with
       | Some h =>
           inr {| api_pool.Tx :=
                    {| api_pool.From := "0x01"; api_pool.To := "0x02";
                       api_pool.Nonce := "0"; api_pool.Value := "1";
                       api_pool.Data := EmptyString; api_pool.Hash := "0x07";
                       api_pool.tx := (1, h) |};
                  api_pool.GasLimit := "21000"; api_pool.GasPrice := "2" |}
       | None => inl "invalid transaction"
       end |}.

(** The arguments the parameters 7 decode to. *)
Definition resendArgs : api_pool.ResendArgs (Z * Z) :=
  {| api_pool.Tx :=
       {| api_pool.From := "0x01"; api_pool.To := "0x02";
          api_pool.Nonce := "0"; api_pool.Value := "1";
          api_pool.Data := EmptyString; api_pool.Hash := "0x07";
          api_pool.tx := (1, 7) |};
     api_pool.GasLimit := "21000"; api_pool.GasPrice := "2" |}.

End fixtures.


(** * Properties of the genesis installation *)
Module core_facts.
Import ethdb core.

Section Install.
Context `{!types.Hasher, !state.Trie, !common.Conversions, !Decoder}.

(** [install] is: look the block up, commit the state if it is new, then
    run the expected writes. *)
Lemma install_run (statedb : state.StateDB) (block : types.Block) (difficulty : Z) (s : Store) :
  install statedb block difficulty s =
    let ws := installWrites (db s) block difficulty in
    let k := granted (faults s) (length ws) in
    (match refusal (faults s) (length ws) with
     | Some e => inl e
     | None => inr (installed (db s) block)
     end,
     {| db := foldl apply (installBase (db s) statedb block) (take k ws);
        journal := journal s ++ take (S k) ws;
        faults := leftover (faults s) (length ws) |}).
Proof.
  destruct s as [d j fs].
  unfold install, installWrites, installBase, installed, GetBlock, get, mbind, M_bind; simpl.
  destruct (blocks d !! types.Hash block) as [found|] eqn:Hfound; simpl.
  - unfold WriteCanonicalHash, put; simpl.
    destruct fs as [|[e|] fs]; simpl; by rewrite ?take_0.
  - unfold Sync, modify, WriteTd, WriteBlock, WriteCanonicalHash, WriteHeadBlockHash, put, freshWrites; simpl.
    do 4 (destruct fs as [|[e|] fs]; simpl; rewrite <- ?app_assoc; simpl; try done).
Qed.

(** Once the document decodes, [WriteGenesisBlock] is [install] of the
    block built from it. *)
Lemma WriteGenesisBlock_decoded (r : Range) (contents : string) (genesis : Genesis) (s : Store) :
  Unmarshal contents = inr genesis →
  WriteGenesisBlock r (NewReader contents) s =
    install (genesisState r genesis)
            (genesisBlock genesis (state.Root (genesisState r genesis)))
            (common.String2Big (Difficulty genesis)) s.
Proof.
  intros Hdec. unfold WriteGenesisBlock, ReadAll, mbind, M_bind, mret, M_ret.
  by rewrite Hdec.
Qed.

(** **** Order of iteration *)

(** A left fold whose steps commute on entries with different keys gives
    the same result on every arrangement of a list with distinct keys. *)
Lemma foldl_arrangement {A B K : Type} (f : B → A → B) (key : A → K) (l1 l2 : list A) :
  (∀ b x y, key x ≠ key y → f (f b x) y = f (f b y) x) →
  l1 ≡ₚ l2 → NoDup (key <$> l1) → ∀ b, foldl f b l1 = foldl f b l2.
Proof.
  intros Hcomm Hperm. induction Hperm as [|x l1 l2 Hperm IH|x y l|l1 l2 l3 H12 IH12 H23 IH23];
    intros Hnd b.
  - done.
  - simpl. apply IH. by inversion Hnd.
  - simpl. rewrite Hcomm; [done|].
    rewrite !fmap_cons in Hnd. apply NoDup_cons in Hnd as [Hnotin _].
    intros Heq. apply Hnotin. rewrite Heq. apply list_elem_of_here.
  - rewrite IH12 by done. apply IH23. by rewrite <- H12.
Qed.

Lemma range_arrangement {V} (r1 r2 : Range) (m : gmap string V) :
  fair r1 → fair r2 → range r1 m ≡ₚ range r2 m.
Proof. intros Hr1 Hr2. unfold range. by rewrite (Hr1 _ _), (Hr2 _ _). Qed.

Lemma storeSlot_swap (o : state.StateObject) (x y : string * string) :
  common.HexToHash x.1 ≠ common.HexToHash y.1 →
  storeSlot (storeSlot o x) y = storeSlot (storeSlot o y) x.
Proof.
  intros Hne. unfold storeSlot; simpl. f_equal. by apply insert_insert_ne.
Qed.

Lemma allocObject_order (r1 r2 : Range) (entry : string * AllocEntry) (o : state.StateObject) :
  fair r1 → fair r2 →
  NoDup (common.HexToHash <$> (map_to_list (Storage entry.2)).*1) →
  allocObject r1 entry o = allocObject r2 entry o.
Proof.
  intros Hr1 Hr2 Hnd. unfold allocObject.
  apply (foldl_arrangement storeSlot (λ kv, common.HexToHash kv.1)).
  - intros b x y Hne. by apply storeSlot_swap.
  - by apply range_arrangement.
  - assert (Hp : range r1 (Storage entry.2) ≡ₚ map_to_list (Storage entry.2)) by apply Hr1.
    rewrite Hp. by rewrite <- list_fmap_compose in Hnd.
Qed.

Lemma GetOrNewStateObject_insert_eq (st : state.StateDB) (a : Z) (o : state.StateObject) :
  state.GetOrNewStateObject (<[a := o]> st) a = o.
Proof. unfold state.GetOrNewStateObject. by rewrite lookup_insert_eq. Qed.

Lemma GetOrNewStateObject_insert_ne (st : state.StateDB) (a b : Z) (o : state.StateObject) :
  a ≠ b → state.GetOrNewStateObject (<[a := o]> st) b = state.GetOrNewStateObject st b.
Proof. intros. unfold state.GetOrNewStateObject. by rewrite lookup_insert_ne. Qed.

(** The inner loop only rewrites the object it is run for. *)
Lemma setStorage_insert (r : Range) (address : Z) (o : state.StateObject)
    (st : state.StateDB) (slots : list (string * string)) :
  foldl (λ st kv, state.SetState address (common.HexToHash kv.1) (common.HexToHash kv.2) st)
        (<[address := o]> st) slots
  = <[address := foldl storeSlot o slots]> st.
Proof.
  revert o. induction slots as [|kv slots IH]; intros o; simpl; [done|].
  unfold state.SetState at 2.
  rewrite GetOrNewStateObject_insert_eq, insert_insert_eq. apply IH.
Qed.

Lemma allocStep_insert (r : Range) (st : state.StateDB) (entry : string * AllocEntry) :
  allocStep r st entry =
    <[common.HexToAddress entry.1 :=
        allocObject r entry (state.GetOrNewStateObject st (common.HexToAddress entry.1))]> st.
Proof.
  unfold allocStep, setStorage, allocObject, state.SetCode, state.AddBalance.
  cbv zeta. rewrite GetOrNewStateObject_insert_eq, insert_insert_eq.
  by rewrite (setStorage_insert r).
Qed.

Lemma allocStep_swap (r : Range) (st : state.StateDB) (x y : string * AllocEntry) :
  common.HexToAddress x.1 ≠ common.HexToAddress y.1 →
  allocStep r (allocStep r st x) y = allocStep r (allocStep r st y) x.
Proof.
  intros Hne. rewrite !allocStep_insert.
  rewrite !GetOrNewStateObject_insert_ne by done. by apply insert_insert_ne.
Qed.

Lemma allocate_order (r1 r2 : Range) (genesis : Genesis) (st : state.StateDB) :
  fair r1 → fair r2 → wellFormed genesis →
  allocate r1 st (Alloc genesis) = allocate r2 st (Alloc genesis).
Proof.
  intros Hr1 Hr2 [Hkeys Hslots]. unfold allocate.
  assert (Hp : range r1 (Alloc genesis) ≡ₚ map_to_list (Alloc genesis)) by apply Hr1.
  transitivity (foldl (allocStep r1) st (range r2 (Alloc genesis))).
  - apply (foldl_arrangement (allocStep r1) (λ e, common.HexToAddress e.1)).
    + intros b x y Hne. by apply allocStep_swap.
    + by apply range_arrangement.
    + rewrite Hp. by rewrite <- list_fmap_compose in Hkeys.
  - assert (Hin : ∀ e, e ∈ range r2 (Alloc genesis) → Alloc genesis !! e.1 = Some e.2).
    { intros [k a] He. apply elem_of_map_to_list. unfold range in He.
      by rewrite (Hr2 _ _) in He. }
    revert st Hin. generalize (range r2 (Alloc genesis)).
    induction l as [|e l IH]; intros st Hin; simpl; [done|].
    rewrite !allocStep_insert.
    rewrite (allocObject_order r1 r2) by eauto using list_elem_of_here.
    rewrite <- allocStep_insert. apply IH.
    intros e' He'. apply Hin. by apply list_elem_of_further.
Qed.

Lemma genesisState_order (r1 r2 : Range) (genesis : Genesis) :
  fair r1 → fair r2 → wellFormed genesis →
  genesisState r1 genesis = genesisState r2 genesis.
Proof. intros. unfold genesisState. f_equal. by apply allocate_order. Qed.

(** **** Answers of the store *)

Lemma refusal_none_granted (fs : list (option error)) (n : nat) :
  refusal fs n = None → granted fs n = n.
Proof.
  revert fs. induction n as [|n IH]; intros [|[e|] fs]; simpl; try done.
  intros Hr. by rewrite IH.
Qed.

Lemma granted_all_refusal (fs : list (option error)) (n : nat) :
  granted fs n = n → refusal fs n = None.
Proof.
  revert fs. induction n as [|n IH]; intros [|[e|] fs]; simpl; try done.
  intros Hg. apply IH. lia.
Qed.

Lemma first_refusal (k n : nat) (e : error) (rest : list (option error)) :
  (k < n)%nat →
  granted (replicate k None ++ Some e :: rest) n = k ∧
  refusal (replicate k None ++ Some e :: rest) n = Some e ∧
  leftover (replicate k None ++ Some e :: rest) n = rest.
Proof.
  revert n. induction k as [|k IH]; intros [|n] Hlt; try lia; simpl; [done|].
  destruct (IH n) as (-> & -> & ->); [lia|done].
Qed.

(** ** The claims about [WriteGenesisBlock] *)

(** C3. When the block built from the description is already stored under
    its hash, [WriteGenesisBlock] issues one write, the canonical-number
    mapping of the stored block, and returns the stored block; the
    total-difficulty records, the block records, the head pointer and the
    committed states are as before. *)
Theorem existing_block_rewrites_canonical_only
    (r : Range) (contents : string) (genesis : Genesis) (found : types.Block) (s : Store) :
  Unmarshal contents = inr genesis →
  blocks (db s) !! types.Hash (genesisBlock genesis (state.Root (genesisState r genesis)))
    = Some found →
  ∃ res s', WriteGenesisBlock r (NewReader contents) s = (res, s') ∧
    journal s' = journal s ++ [PutCanonicalHash (types.NumberU64 found) (types.Hash found)] ∧
    tds (db s') = tds (db s) ∧
    blocks (db s') = blocks (db s) ∧
    head (db s') = head (db s) ∧
    tries (db s') = tries (db s) ∧
    match refusal (faults s) 1 with
    | None => res = inr found ∧
              canonical (db s') = <[types.NumberU64 found := types.Hash found]> (canonical (db s))
    | Some e => res = inl e ∧ canonical (db s') = canonical (db s)
    end.
Proof.
  intros Hdec Hfound. rewrite (WriteGenesisBlock_decoded _ _ _ _ Hdec), install_run.
  unfold installWrites, installBase, installed. rewrite Hfound. cbn [length default].
  eexists _, _. split; [reflexivity|]. cbn [db journal faults].
  destruct (faults s) as [|[e|] fs]; cbn; done.
Qed.

(** C4. On a fresh installation (the block is not stored under its hash)
    [WriteGenesisBlock] issues the total difficulty of the hash, the block,
    the canonical hash of number 0 and the head pointer, in this order.
    With [k] the number of writes the store grants before its first
    refusal, the journal holds the first [k+1] of the four and the
    database the first [k]: a write is issued only after the ones before
    it succeeded, and all four are issued exactly when none is refused. *)
Theorem fresh_install_four_writes_in_order
    (r : Range) (contents : string) (genesis : Genesis) (s : Store) :
  Unmarshal contents = inr genesis →
  let statedb := genesisState r genesis in
  let block := genesisBlock genesis (state.Root statedb) in
  let hash := types.Hash block in
  let difficulty := common.String2Big (Difficulty genesis) in
  let writes := [ PutTotalDifficulty hash difficulty; PutBlock hash block;
                  PutCanonicalHash 0 hash; PutHead hash ] in
  let k := granted (faults s) 4 in
  blocks (db s) !! hash = None →
  ∃ res s', WriteGenesisBlock r (NewReader contents) s = (res, s') ∧
    journal s' = journal s ++ take (S k) writes ∧
    db s' = foldl apply (commit (state.Root statedb) statedb (db s)) (take k writes) ∧
    (res = inr block ↔ k = 4%nat).
Proof.
  intros Hdec statedb block hash difficulty writes k Hfresh.
  rewrite (WriteGenesisBlock_decoded _ _ _ _ Hdec), install_run.
  unfold installWrites, installBase, installed. fold statedb block hash. rewrite Hfresh.
  eexists _, _. split; [reflexivity|]. cbn [db journal faults length freshWrites default].
  change (types.NumberU64 block) with 0. fold hash difficulty writes k.
  split; [done|]. split; [done|].
  destruct (refusal (faults s) 4) as [e|] eqn:Hr.
  - split; [done|]. intros Hk. apply granted_all_refusal in Hk. congruence.
  - split; [|done]. intros _. by apply refusal_none_granted.
Qed.

(** C5. When the store refuses a write of the installation with an error,
    [WriteGenesisBlock] returns that very error, the refused write is the
    last one issued, and the database holds every write granted before
    it. *)
Theorem write_failure_surfaces_without_rollback
    (r : Range) (contents : string) (genesis : Genesis) (s : Store)
    (k : nat) (e : error) (rest : list (option error)) :
  Unmarshal contents = inr genesis →
  let statedb := genesisState r genesis in
  let block := genesisBlock genesis (state.Root statedb) in
  let writes := installWrites (db s) block (common.String2Big (Difficulty genesis)) in
  (k < length writes)%nat →
  faults s = replicate k None ++ Some e :: rest →
  WriteGenesisBlock r (NewReader contents) s =
    (inl e,
     {| db := foldl apply (installBase (db s) statedb block) (take k writes);
        journal := journal s ++ take (S k) writes;
        faults := rest |}).
Proof.
  intros Hdec statedb block writes Hk Hfaults.
  rewrite (WriteGenesisBlock_decoded _ _ _ _ Hdec), install_run.
  fold statedb block. cbv zeta. fold writes. rewrite Hfaults.
  by destruct (first_refusal k (length writes) e rest Hk) as (-> & -> & ->).
Qed.

(** C2. Calling [WriteGenesisBlock] a second time, with a description
    from which the same block is built, leaves the database as the first,
    successful call left it: the head pointer, the canonical entries, the
    total difficulties, the blocks and the committed states are unchanged,
    and the call returns the block the first call returned unless the
    store refuses its one write. *)
Theorem install_twice_same_state
    (r1 r2 : Range) (contents : string) (genesis : Genesis)
    (s s1 : Store) (b1 : types.Block) :
  Unmarshal contents = inr genesis →
  genesisBlock genesis (state.Root (genesisState r1 genesis))
    = genesisBlock genesis (state.Root (genesisState r2 genesis)) →
  WriteGenesisBlock r1 (NewReader contents) s = (inr b1, s1) →
  ∃ res s2, WriteGenesisBlock r2 (NewReader contents) s1 = (res, s2) ∧
    db s2 = db s1 ∧
    (refusal (faults s1) 1 = None → res = inr b1) ∧
    (∀ e, refusal (faults s1) 1 = Some e → res = inl e).
Proof.
  intros Hdec Hsame Hfirst.
  rewrite (WriteGenesisBlock_decoded _ _ _ _ Hdec), install_run in Hfirst.
  rewrite (WriteGenesisBlock_decoded _ _ _ _ Hdec), install_run, <- Hsame.
  set (block := genesisBlock genesis (state.Root (genesisState r1 genesis))) in *.
  set (difficulty := common.String2Big (Difficulty genesis)) in *.
  cbv zeta in Hfirst.
  destruct (refusal (faults s) _) as [e|] eqn:Hr; [done|].
  rewrite (refusal_none_granted _ _ Hr) in Hfirst.
  injection Hfirst as <- <-. cbn [db journal faults].
  unfold installWrites, installBase, installed.
  destruct (blocks (db s) !! types.Hash block) as [found|] eqn:Hfound.
  - cbn [length take foldl default]. cbn [apply blocks]. rewrite Hfound.
    eexists _, _. split; [reflexivity|]. cbn [db length default].
    split.
    + destruct (granted _ 1) as [|[|n]]; cbn [take foldl]; [done| |].
      all: unfold apply; f_equal; cbn [canonical]; apply insert_insert_eq.
    + split; intros; by destruct (refusal _ 1); simplify_eq.
  - cbn [length take foldl freshWrites default]. cbn [apply blocks commit].
    rewrite lookup_insert_eq.
    eexists _, _. split; [reflexivity|]. cbn [db length default].
    split.
    + destruct (granted _ 1) as [|[|n]]; cbn [take foldl]; [done| |].
      all: unfold apply; f_equal; cbn [canonical]; apply insert_insert_eq.
    + split; intros; by destruct (refusal _ 1); simplify_eq.
Qed.

(** C1, as amended. After a run that was cut short once the total
    difficulty and the block were written, a further call finds the block
    by its hash and issues the canonical-number write alone: no write of
    the block, of the difficulty or of the head pointer.  The database
    then agrees with the one an uninterrupted call produces on the blocks,
    the total difficulties, the canonical entries and the committed
    states; the head pointer is what it was before either run. *)
Theorem resumed_install_restores_canonical_entry
    (r1 r2 : Range) (contents : string) (genesis : Genesis)
    (d : Database) (e : error) :
  Unmarshal contents = inr genesis →
  let block := genesisBlock genesis (state.Root (genesisState r1 genesis)) in
  block = genesisBlock genesis (state.Root (genesisState r2 genesis)) →
  blocks d !! types.Hash block = None →
  let cut := (WriteGenesisBlock r1 (NewReader contents)
                {| db := d; journal := []; faults := [None; None; Some e] |}).2 in
  let clean := (WriteGenesisBlock r1 (NewReader contents)
                  {| db := d; journal := []; faults := [] |}).2 in
  ∃ s', WriteGenesisBlock r2 (NewReader contents)
          {| db := db cut; journal := []; faults := [] |} = (inr block, s') ∧
    journal s' = [PutCanonicalHash 0 (types.Hash block)] ∧
    blocks (db s') = blocks (db clean) ∧
    tds (db s') = tds (db clean) ∧
    canonical (db s') = canonical (db clean) ∧
    tries (db s') = tries (db clean) ∧
    head (db s') = head d ∧
    head (db clean) = Some (types.Hash block).
Proof.
  intros Hdec block Hsame Hfresh cut clean.
  set (statedb := genesisState r1 genesis).
  set (difficulty := common.String2Big (Difficulty genesis)).
  assert (Hcut : db cut = foldl apply (commit (state.Root statedb) statedb d)
                            (take 2 (freshWrites block difficulty))).
  { subst cut. rewrite (WriteGenesisBlock_decoded _ _ _ _ Hdec), install_run.
    cbn [db journal faults snd]. unfold installWrites, installBase.
    change (genesisBlock genesis (state.Root (genesisState r1 genesis))) with block.
    by rewrite Hfresh. }
  assert (Hclean : db clean = foldl apply (commit (state.Root statedb) statedb d)
                                (freshWrites block difficulty)).
  { subst clean. rewrite (WriteGenesisBlock_decoded _ _ _ _ Hdec), install_run.
    cbn [db journal faults snd]. unfold installWrites, installBase.
    change (genesisBlock genesis (state.Root (genesisState r1 genesis))) with block.
    by rewrite Hfresh. }
  rewrite (WriteGenesisBlock_decoded _ _ _ _ Hdec), install_run, <- Hsame.
  cbn [db journal faults]. rewrite Hcut, Hclean.
  unfold installWrites, installBase, installed.
  cbn [freshWrites take foldl apply commit blocks].
  rewrite lookup_insert_eq.
  eexists. split; [reflexivity|]. by cbn.
Qed.

(** C7. For a well-formed description, two runs of the construction, in
    whatever orders their [range] statements visit the allocation and the
    storage tables, yield the same state root and the same block hash. *)
Theorem genesis_build_is_deterministic (r1 r2 : Range) (genesis : Genesis) :
  fair r1 → fair r2 → wellFormed genesis →
  state.Root (genesisState r1 genesis) = state.Root (genesisState r2 genesis) ∧
  types.Hash (genesisBlock genesis (state.Root (genesisState r1 genesis)))
    = types.Hash (genesisBlock genesis (state.Root (genesisState r2 genesis))).
Proof.
  intros Hr1 Hr2 Hwf. by rewrite (genesisState_order r1 r2 genesis Hr1 Hr2 Hwf).
Qed.

(** C6, as amended. With a store that grants every write,
    [WriteGenesisBlock] returns an error exactly when reading the input or
    decoding the document fails; the texts of addresses and balances go
    through conversions that report nothing, so they cannot make it fail.
    When it does fail the store is as it was. *)
Theorem loader_fails_exactly_on_decoding (r : Range) (reader : Reader) (s : Store) :
  refusal (faults s) 4 = None →
  let unreadable :=
    match reader with
    | FailingReader err => Some err
    | NewReader contents =>
        match Unmarshal contents with inl err => Some err | inr _ => None end
    end in
  match unreadable with
  | Some err => WriteGenesisBlock r reader s = (inl err, s)
  | None => ∃ block s', WriteGenesisBlock r reader s = (inr block, s')
  end.
Proof.
  intros Hgrant. destruct reader as [contents|err]; cbv zeta.
  - destruct (Unmarshal contents) as [err|genesis] eqn:Hdec.
    + unfold WriteGenesisBlock, ReadAll, mbind, M_bind, mret, M_ret. by rewrite Hdec.
    + rewrite (WriteGenesisBlock_decoded _ _ _ _ Hdec), install_run. cbv zeta.
      unfold installWrites.
      destruct (blocks (db s) !! _) as [found|]; cbn [length freshWrites].
      * destruct (faults s) as [|[e|] fs]; cbn in *; eauto; done.
      * rewrite Hgrant. eauto.
  - done.
Qed.

(** X1. A fresh installation that returns without error leaves the store
    with the block and its total difficulty under the hash, the hash as
    the canonical entry of number 0 and as the head, and the world state
    committed under its root: the head resolves to a stored block. *)
Theorem fresh_install_postcondition
    (r : Range) (contents : string) (genesis : Genesis) (s s' : Store) (b : types.Block) :
  Unmarshal contents = inr genesis →
  let statedb := genesisState r genesis in
  let block := genesisBlock genesis (state.Root statedb) in
  let hash := types.Hash block in
  blocks (db s) !! hash = None →
  WriteGenesisBlock r (NewReader contents) s = (inr b, s') →
  b = block ∧
  head (db s') = Some hash ∧
  canonical (db s') !! 0 = Some hash ∧
  blocks (db s') !! hash = Some block ∧
  tds (db s') !! hash = Some (common.String2Big (Difficulty genesis)) ∧
  tries (db s') !! state.Root statedb = Some statedb.
Proof.
  intros Hdec statedb block hash Hfresh Hrun.
  rewrite (WriteGenesisBlock_decoded _ _ _ _ Hdec), install_run in Hrun.
  cbv zeta in Hrun. unfold installWrites, installBase, installed in Hrun.
  fold statedb block hash in Hrun. rewrite Hfresh in Hrun.
  cbn [length freshWrites default] in Hrun.
  destruct (refusal (faults s) 4) eqn:Hr; [done|].
  rewrite (refusal_none_granted _ _ Hr) in Hrun. injection Hrun as <- <-.
  cbn [db take foldl apply commit blocks tds canonical head tries].
  change (types.NumberU64 block) with 0. fold hash.
  by rewrite !lookup_insert_eq.
Qed.

(** X2. The order of the four writes protects the pointers: however many
    writes of a fresh installation the store grants, the canonical entries
    or the head differ from what they were only if the block and its total
    difficulty are stored. *)
Theorem pointers_follow_records
    (r : Range) (contents : string) (genesis : Genesis) (s s' : Store)
    (res : error + types.Block) :
  Unmarshal contents = inr genesis →
  let statedb := genesisState r genesis in
  let block := genesisBlock genesis (state.Root statedb) in
  let hash := types.Hash block in
  blocks (db s) !! hash = None →
  WriteGenesisBlock r (NewReader contents) s = (res, s') →
  canonical (db s') ≠ canonical (db s) ∨ head (db s') ≠ head (db s) →
  blocks (db s') !! hash = Some block ∧
  tds (db s') !! hash = Some (common.String2Big (Difficulty genesis)).
Proof.
  intros Hdec statedb block hash Hfresh Hrun Hmoved.
  rewrite (WriteGenesisBlock_decoded _ _ _ _ Hdec), install_run in Hrun.
  cbv zeta in Hrun. unfold installWrites, installBase in Hrun.
  fold statedb block hash in Hrun. rewrite Hfresh in Hrun.
  change (length (freshWrites block (common.String2Big (Difficulty genesis))))
    with 4%nat in Hrun.
  remember (granted (faults s) 4) as k eqn:Hk. clear Hk.
  apply (f_equal snd) in Hrun. cbn [snd] in Hrun. subst s'.
  cbn [db] in Hmoved |- *. unfold freshWrites in Hmoved |- *. fold hash in Hmoved |- *.
  destruct k as [|[|[|k]]];
    cbn [take foldl apply commit blocks tds canonical head] in Hmoved |- *.
  1-3: by destruct Hmoved.
  destruct k; cbn [take foldl apply blocks tds]; rewrite ?take_nil;
    cbn [foldl blocks tds]; by rewrite !lookup_insert_eq.
Qed.

End Install.
End core_facts.

(** * Hexadecimal text and the numbers it stands for *)
Module conv_facts.
Import conv.

Lemma code_ascii_of (x : Z) : 0 ≤ x < 256 → code (ascii_of_N (Z.to_N x)) = x.
Proof.
  intros Hx. unfold code. rewrite N_ascii_embedding by lia. lia.
Qed.

Lemma code_hexChar (d : Z) :
  0 ≤ d < 16 → code (hexChar d) = if d <? 10 then 48 + d else 87 + d.
Proof.
  intros Hd. unfold hexChar. apply code_ascii_of. destruct (d <? 10) eqn:E; lia.
Qed.

Lemma bigDigit_hexChar (d : Z) : 0 ≤ d < 16 → bigDigit 16 (hexChar d) = Some d.
Proof.
  intros Hd. unfold bigDigit. rewrite code_hexChar by done.
  destruct (d <? 10) eqn:E.
  - apply Z.ltb_lt in E.
    replace ((48 <=? 48 + d) && (48 + d <=? 57)) with true by (symmetry; apply andb_true_iff; lia).
    replace (48 + d - 48 <? 16) with true by lia. f_equal. lia.
  - apply Z.ltb_ge in E.
    replace ((48 <=? 87 + d) && (87 + d <=? 57)) with false by (symmetry; apply andb_false_iff; lia).
    replace ((97 <=? 87 + d) && (87 + d <=? 122)) with true by (symmetry; apply andb_true_iff; lia).
    replace (87 + d - 87 <? 16) with true by lia. f_equal. lia.
Qed.

(** Scanning the hex text of bytes reads them back as a big-endian
    number. *)
Lemma scanDigits_hexOfBytes (bs : list Z) (acc : Z) :
  Forall isByte bs →
  scanDigits 16 acc (hexOfBytes bs) = Some (foldl (λ a b, a * 256 + b) acc bs).
Proof.
  intros Hbs. revert acc. induction Hbs as [|b bs Hb Hbs IH]; intros acc; [done|].
  unfold isByte in Hb. cbn [hexOfBytes foldr scanDigits foldl].
  rewrite !bigDigit_hexChar.
  - rewrite IH. do 2 f_equal.
    pose proof (Z.div_mod b 16 ltac:(lia)). lia.
  - apply Z.mod_pos_bound. lia.
  - split; [apply Z.div_pos; lia|apply Z.div_lt_upper_bound; lia].
Qed.

Lemma String2Big_hex (bs : list Z) :
  Forall isByte bs → bs ≠ [] →
  String2Big ("0x" +:+ hexOfBytes bs) = be_value bs.
Proof.
  intros Hbs Hne. unfold String2Big, SetString.
  change ("0x" +:+ hexOfBytes bs) with (String "0" (String "x" (hexOfBytes bs))).
  cbv beta iota zeta. unfold digits.
  destruct bs as [|b bs]; [done|].
  rewrite scanDigits_hexOfBytes by done.
  by cbn [hexOfBytes foldr fmap option_fmap option_map default].
Qed.

Lemma be_bytes_isByte (w : nat) (n : Z) : Forall isByte (types.be_bytes w n).
Proof.
  revert n. induction w as [|w IH]; intros n; cbn [types.be_bytes]; [constructor|].
  apply Forall_app. split; [apply IH|].
  constructor; [|constructor]. apply Z.mod_pos_bound. lia.
Qed.

Lemma be_bytes_nonempty (w : nat) (n : Z) : types.be_bytes (S w) n ≠ [].
Proof. cbn [types.be_bytes]. by destruct (types.be_bytes w (n / 256)). Qed.

Lemma be_value_be_bytes (w : nat) (n : Z) :
  0 ≤ n → be_value (types.be_bytes w n) = n mod 256 ^ Z.of_nat w.
Proof.
  revert n. induction w as [|w IH]; intros n Hn.
  - cbn. by rewrite Z.mod_1_r.
  - cbn [types.be_bytes]. unfold be_value in *. rewrite foldl_app. cbn [foldl].
    rewrite IH by (apply Z.div_pos; lia).
    rewrite Nat2Z.inj_succ, Z.pow_succ_r by lia.
    rewrite (Z.rem_mul_r n 256 (256 ^ Z.of_nat w)) by lia. lia.
Qed.

Lemma be_value_EncodeNonce (nonce : Z) :
  0 ≤ nonce < 2 ^ 64 → be_value (types.EncodeNonce nonce) = nonce.
Proof.
  intros Hn. unfold types.EncodeNonce.
  rewrite be_value_be_bytes by (apply Z.mod_pos_bound; lia).
  change (256 ^ Z.of_nat 8) with (2 ^ 64). rewrite Z.mod_mod by lia.
  apply Z.mod_small. lia.
Qed.

Lemma be_value_Bytes (n : Z) : 0 < n → be_value (Bytes n) = n.
Proof.
  intros Hn. unfold Bytes. rewrite Z.abs_eq by lia.
  rewrite be_value_be_bytes by lia. apply Z.mod_small. split; [lia|].
  unfold byteLength. destruct (n =? 0) eqn:E; [lia|].
  pose proof (Z.log2_nonneg n) as Hl.
  rewrite Z2Nat.id by (pose proof (Z.div_pos (Z.log2 n) 8); lia).
  change 256 with (2 ^ 8). rewrite <- Z.pow_mul_r by (try apply Z.add_nonneg_nonneg; try apply Z.div_pos; lia).
  apply Z.lt_le_trans with (2 ^ (Z.log2 n + 1)).
  - apply Z.log2_spec in Hn. rewrite Z.add_1_r. lia.
  - apply Z.pow_le_mono_r; [lia|].
    pose proof (Z.div_mod (Z.log2 n) 8 ltac:(lia)).
    pose proof (Z.mod_pos_bound (Z.log2 n) 8 ltac:(lia)). lia.
Qed.

Lemma Bytes_nonempty (n : Z) : 0 < n → Bytes n ≠ [].
Proof.
  intros Hn. unfold Bytes, byteLength. rewrite Z.abs_eq by lia.
  destruct (n =? 0) eqn:E; [lia|].
  pose proof (Z.log2_nonneg n). pose proof (Z.div_pos (Z.log2 n) 8 ltac:(lia) ltac:(lia)).
  replace (Z.to_nat (Z.log2 n / 8 + 1)) with (S (Z.to_nat (Z.log2 n / 8))) by lia.
  apply be_bytes_nonempty.
Qed.

End conv_facts.

(** * The fixed test network *)
Module testnet_facts.
Import ethdb core core_facts.

Lemma append_assoc (a b c : string) : (a +:+ b) +:+ c = a +:+ (b +:+ c).
Proof.
  induction a as [|x a IH]; [done|].
  change (String x ((a +:+ b) +:+ c) = String x (a +:+ (b +:+ c))). by rewrite IH.
Qed.

Lemma append_nil_r (a : string) : a +:+ EmptyString = a.
Proof.
  induction a as [|x a IH]; [done|].
  change (String x (a +:+ EmptyString) = String x a). by rewrite IH.
Qed.

Lemma append_snoc (acc : string) (c : ascii) (t : string) :
  json.snoc acc c +:+ t = acc +:+ String c t.
Proof. unfold json.snoc. by rewrite append_assoc. Qed.

(** Inside a string literal a plain text is taken over as it is. *)
Lemma lex_plain (text rest acc : string) :
  json.plain text = true →
  json.lex (json.InString acc) (text +:+ rest) = json.lex (json.InString (acc +:+ text)) rest.
Proof.
  revert acc. induction text as [|c text IH]; intros acc Hplain.
  - change (EmptyString +:+ rest) with rest. by rewrite append_nil_r.
  - cbn [json.plain] in Hplain. apply andb_true_iff in Hplain as [Hc Hplain].
    apply andb_true_iff in Hc as [Hc Hctl]. apply andb_true_iff in Hc as [Hq Hb].
    apply negb_true_iff in Hq, Hb, Hctl.
    change (String c text +:+ rest) with (String c (text +:+ rest)).
    cbn [json.lex json.step]. rewrite Hq, Hb, Hctl.
    change (app [] <$> ?x) with (id <$> x). rewrite option_fmap_id.
    rewrite IH by done. by rewrite append_snoc.
Qed.

Lemma lex_flatten (segs : list conv.segment) (m : json.mode) :
  Forall json.plainVerb segs →
  ∀ ts, json.lexSegments m segs = Some ts → json.lex m (conv.flatten segs) = Some ts.
Proof.
  intros Hsegs. revert m. induction Hsegs as [|g segs Hg Hsegs IH]; intros m ts; [done|].
  destruct g as [c|text]; cbn [json.lexSegments conv.flatten json.lex].
  - destruct (json.step m c) as [[m' ts']|]; [|done].
    destruct (json.lexSegments m' segs) as [ts''|] eqn:Hrest; [|done].
    by rewrite (IH m' ts'' Hrest).
  - destruct m as [|acc|acc|acc]; try done.
    intros Hlex. rewrite lex_plain by done. by apply IH.
Qed.

Lemma segments_plain (format : string) (operands : list string) :
  Forall (λ o, json.plain o = true) operands →
  Forall json.plainVerb (conv.segments format operands).
Proof.
  assert (Hlen : ∀ n format operands, (String.length format ≤ n)%nat →
            Forall (λ o, json.plain o = true) operands →
            Forall json.plainVerb (conv.segments format operands)); [|by eauto].
  clear. induction n as [|n IH]; intros format operands Hn Hops.
  - destruct format; [constructor|cbn in Hn; lia].
  - destruct format as [|c [|c' t']]; cbn [conv.segments].
    + constructor.
    + by repeat constructor.
    + cbn in Hn. destruct (_ && _).
      * destruct Hops as [|o operands Ho Hops].
        -- constructor; [done|]. apply IH; [lia|constructor].
        -- constructor; [done|]. apply IH; [lia|done].
      * constructor; [done|]. apply (IH (String c' t')); [cbn; lia|done].
Qed.

Lemma hexChar_plain (d : Z) (t : string) :
  0 ≤ d < 16 → json.plain (String (conv.hexChar d) t) = json.plain t.
Proof.
  intros Hd. cbn [json.plain]. rewrite conv_facts.code_hexChar by done.
  destruct (d <? 10) eqn:E;
    repeat match goal with
    | |- context [negb (?a =? ?b)] => replace (a =? b) with false by lia
    | |- context [negb (?a <? ?b)] => replace (a <? b) with false by lia
    end; done.
Qed.

Lemma hexOfBytes_plain (bs : list Z) :
  Forall conv.isByte bs → json.plain (conv.hexOfBytes bs) = true.
Proof.
  induction 1 as [|b bs Hb Hbs IH]; [done|]. unfold conv.isByte in Hb.
  cbn [conv.hexOfBytes foldr]. rewrite !hexChar_plain; [done| |].
  - apply Z.mod_pos_bound. lia.
  - split; [apply Z.div_pos; lia|apply Z.div_lt_upper_bound; lia].
Qed.

(** The formatted document decodes to the expected description. *)
Lemma testGenesis_decodes (nonce gasLimit difficulty : list Z) :
  Forall conv.isByte nonce → Forall conv.isByte gasLimit →
  Forall conv.isByte difficulty →
  json.Unmarshal (testGenesis nonce gasLimit difficulty)
    = inr (testnet.genesis (conv.hexOfBytes nonce) (conv.hexOfBytes gasLimit)
                           (conv.hexOfBytes difficulty)).
Proof.
  intros Hn Hg Hd. apply hexOfBytes_plain in Hn, Hg, Hd.
  unfold testGenesis, conv.Sprintf. cbn [fmap list_fmap].
  revert Hn Hg Hd.
  generalize (conv.hexOfBytes nonce) (conv.hexOfBytes gasLimit) (conv.hexOfBytes difficulty).
  intros X Y Z HX HY HZ. unfold json.Unmarshal, json.parse.
  pose proof (segments_plain testGenesisFormat [X; Y; Z]
                ltac:(by repeat constructor)) as Hplain.
  destruct (json.lexSegments json.Outside (conv.segments testGenesisFormat [X; Y; Z]))
    as [ts|] eqn:Hlex.
  - rewrite (lex_flatten _ _ Hplain ts Hlex).
    vm_compute in Hlex. injection Hlex as <-. vm_compute. reflexivity.
  - vm_compute in Hlex. discriminate.
Qed.

Section TestNet.
Context `{!types.Hasher, !state.Trie, !params.Defaults}.
#[local] Existing Instance conv.conversions.
#[local] Existing Instance json.decoder.

Lemma testnet_wellFormed (nonce gasLimit difficulty : string) :
  wellFormed (testnet.genesis nonce gasLimit difficulty).
Proof.
  split.
  - apply (bool_decide_unpack _). by vm_compute.
  - apply map_Forall_lookup. apply (bool_decide_unpack _). by vm_compute.
Qed.

(** What [WriteGenesisBlock] returns, when it returns a block into a
    store that keeps blocks under their own hashes, has the hash of the
    block built from the description. *)
Lemma returned_block_hash (r : Range) (contents : string) (genesis : Genesis)
    (s s' : Store) (b : types.Block) :
  Unmarshal contents = inr genesis →
  keyedByHash (db s) →
  WriteGenesisBlock r (NewReader contents) s = (inr b, s') →
  types.Hash b = types.Hash (genesisBlock genesis (state.Root (genesisState r genesis))).
Proof.
  intros Hdec Hkeyed Hrun.
  rewrite (WriteGenesisBlock_decoded _ _ _ _ Hdec), install_run in Hrun.
  cbv zeta in Hrun. destruct (refusal _ _); [done|].
  injection Hrun as <- _. unfold installed.
  destruct (blocks (db s) !! _) as [found|] eqn:Hfound; [|done].
  by apply Hkeyed.
Qed.

(** Visiting a table as listed is one of the orders of a [range]. *)
Lemma listed_fair : fair sample.listed.
Proof. by intros A l. Qed.

(** C8. For a nonce of 64 bits and positive defaults, the document
    [WriteTestNetGenesisBlock] formats decodes to a description with
    exactly twelve allocation entries, four of balance 1 and eight of
    balance 2^200, and the block built from it carries the given nonce and
    the default gas limit and difficulty.  The function installs that
    block: the world state it builds has twelve accounts, four of balance
    1 and eight of balance 2^200; into a store that does not hold the
    block and grants the writes it returns the block after the four writes
    of a fresh installation, leaving the block, the default difficulty as
    its total difficulty, the canonical entry of number 0, the head and
    the committed state in the store; when the block is stored it returns
    the stored block after the one canonical write.  Two invocations with
    the same nonce return blocks of the same hash, in whatever order each
    visits the allocation table. *)
Theorem testnet_genesis_block (nonce : Z) :
  0 ≤ nonce < 2 ^ 64 → 0 < params.GenesisGasLimit → 0 < params.GenesisDifficulty →
  ∃ genesis,
    Unmarshal (testGenesis (types.EncodeNonce nonce) (conv.Bytes params.GenesisGasLimit)
                           (conv.Bytes params.GenesisDifficulty)) = inr genesis ∧
    size (Alloc genesis) = 12%nat ∧
    size (filter (λ kv, common.String2Big (Balance kv.2) = 1) (Alloc genesis)) = 4%nat ∧
    size (filter (λ kv, common.String2Big (Balance kv.2) = 2 ^ 200) (Alloc genesis)) = 8%nat ∧
    (∀ r, let header := types.header (genesisBlock genesis (state.Root (genesisState r genesis))) in
       types.Nonce header = types.EncodeNonce nonce ∧
       types.GasLimit header = params.GenesisGasLimit ∧
       types.Difficulty header = params.GenesisDifficulty) ∧
    (∀ r s,
       let statedb := genesisState r genesis in
       let block := genesisBlock genesis (state.Root statedb) in
       let hash := types.Hash block in
       fair r →
       (size statedb = 12%nat ∧
        size (filter (λ ao, state.balance ao.2 = 1) statedb) = 4%nat ∧
        size (filter (λ ao, state.balance ao.2 = 2 ^ 200) statedb) = 8%nat) ∧
       (blocks (db s) !! hash = None → refusal (faults s) 4 = None →
        ∃ s', WriteTestNetGenesisBlock r nonce s = (inr block, s') ∧
          journal s' = journal s ++ freshWrites block params.GenesisDifficulty ∧
          blocks (db s') !! hash = Some block ∧
          tds (db s') !! hash = Some params.GenesisDifficulty ∧
          canonical (db s') !! 0 = Some hash ∧
          head (db s') = Some hash ∧
          tries (db s') !! state.Root statedb = Some statedb) ∧
       (∀ found, blocks (db s) !! hash = Some found → refusal (faults s) 1 = None →
        ∃ s', WriteTestNetGenesisBlock r nonce s = (inr found, s') ∧
          journal s' = journal s ++ [PutCanonicalHash (types.NumberU64 found) (types.Hash found)])) ∧
    (∀ r1 r2 s1 s2 b1 b2 s1' s2',
       fair r1 → fair r2 → keyedByHash (db s1) → keyedByHash (db s2) →
       WriteTestNetGenesisBlock r1 nonce s1 = (inr b1, s1') →
       WriteTestNetGenesisBlock r2 nonce s2 = (inr b2, s2') →
       types.Hash b1 = types.Hash b2).
Proof.
  intros Hnonce Hgas Hdiff.
  set (n := types.EncodeNonce nonce).
  set (g := conv.Bytes params.GenesisGasLimit).
  set (d := conv.Bytes params.GenesisDifficulty).
  assert (Hn : Forall conv.isByte n) by apply conv_facts.be_bytes_isByte.
  assert (Hg : Forall conv.isByte g) by apply conv_facts.be_bytes_isByte.
  assert (Hd : Forall conv.isByte d) by apply conv_facts.be_bytes_isByte.
  pose proof (testGenesis_decodes n g d Hn Hg Hd) as Hdec.
  assert (Hheader : ∀ r,
            let header := types.header (genesisBlock (testnet.genesis (conv.hexOfBytes n)
                              (conv.hexOfBytes g) (conv.hexOfBytes d))
                            (state.Root (genesisState r (testnet.genesis (conv.hexOfBytes n)
                              (conv.hexOfBytes g) (conv.hexOfBytes d))))) in
            types.Nonce header = types.EncodeNonce nonce ∧
            types.GasLimit header = params.GenesisGasLimit ∧
            types.Difficulty header = params.GenesisDifficulty).
  { intros r. cbn [genesisBlock types.NewBlock types.header types.Nonce types.GasLimit
                   types.Difficulty testnet.genesis Nonce GasLimit Difficulty].
    cbn [common.String2Big conv.conversions].
    rewrite !conv_facts.String2Big_hex
      by (done || apply conv_facts.be_bytes_nonempty || by apply conv_facts.Bytes_nonempty).
    subst n g d. rewrite conv_facts.be_value_EncodeNonce, !conv_facts.be_value_Bytes by done.
    split; [|done]. f_equal. unfold common.Uint64. rewrite Z.abs_eq by lia.
    apply Z.mod_small. lia. }
  assert (Hdifficulty : common.String2Big (Difficulty (testnet.genesis (conv.hexOfBytes n)
                              (conv.hexOfBytes g) (conv.hexOfBytes d))) = params.GenesisDifficulty).
  { exact (proj2 (proj2 (Hheader sample.listed))). }
  eexists. split; [exact Hdec|].
  split; [by vm_compute|]. split; [by vm_compute|]. split; [by vm_compute|].
  split; [exact Hheader|]. split.
  - intros r s statedb block hash Hr. split; [|split].
    + subst statedb.
      rewrite (genesisState_order r sample.listed _ Hr listed_fair (testnet_wellFormed _ _ _)).
      repeat split; vm_compute; reflexivity.
    + intros Hfresh Hgrant. unfold WriteTestNetGenesisBlock. fold n g d.
      rewrite (WriteGenesisBlock_decoded _ _ _ _ Hdec), install_run.
      cbv zeta. unfold installWrites, installBase, installed.
      fold statedb block hash. rewrite Hfresh, Hdifficulty.
      cbn [length freshWrites default]. rewrite Hgrant, (refusal_none_granted _ _ Hgrant).
      eexists. split; [reflexivity|]. unfold freshWrites.
      cbn [db journal take foldl apply commit blocks tds canonical head tries].
      change (types.NumberU64 block) with 0. fold hash.
      by rewrite !lookup_insert_eq.
    + intros found Hfound Hgrant. unfold WriteTestNetGenesisBlock. fold n g d.
      rewrite (WriteGenesisBlock_decoded _ _ _ _ Hdec), install_run.
      cbv zeta. unfold installWrites, installBase, installed.
      fold statedb block hash. rewrite Hfound.
      cbn [length default]. rewrite Hgrant, (refusal_none_granted _ _ Hgrant).
      eexists. split; reflexivity.
  - intros r1 r2 s1 s2 b1 b2 s1' s2' Hr1 Hr2 Hk1 Hk2 Hrun1 Hrun2.
    unfold WriteTestNetGenesisBlock in Hrun1, Hrun2.
    rewrite (returned_block_hash _ _ _ _ _ _ Hdec Hk1 Hrun1).
    rewrite (returned_block_hash _ _ _ _ _ _ Hdec Hk2 Hrun2).
    by rewrite (genesisState_order r1 r2 _ Hr1 Hr2 (testnet_wellFormed _ _ _)).
Qed.

End TestNet.
End testnet_facts.

(** * The claims on concrete inputs *)
Module core_examples.
Import ethdb core core_facts.

Section Examples.
#[local] Existing Instance sample.hasher.
#[local] Existing Instance sample.trie.
#[local] Existing Instance conv.conversions.
#[local] Existing Instance json.decoder.
#[local] Existing Instance sample.defaults.

Lemma fair_listed : fair sample.listed.
Proof. by intros A l. Qed.

Lemma fair_backwards : fair sample.backwards.
Proof. intros A l. apply reverse_Permutation. Qed.

Lemma sample_wellFormed : wellFormed sample.genesis.
Proof.
  split.
  - apply (bool_decide_unpack _). by vm_compute.
  - apply map_Forall_lookup. apply (bool_decide_unpack _). by vm_compute.
Qed.

(** The hypotheses of C3 hold for the sample description and the store
    one installation leaves, and the second run, which visits the tables
    backwards, only re-asserts the canonical entry. *)
Example existing_block_witness :
  let r := sample.backwards in
  let contents := sample.description in
  let genesis := sample.genesis in
  let found := sample.block in
  let s := sample.installed in
  Unmarshal contents = inr genesis ∧
  blocks (db s) !! types.Hash (genesisBlock genesis (state.Root (genesisState r genesis)))
    = Some found ∧
  ∃ res s', WriteGenesisBlock r (NewReader contents) s = (res, s') ∧
    journal s' = journal s ++ [PutCanonicalHash (types.NumberU64 found) (types.Hash found)] ∧
    tds (db s') = tds (db s) ∧
    blocks (db s') = blocks (db s) ∧
    head (db s') = head (db s) ∧
    tries (db s') = tries (db s) ∧
    match refusal (faults s) 1 with
    | None => res = inr found ∧
              canonical (db s') = <[types.NumberU64 found := types.Hash found]> (canonical (db s))
    | Some e => res = inl e ∧ canonical (db s') = canonical (db s)
    end.
Proof.
  cbv zeta. split; [by vm_compute|]. split; [by vm_compute|].
  apply existing_block_rewrites_canonical_only with (genesis := sample.genesis);
    by vm_compute.
Defined.

(** The hypotheses of C4 hold for the sample description and the empty
    store. *)
Example fresh_install_witness :
  let r := sample.listed in
  let contents := sample.description in
  let genesis := sample.genesis in
  let s := sample.fresh in
  let statedb := genesisState r genesis in
  let block := genesisBlock genesis (state.Root statedb) in
  let hash := types.Hash block in
  let difficulty := common.String2Big (Difficulty genesis) in
  let writes := [ PutTotalDifficulty hash difficulty; PutBlock hash block;
                  PutCanonicalHash 0 hash; PutHead hash ] in
  let k := granted (faults s) 4 in
  Unmarshal contents = inr genesis ∧
  blocks (db s) !! hash = None ∧
  ∃ res s', WriteGenesisBlock r (NewReader contents) s = (res, s') ∧
    journal s' = journal s ++ take (S k) writes ∧
    db s' = foldl apply (commit (state.Root statedb) statedb (db s)) (take k writes) ∧
    (res = inr block ↔ k = 4%nat).
Proof.
  cbv zeta. split; [by vm_compute|]. split; [by vm_compute|].
  apply fresh_install_four_writes_in_order with (genesis := sample.genesis);
    by vm_compute.
Defined.

(** The hypotheses of C5 hold for a store that grants two writes and
    refuses the third. *)
Example write_failure_witness :
  let r := sample.listed in
  let contents := sample.description in
  let genesis := sample.genesis in
  let k := 2%nat in
  let e := "disk full" in
  let rest := [None] in
  let s := {| db := ethdb.empty; journal := []; faults := [None; None; Some e; None] |} in
  let statedb := genesisState r genesis in
  let block := genesisBlock genesis (state.Root statedb) in
  let writes := installWrites (db s) block (common.String2Big (Difficulty genesis)) in
  Unmarshal contents = inr genesis ∧
  (k < length writes)%nat ∧
  faults s = replicate k None ++ Some e :: rest ∧
  WriteGenesisBlock r (NewReader contents) s =
    (inl e,
     {| db := foldl apply (installBase (db s) statedb block) (take k writes);
        journal := journal s ++ take (S k) writes;
        faults := rest |}).
Proof.
  cbv zeta. split; [by vm_compute|]. split; [vm_compute; lia|]. split; [done|].
  apply write_failure_surfaces_without_rollback with (genesis := sample.genesis);
    [by vm_compute | vm_compute; lia | done].
Defined.

(** The hypotheses of C2 hold for the sample description: the first run
    visits the tables as listed, the second backwards. *)
Example install_twice_witness :
  let r1 := sample.listed in
  let r2 := sample.backwards in
  let contents := sample.description in
  let genesis := sample.genesis in
  let s := sample.fresh in
  let s1 := sample.installed in
  let b1 := sample.block in
  Unmarshal contents = inr genesis ∧
  genesisBlock genesis (state.Root (genesisState r1 genesis))
    = genesisBlock genesis (state.Root (genesisState r2 genesis)) ∧
  WriteGenesisBlock r1 (NewReader contents) s = (inr b1, s1) ∧
  ∃ res s2, WriteGenesisBlock r2 (NewReader contents) s1 = (res, s2) ∧
    db s2 = db s1 ∧
    (refusal (faults s1) 1 = None → res = inr b1) ∧
    (∀ e, refusal (faults s1) 1 = Some e → res = inl e).
Proof.
  cbv zeta. split; [by vm_compute|]. split; [by vm_compute|]. split; [by vm_compute|].
  apply install_twice_same_state
    with (r1 := sample.listed) (genesis := sample.genesis) (s := sample.fresh);
    by vm_compute.
Defined.

(** C1 fails as stated.  A run into the empty store is cut short after
    the total difficulty and the block are written; the next run issues
    the canonical-number write and nothing else, so the head pointer stays
    unset, while an uninterrupted run sets it: the two final states
    differ. *)
Example resumed_install_leaves_head_unset :
  let resumed := sample.run sample.listed sample.description
                   {| db := db sample.cut; journal := []; faults := [] |} in
  let h := types.Hash sample.block in
  dom (tds (db sample.cut)) = {[ h ]} ∧
  dom (blocks (db sample.cut)) = {[ h ]} ∧
  canonical (db sample.cut) = ∅ ∧
  head (db sample.cut) = None ∧
  resumed.1 = inr sample.block ∧
  journal resumed.2 = [PutCanonicalHash 0 h] ∧
  head (db resumed.2) = None ∧
  head (db sample.installed) = Some h ∧
  db resumed.2 ≠ db sample.installed.
Proof.
  cbv zeta. repeat split; by vm_compute.
Qed.

(** The hypotheses of the amended C1 hold for the sample description. *)
Example resumed_install_witness :
  let r1 := sample.listed in
  let r2 := sample.backwards in
  let contents := sample.description in
  let genesis := sample.genesis in
  let d := ethdb.empty in
  let e := "power loss" in
  let block := genesisBlock genesis (state.Root (genesisState r1 genesis)) in
  let cut := (WriteGenesisBlock r1 (NewReader contents)
                {| db := d; journal := []; faults := [None; None; Some e] |}).2 in
  let clean := (WriteGenesisBlock r1 (NewReader contents)
                  {| db := d; journal := []; faults := [] |}).2 in
  Unmarshal contents = inr genesis ∧
  block = genesisBlock genesis (state.Root (genesisState r2 genesis)) ∧
  blocks d !! types.Hash block = None ∧
  ∃ s', WriteGenesisBlock r2 (NewReader contents)
          {| db := db cut; journal := []; faults := [] |} = (inr block, s') ∧
    journal s' = [PutCanonicalHash 0 (types.Hash block)] ∧
    blocks (db s') = blocks (db clean) ∧
    tds (db s') = tds (db clean) ∧
    canonical (db s') = canonical (db clean) ∧
    tries (db s') = tries (db clean) ∧
    head (db s') = head d ∧
    head (db clean) = Some (types.Hash block).
Proof.
  cbv zeta. split; [by vm_compute|]. split; [by vm_compute|]. split; [by vm_compute|].
  apply resumed_install_restores_canonical_entry; by vm_compute.
Defined.

(** The hypotheses of C7 hold for the sample description and the two
    orders of iteration. *)
Example genesis_build_witness :
  let r1 := sample.listed in
  let r2 := sample.backwards in
  let genesis := sample.genesis in
  fair r1 ∧ fair r2 ∧ wellFormed genesis ∧
  state.Root (genesisState r1 genesis) = state.Root (genesisState r2 genesis) ∧
  types.Hash (genesisBlock genesis (state.Root (genesisState r1 genesis)))
    = types.Hash (genesisBlock genesis (state.Root (genesisState r2 genesis))).
Proof.
  cbv zeta.
  split; [exact fair_listed|]. split; [exact fair_backwards|]. split; [exact sample_wellFormed|].
  exact (genesis_build_is_deterministic sample.listed sample.backwards sample.genesis
           fair_listed fair_backwards sample_wellFormed).
Defined.

(** C6 fails as stated.  The one allocation entry of this document has an
    address and a balance that cannot be parsed, yet the document decodes,
    [WriteGenesisBlock] returns a block and no error, and the block is
    installed: stored under its hash and made the head. *)
Example unparseable_entry_is_accepted :
  let outcome := sample.run sample.listed sample.unparseable sample.fresh in
  (∃ genesis, Unmarshal sample.unparseable = inr genesis ∧
     Balance <$> Alloc genesis !! "zz" = Some "xyz") ∧
  conv.addressParses "zz" = false ∧
  conv.balanceParses "xyz" = false ∧
  ∃ block, outcome.1 = inr block ∧
    blocks (db outcome.2) !! types.Hash block = Some block ∧
    head (db outcome.2) = Some (types.Hash block).
Proof.
  cbv zeta. split; [|split; [by vm_compute|split; [by vm_compute|]]].
  - destruct (Unmarshal sample.unparseable) as [e|genesis] eqn:Hdec;
      vm_compute in Hdec; [discriminate|].
    exists genesis. split; [done|]. injection Hdec as <-. by vm_compute.
  - destruct (sample.run sample.listed sample.unparseable sample.fresh) as [[e|block] s'] eqn:Hrun;
      vm_compute in Hrun; [discriminate|].
    exists block. injection Hrun as <- <-. by vm_compute.
Qed.

(** The hypothesis of the amended C6 holds for a store that grants every
    write; the unparseable document is then installed without error. *)
Example loader_witness :
  let r := sample.listed in
  let reader := NewReader sample.unparseable in
  let s := sample.fresh in
  let unreadable :=
    match reader with
    | FailingReader err => Some err
    | NewReader contents =>
        match Unmarshal contents with inl err => Some err | inr _ => None end
    end in
  refusal (faults s) 4 = None ∧
  match unreadable with
  | Some err => WriteGenesisBlock r reader s = (inl err, s)
  | None => ∃ block s', WriteGenesisBlock r reader s = (inr block, s')
  end.
Proof.
  cbv zeta. split; [done|].
  exact (loader_fails_exactly_on_decoding sample.listed (NewReader sample.unparseable)
           sample.fresh eq_refl).
Defined.

(** The hypotheses of C8 hold for the nonce 7 and the sample defaults. *)
Example testnet_witness :
  let nonce := 7 in
  0 ≤ nonce < 2 ^ 64 ∧ 0 < params.GenesisGasLimit ∧ 0 < params.GenesisDifficulty ∧
  ∃ genesis,
    Unmarshal (testGenesis (types.EncodeNonce nonce) (conv.Bytes params.GenesisGasLimit)
                           (conv.Bytes params.GenesisDifficulty)) = inr genesis ∧
    size (Alloc genesis) = 12%nat ∧
    size (filter (λ kv, common.String2Big (Balance kv.2) = 1) (Alloc genesis)) = 4%nat ∧
    size (filter (λ kv, common.String2Big (Balance kv.2) = 2 ^ 200) (Alloc genesis)) = 8%nat ∧
    (∀ r, let header := types.header (genesisBlock genesis (state.Root (genesisState r genesis))) in
       types.Nonce header = types.EncodeNonce nonce ∧
       types.GasLimit header = params.GenesisGasLimit ∧
       types.Difficulty header = params.GenesisDifficulty) ∧
    (∀ r s,
       let statedb := genesisState r genesis in
       let block := genesisBlock genesis (state.Root statedb) in
       let hash := types.Hash block in
       fair r →
       (size statedb = 12%nat ∧
        size (filter (λ ao, state.balance ao.2 = 1) statedb) = 4%nat ∧
        size (filter (λ ao, state.balance ao.2 = 2 ^ 200) statedb) = 8%nat) ∧
       (blocks (db s) !! hash = None → refusal (faults s) 4 = None →
        ∃ s', WriteTestNetGenesisBlock r nonce s = (inr block, s') ∧
          journal s' = journal s ++ freshWrites block params.GenesisDifficulty ∧
          blocks (db s') !! hash = Some block ∧
          tds (db s') !! hash = Some params.GenesisDifficulty ∧
          canonical (db s') !! 0 = Some hash ∧
          head (db s') = Some hash ∧
          tries (db s') !! state.Root statedb = Some statedb) ∧
       (∀ found, blocks (db s) !! hash = Some found → refusal (faults s) 1 = None →
        ∃ s', WriteTestNetGenesisBlock r nonce s = (inr found, s') ∧
          journal s' = journal s ++ [PutCanonicalHash (types.NumberU64 found) (types.Hash found)])) ∧
    (∀ r1 r2 s1 s2 b1 b2 s1' s2',
       fair r1 → fair r2 → keyedByHash (db s1) → keyedByHash (db s2) →
       WriteTestNetGenesisBlock r1 nonce s1 = (inr b1, s1') →
       WriteTestNetGenesisBlock r2 nonce s2 = (inr b2, s2') →
       types.Hash b1 = types.Hash b2).
Proof.
  cbv zeta. split; [lia|]. split; [done|]. split; [done|].
  apply (testnet_facts.testnet_genesis_block 7); [lia|done|done].
Defined.

(** Two invocations for the nonce 7, the second against the store the
    first one left and visiting the table backwards, return the same
    block. *)
Example testnet_twice_same_block :
  let first := WriteTestNetGenesisBlock sample.listed 7 sample.fresh in
  let second := WriteTestNetGenesisBlock sample.backwards 7 first.2 in
  match first.1 with inr _ => True | inl _ => False end ∧
  second.1 = first.1 ∧
  db second.2 = db first.2.
Proof.
  cbv zeta. split; [vm_compute; exact I|]. split; vm_compute; reflexivity.
Qed.

(** The hypotheses of the postcondition of a fresh installation hold for
    the sample description and the empty store. *)
Example fresh_install_postcondition_witness :
  let r := sample.listed in
  let contents := sample.description in
  let genesis := sample.genesis in
  let s := sample.fresh in
  let s' := sample.installed in
  let b := sample.block in
  let statedb := genesisState r genesis in
  let block := genesisBlock genesis (state.Root statedb) in
  let hash := types.Hash block in
  Unmarshal contents = inr genesis ∧
  blocks (db s) !! hash = None ∧
  WriteGenesisBlock r (NewReader contents) s = (inr b, s') ∧
  b = block ∧
  head (db s') = Some hash ∧
  canonical (db s') !! 0 = Some hash ∧
  blocks (db s') !! hash = Some block ∧
  tds (db s') !! hash = Some (common.String2Big (Difficulty genesis)) ∧
  tries (db s') !! state.Root statedb = Some statedb.
Proof.
  cbv zeta. split; [by vm_compute|]. split; [by vm_compute|]. split; [by vm_compute|].
  apply fresh_install_postcondition with (contents := sample.description) (s := sample.fresh);
    by vm_compute.
Defined.

(** The hypotheses of the ordering property hold for a store that grants
    three writes and refuses the fourth: the canonical entry has moved,
    and the block and its difficulty are there. *)
Example pointers_follow_records_witness :
  let r := sample.listed in
  let contents := sample.description in
  let genesis := sample.genesis in
  let s := {| db := ethdb.empty; journal := [];
              faults := [None; None; None; Some "disk full"] |} in
  let res := inl "disk full" in
  let s' := (WriteGenesisBlock r (NewReader contents) s).2 in
  let statedb := genesisState r genesis in
  let block := genesisBlock genesis (state.Root statedb) in
  let hash := types.Hash block in
  Unmarshal contents = inr genesis ∧
  blocks (db s) !! hash = None ∧
  WriteGenesisBlock r (NewReader contents) s = (res, s') ∧
  (canonical (db s') ≠ canonical (db s) ∨ head (db s') ≠ head (db s)) ∧
  blocks (db s') !! hash = Some block ∧
  tds (db s') !! hash = Some (common.String2Big (Difficulty genesis)).
Proof.
  cbv zeta. split; [by vm_compute|]. split; [by vm_compute|]. split; [by vm_compute|].
  split; [left; by vm_compute|].
  eapply pointers_follow_records with (contents := sample.description)
    (s := {| db := ethdb.empty; journal := [];
             faults := [None; None; None; Some "disk full"] |});
    [by vm_compute | by vm_compute | by vm_compute | left; by vm_compute].
Defined.

(** X3. Without well-formedness the construction depends on the order of
    iteration: the two keys of the duplicated description denote address
    1, and the code that address ends up with, and with it the state root,
    is that of the key visited last. *)
Example duplicate_address_depends_on_order :
  ∃ genesis, Unmarshal sample.duplicated = inr genesis ∧
    common.HexToAddress "0x01" = 1 ∧ common.HexToAddress "01" = 1 ∧
    state.code <$> genesisState sample.listed genesis !! 1 = Some [96] ∧
    state.code <$> genesisState sample.backwards genesis !! 1 = Some [97] ∧
    state.Root (genesisState sample.listed genesis)
      ≠ state.Root (genesisState sample.backwards genesis).
Proof.
  destruct (Unmarshal sample.duplicated) as [e|genesis] eqn:Hdec;
    vm_compute in Hdec; [discriminate|].
  injection Hdec as <-. eexists. split; [reflexivity|]. repeat split; by vm_compute.
Qed.

End Examples.
End core_examples.

(** * Properties of the dispatch facade *)
Module api_facts.
Import shared api.

Lemma trimPrefix_append (prefix s : string) : trimPrefix prefix (prefix +:+ s) = Some s.
Proof.
  induction prefix as [|c prefix IH]; [done|].
  change (String c prefix +:+ s) with (String c (prefix +:+ s)).
  cbn [trimPrefix]. by rewrite Ascii.eqb_refl.
Qed.

(** Every entry of the table is twinned: checked entry by entry. *)
Lemma exp_entries_twinned (method : string) (callback : ethhandler.t) :
  ethMapping !! method = Some callback → twinned (method, callback).
Proof.
  intros Hin. apply elem_of_list_to_map_2 in Hin.
  revert Hin. generalize (method, callback). apply Forall_forall.
  apply forallb_True. by vm_compute.
Qed.

Section Facade.
Context `{Node}.

Lemma exp_twin (X : string) (callback : ethhandler.t) :
  ethMapping !! ("exp_" +:+ X) = Some callback →
  ethMapping !! ("eth_" +:+ X) = Some callback.
Proof.
  intros Hexp. apply exp_entries_twinned in Hexp. unfold twinned in Hexp.
  cbn [fst snd] in Hexp. rewrite trimPrefix_append in Hexp.
  by apply bool_decide_unpack in Hexp.
Qed.

(** C9, as amended. Whenever the table maps exp_X it maps eth_X to the
    same handler, and [Execute] returns the same results for the two
    method names from every handler that does not read the method name of
    the request; [Flush], and [CompileSolidity] when the compiler is
    missing, put the name they were called under into their error. *)
Theorem exp_methods_share_eth_handlers (X : string) (callback : ethhandler.t) :
  ethMapping !! ("exp_" +:+ X) = Some callback →
  ethMapping !! ("eth_" +:+ X) = Some callback ∧
  ∀ (x : XEth) (req : Request),
    readsMethod callback (NewEthApi x) = false →
    Execute (NewEthApi x) (withMethod req ("exp_" +:+ X))
      = Execute (NewEthApi x) (withMethod req ("eth_" +:+ X)).
Proof.
  intros Hexp. pose proof (exp_twin X callback Hexp) as Heth.
  split; [done|]. intros x req Hreads.
  unfold Execute. cbn [methods NewEthApi Method withMethod]. rewrite Hexp, Heth.
  clear Hexp Heth.
  destruct callback; cbn [invoke readsMethod] in *; try reflexivity; try discriminate.
  unfold CompileSolidity. cbn [xeth NewEthApi Params withMethod] in *.
  apply negb_false_iff in Hreads. by rewrite Hreads.
Qed.

Lemma at_index_in_range {A} (l : list A) (i : Z) :
  0 ≤ i < Z.of_nat (length l) → is_Some (at_index l i).
Proof.
  intros Hi. unfold at_index.
  replace ((i <? 0) || (Z.of_nat (length l) <=? i)) with false
    by (symmetry; apply orb_false_iff; lia).
  apply lookup_lt_is_Some. lia.
Qed.

(** The guard and the access it protects, as all four handlers have
    them. *)
Lemma guarded_access {A} (l : list A) (i : Z) (f : A → Reply) :
  let o := if (Z.of_nat (length l) <=? i) || (i <? 0)
           then Return None None
           else match at_index l i with
                | Some a => Return (Some (f a)) None
                | None => Panic
                end in
  isPanic o = false ∧ (i < 0 ∨ Z.of_nat (length l) ≤ i → o = Return None None).
Proof.
  cbv zeta. destruct ((Z.of_nat (length l) <=? i) || (i <? 0)) eqn:Hguard.
  - done.
  - apply orb_false_iff in Hguard as [Hhi Hlo].
    destruct (at_index_in_range l i) as [a ->]; [lia|].
    split; [done|]. lia.
Qed.

(** C10. None of the four handlers indexes a list out of its bounds, and
    each returns a nil result and a nil error when the decoded index is
    negative or not less than the number of transactions (of uncles) of
    the block it resolved. *)
Theorem indexed_handlers_are_guarded (self : ethApi) (req : Request) :
  (isPanic (GetTransactionByBlockHashAndIndex self req) = false ∧
   isPanic (GetTransactionByBlockNumberAndIndex self req) = false ∧
   isPanic (GetUncleByBlockHashAndIndex self req) = false ∧
   isPanic (GetUncleByBlockNumberAndIndex self req) = false) ∧
  (∀ args raw,
     DecodeHashIndexArgs (Params req) = inr args →
     EthBlockByHash (xeth self) (Hash args) = Some raw →
     (let block := NewBlockRes raw (Td (xeth self) raw) true in
      Index args < 0 ∨ Z.of_nat (length (Transactions block)) ≤ Index args →
      GetTransactionByBlockHashAndIndex self req = Return None None) ∧
     (let block := NewBlockRes raw (Td (xeth self) raw) false in
      Index args < 0 ∨ Z.of_nat (length (Uncles block)) ≤ Index args →
      GetUncleByBlockHashAndIndex self req = Return None None)) ∧
  (∀ args raw,
     DecodeBlockNumIndexArgs (Params req) = inr args →
     EthBlockByNumber (xeth self) (BlockNumber args) = Some raw →
     let block := NewBlockRes raw (Td (xeth self) raw) true in
     (Index' args < 0 ∨ Z.of_nat (length (Transactions block)) ≤ Index' args →
      GetTransactionByBlockNumberAndIndex self req = Return None None) ∧
     (Index' args < 0 ∨ Z.of_nat (length (Uncles block)) ≤ Index' args →
      GetUncleByBlockNumberAndIndex self req = Return None None)).
Proof.
  unfold GetTransactionByBlockHashAndIndex, GetTransactionByBlockNumberAndIndex,
    GetUncleByBlockHashAndIndex, GetUncleByBlockNumberAndIndex.
  split; [|split].
  - destruct (DecodeHashIndexArgs (Params req)) as [e1|a1];
      destruct (DecodeBlockNumIndexArgs (Params req)) as [e2|a2];
      repeat match goal with
      | |- context [EthBlockByHash ?x ?h] => destruct (EthBlockByHash x h)
      | |- context [EthBlockByNumber ?x ?n] => destruct (EthBlockByNumber x n)
      end;
      cbv zeta; repeat split; try done; apply guarded_access.
  - intros args raw -> ->. cbv zeta. split; apply guarded_access.
  - intros args raw -> ->. cbv zeta. split; apply guarded_access.
Qed.

End Facade.

Section FacadeExamples.
#[local] Existing Instance sample.node.

(** The hypothesis of the amended C9 holds for the suffix accounts. *)
Example exp_accounts_witness :
  let X := "accounts" in
  let callback := ethhandler.Accounts in
  ethMapping !! ("exp_" +:+ X) = Some callback ∧
  ethMapping !! ("eth_" +:+ X) = Some callback ∧
  ∀ (x : XEth) (req : Request),
    readsMethod callback (NewEthApi x) = false →
    Execute (NewEthApi x) (withMethod req ("exp_" +:+ X))
      = Execute (NewEthApi x) (withMethod req ("eth_" +:+ X)).
Proof.
  cbv zeta. split; [by vm_compute|].
  apply (exp_methods_share_eth_handlers "accounts" ethhandler.Accounts). by vm_compute.
Defined.

(** C9 fails as stated.  The table maps exp_flush and eth_flush to the
    same handler, [Flush], yet [Execute] returns different errors for the
    two names: each carries the method name of its request. *)
Example exp_flush_differs_from_eth_flush :
  let self := NewEthApi () in
  let req := sample.request "" "[]" in
  ethMapping !! "exp_flush" = Some ethhandler.Flush ∧
  ethMapping !! "eth_flush" = Some ethhandler.Flush ∧
  Execute self (withMethod req "exp_flush") = Return None (Some (NotImplementedError "exp_flush")) ∧
  Execute self (withMethod req "eth_flush") = Return None (Some (NotImplementedError "eth_flush")) ∧
  Execute self (withMethod req "exp_flush") ≠ Execute self (withMethod req "eth_flush").
Proof. cbv zeta. repeat split; by vm_compute. Qed.

(** On the sample node, whose block has three transactions and one
    uncle, the index 3 is out of range for both lists and the index -1 is
    negative: the handlers return nil and nil. *)
Example indexed_handlers_witness :
  let self := NewEthApi () in
  GetTransactionByBlockHashAndIndex self (sample.request "eth_getTransactionByBlockHashAndIndex" "3")
    = Return None None ∧
  GetUncleByBlockHashAndIndex self (sample.request "eth_getUncleByBlockHashAndIndex" "-1")
    = Return None None ∧
  GetTransactionByBlockNumberAndIndex self (sample.request "eth_getTransactionByBlockNumberAndIndex" "3")
    = Return None None ∧
  GetUncleByBlockNumberAndIndex self (sample.request "eth_getUncleByBlockNumberAndIndex" "1")
    = Return None None ∧
  GetTransactionByBlockHashAndIndex self (sample.request "eth_getTransactionByBlockHashAndIndex" "2")
    = Return (Some 30) None.
Proof.
  cbv zeta.
  pose proof (indexed_handlers_are_guarded (NewEthApi ())
                (sample.request "eth_getTransactionByBlockHashAndIndex" "3")) as (_ & Hh & Hn).
  pose proof (indexed_handlers_are_guarded (NewEthApi ())
                (sample.request "eth_getUncleByBlockHashAndIndex" "-1")) as (_ & Hh' & _).
  pose proof (indexed_handlers_are_guarded (NewEthApi ())
                (sample.request "eth_getUncleByBlockNumberAndIndex" "1")) as (_ & _ & Hn').
  split; [|split; [|split; [|split]]].
  - eapply Hh; [by vm_compute..|]. vm_compute. right. discriminate.
  - eapply Hh'; [by vm_compute..|]. vm_compute. by left.
  - eapply Hn; [by vm_compute..|]. vm_compute. right. discriminate.
  - eapply Hn'; [by vm_compute..|]. vm_compute. right. discriminate.
  - by vm_compute.
Defined.

End FacadeExamples.
End api_facts.

(** * What an installation leaves alone, and what a further run repairs *)
Module install_facts.
Import ethdb core core_facts.

Section Frame.
Context `{!types.Hasher, !state.Trie, !common.Conversions, !Decoder}.

(** X4. Whatever the store answers, [WriteGenesisBlock] touches only the
    records of the genesis block: the blocks and total difficulties under
    other hashes, the canonical entries of other numbers and the states
    committed under other roots are as before, and the head is as before
    or the hash of the block. *)
Theorem install_leaves_other_records
    (r : Range) (contents : string) (genesis : Genesis) (s s' : Store)
    (res : error + types.Block) :
  Unmarshal contents = inr genesis →
  let statedb := genesisState r genesis in
  let block := genesisBlock genesis (state.Root statedb) in
  let hash := types.Hash block in
  let stored := installed (db s) block in
  WriteGenesisBlock r (NewReader contents) s = (res, s') →
  (∀ h, h ≠ hash → blocks (db s') !! h = blocks (db s) !! h ∧ tds (db s') !! h = tds (db s) !! h) ∧
  (∀ n, n ≠ types.NumberU64 stored → canonical (db s') !! n = canonical (db s) !! n) ∧
  (∀ root, root ≠ state.Root statedb → tries (db s') !! root = tries (db s) !! root) ∧
  (head (db s') = head (db s) ∨ head (db s') = Some hash).
Proof.
  intros Hdec statedb block hash stored Hrun.
  rewrite (WriteGenesisBlock_decoded _ _ _ _ Hdec), install_run in Hrun.
  cbv zeta in Hrun. apply (f_equal snd) in Hrun. cbn [snd] in Hrun. subst s'.
  fold statedb block in stored |- *. cbn [db].
  unfold installWrites, installBase, installed in *. fold hash in stored |- *.
  destruct (blocks (db s) !! hash) as [found|] eqn:Hfound.
  - cbn [length default] in *.
    destruct (granted (faults s) 1) as [|k]; cbn [take foldl]; [by auto|].
    rewrite take_nil. cbn [foldl apply blocks tds canonical head tries].
    repeat split; auto. intros n Hn. by rewrite lookup_insert_ne.
  - change (length (freshWrites block (common.String2Big (Difficulty genesis)))) with 4%nat.
    cbn [default] in stored. subst stored. change (types.NumberU64 block) with 0.
    remember (granted (faults s) 4) as k eqn:Hk. clear Hk. unfold freshWrites. fold hash.
    change (types.NumberU64 block) with 0.
    do 4 (destruct k as [|k]; cbn [take foldl apply commit blocks tds canonical head tries];
          [repeat split; intros; rewrite ?lookup_insert_ne by done; auto|]).
    rewrite take_nil. cbn [foldl blocks tds canonical head tries].
    repeat split; intros; rewrite ?lookup_insert_ne by done; auto.
Qed.

(** X5. [WriteGenesisBlock] never deletes and never replaces a stored
    block: every block of the store is still there, every key of the total
    difficulties, canonical entries and committed states is still there, a
    head that was set is still set, and the journal of writes only
    grows. *)
Theorem install_never_deletes (r : Range) (reader : Reader) (s : Store) :
  let s' := (WriteGenesisBlock r reader s).2 in
  blocks (db s) ⊆ blocks (db s') ∧
  dom (tds (db s)) ⊆ dom (tds (db s')) ∧
  dom (canonical (db s)) ⊆ dom (canonical (db s')) ∧
  dom (tries (db s)) ⊆ dom (tries (db s')) ∧
  (is_Some (head (db s)) → is_Some (head (db s'))) ∧
  journal s `prefix_of` journal s'.
Proof.
  cbv zeta. destruct reader as [contents|err]; [|by cbn].
  destruct (Unmarshal contents) as [err|genesis] eqn:Hdec.
  { unfold WriteGenesisBlock, ReadAll, mbind, M_bind, mret, M_ret. rewrite Hdec. by cbn. }
  rewrite (WriteGenesisBlock_decoded _ _ _ _ Hdec), install_run.
  cbv zeta. cbn [snd db journal].
  set (statedb := genesisState r genesis).
  set (block := genesisBlock genesis (state.Root statedb)).
  unfold installWrites, installBase.
  destruct (blocks (db s) !! types.Hash block) as [found|] eqn:Hfound.
  - cbn [length].
    destruct (granted (faults s) 1) as [|k]; cbn [take foldl].
    + repeat split; try done. by apply prefix_app_r.
    + rewrite take_nil. cbn [foldl apply blocks tds canonical head tries].
      repeat split; try done; [|by apply prefix_app_r].
      rewrite dom_insert. set_solver.
  - change (length (freshWrites block (common.String2Big (Difficulty genesis)))) with 4%nat.
    remember (granted (faults s) 4) as k eqn:Hk. clear Hk. unfold freshWrites.
    assert (Hb : blocks (db s) ⊆ <[types.Hash block := block]> (blocks (db s)))
      by by apply insert_subseteq.
    do 4 (destruct k as [|k]; cbn [take foldl apply commit blocks tds canonical head tries];
          [repeat split; rewrite ?dom_insert; try done; try set_solver;
           by apply prefix_app_r|]).
    rewrite take_nil. cbn [foldl blocks tds canonical head tries].
    repeat split; rewrite ?dom_insert; try done; try set_solver.
    by apply prefix_app_r.
Qed.

(** X6. A run that was cut short before the block was written (the store
    refused the first or the second write) is repaired by a further run:
    it installs from scratch and leaves the store exactly as one
    uninterrupted installation does. *)
Theorem early_cut_is_repaired
    (r1 r2 : Range) (contents : string) (genesis : Genesis)
    (d : Database) (e : error) (k : nat) :
  Unmarshal contents = inr genesis →
  let statedb := genesisState r1 genesis in
  let block := genesisBlock genesis (state.Root statedb) in
  genesisState r2 genesis = statedb →
  blocks d !! types.Hash block = None →
  (k < 2)%nat →
  let cut := (WriteGenesisBlock r1 (NewReader contents)
                {| db := d; journal := []; faults := replicate k None ++ [Some e] |}).2 in
  let clean := (WriteGenesisBlock r1 (NewReader contents)
                  {| db := d; journal := []; faults := [] |}).2 in
  WriteGenesisBlock r2 (NewReader contents) {| db := db cut; journal := []; faults := [] |}
    = (inr block, clean).
Proof.
  intros Hdec statedb block Hsame Hfresh Hk cut clean.
  set (difficulty := common.String2Big (Difficulty genesis)).
  assert (Hcut : db cut = foldl apply (commit (state.Root statedb) statedb d)
                            (take k (freshWrites block difficulty))).
  { subst cut. rewrite (WriteGenesisBlock_decoded _ _ _ _ Hdec), install_run.
    cbn [db journal faults snd]. unfold installWrites, installBase.
    fold statedb block. rewrite Hfresh.
    change (length (freshWrites block (common.String2Big (Difficulty genesis)))) with 4%nat.
    by destruct (first_refusal k 4 e [] ltac:(lia)) as (-> & _ & _). }
  assert (Hclean : clean = {| db := foldl apply (commit (state.Root statedb) statedb d)
                                      (freshWrites block difficulty);
                              journal := freshWrites block difficulty; faults := [] |}).
  { subst clean. rewrite (WriteGenesisBlock_decoded _ _ _ _ Hdec), install_run.
    cbn [db journal faults snd]. unfold installWrites, installBase.
    fold statedb block. by rewrite Hfresh. }
  rewrite (WriteGenesisBlock_decoded _ _ _ _ Hdec), install_run, Hsame.
  fold statedb block difficulty. cbn [db journal faults]. rewrite Hcut, Hclean.
  unfold installWrites, installBase, installed.
  assert (Hmiss : blocks (foldl apply (commit (state.Root statedb) statedb d)
                            (take k (freshWrites block difficulty))) !! types.Hash block = None).
  { destruct k as [|[|k]]; [done|done|lia]. }
  rewrite Hmiss. cbn [length freshWrites refusal granted leftover default app take].
  f_equal. f_equal.
  destruct k as [|[|k]]; [| |lia];
    cbn [take foldl apply commit blocks tds canonical head tries freshWrites];
    f_equal; by rewrite ?insert_insert_eq.
Qed.

(** A run that finds the block changes nothing or rewrites the canonical
    entry of the stored block. *)
Lemma found_run (r : Range) (contents : string) (genesis : Genesis)
    (found : types.Block) (s : Store) :
  Unmarshal contents = inr genesis →
  blocks (db s) !! types.Hash (genesisBlock genesis (state.Root (genesisState r genesis)))
    = Some found →
  let s' := (WriteGenesisBlock r (NewReader contents) s).2 in
  db s' = db s ∨
  db s' = apply (db s) (PutCanonicalHash (types.NumberU64 found) (types.Hash found)).
Proof.
  intros Hdec Hfound. cbv zeta.
  rewrite (WriteGenesisBlock_decoded _ _ _ _ Hdec), install_run.
  cbv zeta. cbn [snd db]. unfold installWrites, installBase. rewrite Hfound.
  cbn [length]. destruct (granted (faults s) 1) as [|k]; cbn [take foldl]; [by left|].
  right. by rewrite take_nil.
Qed.

(** X7. Once a block is stored under the hash of the genesis block, no
    number of further runs completes the installation: the blocks, the
    total difficulties, the committed states and the head stay as they
    are, and the canonical entries are as they were or have the entry of
    the stored block rewritten. *)
Theorem stored_block_is_never_completed
    (rs : list Range) (contents : string) (genesis : Genesis)
    (hash : Z) (found : types.Block) (s : Store) :
  Unmarshal contents = inr genesis →
  Forall (λ r, types.Hash (genesisBlock genesis (state.Root (genesisState r genesis))) = hash) rs →
  blocks (db s) !! hash = Some found →
  let s' := foldl (λ s r, (WriteGenesisBlock r (NewReader contents) s).2) s rs in
  blocks (db s') = blocks (db s) ∧
  tds (db s') = tds (db s) ∧
  tries (db s') = tries (db s) ∧
  head (db s') = head (db s) ∧
  (canonical (db s') = canonical (db s) ∨
   canonical (db s') = <[types.NumberU64 found := types.Hash found]> (canonical (db s))).
Proof.
  intros Hdec Hrs Hfound. cbv zeta.
  assert (Hgen : ∀ s0, blocks (db s0) = blocks (db s) → tds (db s0) = tds (db s) →
                  tries (db s0) = tries (db s) → head (db s0) = head (db s) →
                  (canonical (db s0) = canonical (db s) ∨
                   canonical (db s0)
                   = <[types.NumberU64 found := types.Hash found]> (canonical (db s))) →
            let s' := foldl (λ s r, (WriteGenesisBlock r (NewReader contents) s).2) s0 rs in
            blocks (db s') = blocks (db s) ∧ tds (db s') = tds (db s) ∧
            tries (db s') = tries (db s) ∧ head (db s') = head (db s) ∧
            (canonical (db s') = canonical (db s) ∨
             canonical (db s') = <[types.NumberU64 found := types.Hash found]> (canonical (db s)))).
  { induction Hrs as [|r rs Hr Hrs IH]; intros s0 Hb Ht Htr Hh Hcan; cbn [foldl].
    - by repeat split.
    - assert (Hfound0 : blocks (db s0)
                !! types.Hash (genesisBlock genesis (state.Root (genesisState r genesis)))
                = Some found) by (by rewrite Hr, Hb).
      destruct (found_run r contents genesis found s0 Hdec Hfound0) as [Hsame|Hput].
      + apply IH; by rewrite Hsame.
      + apply IH; rewrite Hput; cbn [apply blocks tds tries head canonical]; try done.
        right. destruct Hcan as [->| ->]; [done|]. by rewrite insert_insert_eq. }
  by apply Hgen; auto.
Qed.

End Frame.
End install_facts.

(** * Keys that denote the same address *)
Module alloc_facts.
Import ethdb core core_facts alloc.

Section Alloc.
Context `{!types.Hasher, !state.Trie, !common.Conversions, !Decoder}.

(** The inner loop keeps the balance and the code of the object. *)
Lemma storeSlot_keeps (o : state.StateObject) (slots : list (string * string)) :
  state.balance (foldl storeSlot o slots) = state.balance o ∧
  state.code (foldl storeSlot o slots) = state.code o.
Proof.
  revert o. induction slots as [|kv slots IH]; intros o; [done|].
  cbn [foldl]. destruct (IH (storeSlot o kv)) as [-> ->]. done.
Qed.

Lemma credit_app (l1 l2 : list (string * AllocEntry)) :
  credit (l1 ++ l2) = credit l1 + credit l2.
Proof.
  induction l1 as [|e l1 IH]; [done|].
  change (common.String2Big (Balance e.2) + credit (l1 ++ l2)
          = common.String2Big (Balance e.2) + credit l1 + credit l2).
  rewrite IH. lia.
Qed.

Lemma credit_Permutation (l1 l2 : list (string * AllocEntry)) :
  l1 ≡ₚ l2 → credit l1 = credit l2.
Proof.
  induction 1 as [|x l1 l2 _ IH|x y l|l1 l2 l3 _ IH12 _ IH23].
  - done.
  - change (common.String2Big (Balance x.2) + credit l1
            = common.String2Big (Balance x.2) + credit l2). by rewrite IH.
  - change (common.String2Big (Balance y.2) + (common.String2Big (Balance x.2) + credit l)
            = common.String2Big (Balance x.2) + (common.String2Big (Balance y.2) + credit l)).
    lia.
  - congruence.
Qed.

(** The account of one address after the loop over an allocation list. *)
Lemma allocate_address (r : Range) (a : Z) (l : list (string * AllocEntry)) (st : state.StateDB) :
  let st' := foldl (allocStep r) st l in
  match last (sameAddress a l) with
  | None => st' !! a = st !! a
  | Some e => ∃ o, st' !! a = Some o ∧
      state.balance o = state.balance (state.GetOrNewStateObject st a) + credit (sameAddress a l) ∧
      state.code o = common.Hex2Bytes (Code e.2)
  end.
Proof.
  cbv zeta. induction l as [|e l IH] using rev_ind; [done|].
  rewrite foldl_app. cbn [foldl]. unfold sameAddress in *. rewrite filter_app.
  rewrite allocStep_insert.
  destruct (decide (common.HexToAddress e.1 = a)) as [Ha|Ha].
  - rewrite filter_cons_True, filter_nil by done. rewrite last_snoc.
    rewrite Ha, lookup_insert_eq. eexists. split; [done|].
    unfold allocObject. destruct (storeSlot_keeps
      {| state.balance := state.balance (state.GetOrNewStateObject (foldl (allocStep r) st l) a)
                          + common.String2Big (Balance e.2);
         state.code := common.Hex2Bytes (Code e.2);
         state.storage := state.storage (state.GetOrNewStateObject (foldl (allocStep r) st l) a) |}
      (range r (Storage e.2))) as [-> ->].
    cbn [state.balance state.code]. split; [|done].
    rewrite credit_app. cbn [credit foldr].
    unfold state.GetOrNewStateObject at 1.
    destruct (last (filter _ l)) as [e'|] eqn:Hlast.
    + destruct IH as (o & -> & Hb & _). cbn [default]. unfold id. rewrite Hb. lia.
    + rewrite IH. apply last_None in Hlast. rewrite Hlast. cbn [credit foldr].
      unfold state.GetOrNewStateObject. lia.
  - rewrite filter_cons_False, filter_nil, app_nil_r by done.
    by rewrite lookup_insert_ne.
Qed.

(** X8. Keys of the allocation table that denote one address: their
    balances add up, whatever the order of the visit, and the code of the
    address is that of the key visited last; an address no key denotes has
    no account. *)
Theorem duplicate_keys_add_balances (r : Range) (genesis : Genesis) (a : Z) :
  fair r →
  match last (sameAddress a (range r (Alloc genesis))) with
  | None => sameAddress a (map_to_list (Alloc genesis)) = [] ∧ genesisState r genesis !! a = None
  | Some e => ∃ o, genesisState r genesis !! a = Some o ∧
      state.balance o = credit (sameAddress a (map_to_list (Alloc genesis))) ∧
      state.code o = common.Hex2Bytes (Code e.2)
  end.
Proof.
  intros Hr.
  assert (Hp : sameAddress a (range r (Alloc genesis))
               ≡ₚ sameAddress a (map_to_list (Alloc genesis))).
  { unfold sameAddress, range. by rewrite (Hr _ _). }
  pose proof (allocate_address r a (range r (Alloc genesis)) (state.New 0)) as Hl.
  cbv zeta in Hl. unfold genesisState, state.SyncObjects, allocate.
  destruct (last (sameAddress a (range r (Alloc genesis)))) as [e|] eqn:Hlast.
  - destruct Hl as (o & Ho & Hbal & Hcode). exists o. split; [done|]. split; [|done].
    rewrite Hbal, (credit_Permutation _ _ Hp). unfold state.New, state.GetOrNewStateObject.
    rewrite lookup_empty. cbn. lia.
  - split; [|by rewrite Hl]. apply last_None in Hlast. rewrite Hlast in Hp.
    symmetry in Hp. by apply Permutation_nil_r in Hp.
Qed.

End Alloc.
End alloc_facts.

(** * Round trips of hexadecimal text *)
Module hex_facts.
Import conv conv_facts.

Lemma DecodeString_hexOfBytes (bs : list Z) :
  Forall isByte bs → DecodeString (hexOfBytes bs) = Some bs.
Proof.
  induction 1 as [|b bs Hb Hbs IH]; [done|]. unfold isByte in Hb.
  cbn [hexOfBytes foldr DecodeString]. fold (hexOfBytes bs).
  rewrite !bigDigit_hexChar, IH.
  - do 2 f_equal. pose proof (Z.div_mod b 16 ltac:(lia)). lia.
  - apply Z.mod_pos_bound. lia.
  - split; [apply Z.div_pos; lia|apply Z.div_lt_upper_bound; lia].
Qed.

Lemma length_hexOfBytes (bs : list Z) :
  String.length (hexOfBytes bs) = (2 * length bs)%nat.
Proof. induction bs as [|b bs IH]; [done|]. cbn [hexOfBytes foldr String.length length]. fold (hexOfBytes bs). lia. Qed.

Lemma length_be_bytes (w : nat) (n : Z) : length (types.be_bytes w n) = w.
Proof.
  revert n. induction w as [|w IH]; intros n; [done|].
  cbn [types.be_bytes]. rewrite length_app, IH. cbn. lia.
Qed.

Lemma FromHex_hex (bs : list Z) :
  Forall isByte bs → FromHex ("0x" +:+ hexOfBytes bs) = bs.
Proof.
  intros Hbs. unfold FromHex.
  change ("0x" +:+ hexOfBytes bs) with (String "0" (String "x" (hexOfBytes bs))).
  cbn [String.length]. rewrite length_hexOfBytes.
  destruct (1 <? S (S (2 * length bs)))%nat eqn:E; [|apply Nat.ltb_ge in E; lia].
  unfold hexText. rewrite length_hexOfBytes.
  replace (Nat.odd (2 * length bs)) with false.
  - unfold Hex2Bytes. by rewrite DecodeString_hexOfBytes.
  - symmetry. rewrite <- Nat.negb_even. rewrite Nat.even_mul. done.
Qed.

Lemma HexToAddress_hex (a : Z) :
  0 ≤ a < 2 ^ 160 → HexToAddress ("0x" +:+ hexOfBytes (types.be_bytes 20 a)) = a.
Proof.
  intros Ha. unfold HexToAddress. rewrite FromHex_hex by apply be_bytes_isByte.
  unfold lastBytes. rewrite length_be_bytes, Nat.sub_diag, drop_0.
  rewrite be_value_be_bytes by lia. apply Z.mod_small.
  change (256 ^ Z.of_nat 20) with (2 ^ 160). lia.
Qed.

Lemma String2Big_Bytes (n : Z) : String2Big ("0x" +:+ hexOfBytes (Bytes n)) = Z.abs n.
Proof.
  destruct (decide (n = 0)) as [->|Hn]; [done|].
  assert (Habs : 0 < Z.abs n) by lia.
  assert (HB : Bytes n = Bytes (Z.abs n)) by (unfold Bytes; by rewrite Z.abs_idemp).
  rewrite HB, String2Big_hex.
  - by apply be_value_Bytes.
  - apply be_bytes_isByte.
  - by apply Bytes_nonempty.
Qed.

End hex_facts.

(** * The lexer over a text made of pieces *)
Module scan_facts.
Import json jsonscan testnet_facts.

Lemma scan_app (a b : string) (m : mode) :
  scan m (a +:+ b) =
    match scan m a with
    | Some (m', ts) => (λ r, (r.1, ts ++ r.2)) <$> scan m' b
    | None => None
    end.
Proof.
  revert m. induction a as [|c a IH]; intros m.
  - change (EmptyString +:+ b) with b. cbn [scan].
    destruct (scan m b) as [[m' ts]|]; done.
  - change (String c a +:+ b) with (String c (a +:+ b)). cbn [scan].
    destruct (step m c) as [[m1 ts1]|]; [|done].
    rewrite IH. destruct (scan m1 a) as [[m2 ts2]|]; [|done]. cbn.
    destruct (scan m2 b) as [[m3 ts3]|]; [|done]. cbn. by rewrite app_assoc.
Qed.

Lemma lex_scan (s : string) (m : mode) :
  lex m s =
    match scan m s with
    | Some (m', ts) => app ts <$> finish m'
    | None => None
    end.
Proof.
  revert m. induction s as [|c s IH]; intros m; cbn [lex scan].
  - destruct (finish m); done.
  - destruct (step m c) as [[m1 ts1]|]; [|done].
    rewrite IH. destruct (scan m1 s) as [[m2 ts2]|]; [|done]. cbn.
    destruct (finish m2); [|done]. cbn. by rewrite app_assoc.
Qed.

Lemma scan_plain (text acc : string) :
  plain text = true → scan (InString acc) text = Some (InString (acc +:+ text), []).
Proof.
  revert acc. induction text as [|c text IH]; intros acc Hplain.
  - by rewrite append_nil_r.
  - cbn [plain] in Hplain. apply andb_true_iff in Hplain as [Hc Hplain].
    apply andb_true_iff in Hc as [Hc Hctl]. apply andb_true_iff in Hc as [Hq Hb].
    apply negb_true_iff in Hq, Hb, Hctl.
    cbn [scan step]. rewrite Hq, Hb, Hctl.
    rewrite IH by done. cbn. by rewrite append_snoc.
Qed.

End scan_facts.

(** * The genesis blocks of the tests *)
Module testing_facts.
Import ethdb core core_facts json jsonscan testnet_facts scan_facts.

(** **** The document and its tokens *)

Lemma account_text (a b : list Z) :
  fmt.Sprintf core_testing.accountFormat [fmt.bytes a; fmt.bytes b]
  = (dq +:+ "0x") +:+ (conv.hexOfBytes a +:+
      ((dq +:+ ":{" +:+ dq +:+ "balance" +:+ dq +:+ ":" +:+ dq +:+ "0x") +:+
         (conv.hexOfBytes b +:+ (dq +:+ "}")))).
Proof. reflexivity. Qed.

Lemma account_scan (a b : list Z) :
  Forall conv.isByte a → Forall conv.isByte b →
  scan Outside (fmt.Sprintf core_testing.accountFormat [fmt.bytes a; fmt.bytes b])
  = Some (Outside, entryTokens (conv.hexOfBytes a) (conv.hexOfBytes b)).
Proof.
  intros Ha Hb. apply hexOfBytes_plain in Ha, Hb. rewrite account_text.
  revert Ha Hb. generalize (conv.hexOfBytes a) (conv.hexOfBytes b). intros A B HA HB.
  rewrite scan_app. change (scan Outside (dq +:+ "0x")) with (Some (InString "0x", @nil token)).
  cbv iota beta. rewrite scan_app, (scan_plain A "0x" HA). cbv iota beta.
  rewrite scan_app.
  change (scan (InString ("0x" +:+ A)) _)
    with (Some (InString "0x", [Str ("0x" +:+ A); Colon; LBrace; Str "balance"; Colon])).
  cbv iota beta. rewrite scan_app, (scan_plain B "0x" HB). cbv iota beta.
  change (scan (InString ("0x" +:+ B)) _) with (Some (Outside, [Str ("0x" +:+ B); RBrace])).
  reflexivity.
Qed.

Lemma loop_scan (accounts : list core_testing.GenesisAccount) (i : nat) (json : string)
    (ts : list token) :
  scan Outside json = Some (Outside, ts) →
  scan Outside (core_testing.accountLoop i json accounts)
  = Some (Outside, ts ++ loopTokens i accounts).
Proof.
  revert i json ts. induction accounts as [|account accounts IH]; intros i json ts Hjson.
  - cbn [core_testing.accountLoop loopTokens]. by rewrite app_nil_r.
  - cbn [core_testing.accountLoop loopTokens]. cbv zeta.
    rewrite (IH (S i) _ ((ts ++ if (i =? 0)%nat then [] else [Comma])
                         ++ entryTokens (keyText account) (balanceText account))).
    + by rewrite <- !app_assoc.
    + rewrite scan_app.
      assert (Hsep : scan Outside (if (i =? 0)%nat then json else json +:+ ",")
                     = Some (Outside, ts ++ if (i =? 0)%nat then [] else [Comma])).
      { destruct (i =? 0)%nat; [by rewrite app_nil_r|].
        rewrite scan_app, Hjson. reflexivity. }
      rewrite Hsep. cbv iota beta.
      rewrite account_scan by apply conv_facts.be_bytes_isByte. reflexivity.
Qed.

Lemma accountJson_scan (accounts : list core_testing.GenesisAccount) :
  scan Outside (core_testing.accountJson accounts)
  = Some (Outside, LBrace :: loopTokens 0 accounts ++ [RBrace]).
Proof.
  unfold core_testing.accountJson. rewrite scan_app.
  rewrite (loop_scan accounts 0 "{" [LBrace]) by reflexivity. reflexivity.
Qed.

Lemma document_text (n g d : list Z) (alloc : string) :
  fmt.Sprintf core_testing.forTestingFormat [fmt.bytes n; fmt.bytes g; fmt.bytes d; fmt.text alloc]
  = ("{" +:+ nl +:+ tab +:+ dq +:+ "nonce" +:+ dq +:+ ":" +:+ dq +:+ "0x") +:+
    (conv.hexOfBytes n +:+
    ((dq +:+ "," +:+ nl +:+ tab +:+ dq +:+ "gasLimit" +:+ dq +:+ ":" +:+ dq +:+ "0x") +:+
    (conv.hexOfBytes g +:+
    ((dq +:+ "," +:+ nl +:+ tab +:+ dq +:+ "difficulty" +:+ dq +:+ ":" +:+ dq +:+ "0x") +:+
    (conv.hexOfBytes d +:+
    ((dq +:+ "," +:+ nl +:+ tab +:+ dq +:+ "alloc" +:+ dq +:+ ": ") +:+
    (alloc +:+ (nl +:+ "}")))))))).
Proof. reflexivity. Qed.

Lemma document_lex (n g d : list Z) (alloc : string) (ts : list token) :
  Forall conv.isByte n → Forall conv.isByte g → Forall conv.isByte d →
  scan Outside alloc = Some (Outside, ts) →
  lex Outside (fmt.Sprintf core_testing.forTestingFormat
                 [fmt.bytes n; fmt.bytes g; fmt.bytes d; fmt.text alloc])
  = Some (headTokens (conv.hexOfBytes n) (conv.hexOfBytes g) (conv.hexOfBytes d)
          ++ ts ++ [RBrace]).
Proof.
  intros Hn Hg Hd Halloc. apply hexOfBytes_plain in Hn, Hg, Hd. rewrite document_text.
  revert Hn Hg Hd.
  generalize (conv.hexOfBytes n) (conv.hexOfBytes g) (conv.hexOfBytes d). intros N G D HN HG HD.
  rewrite lex_scan.
  rewrite scan_app.
  change (scan Outside ("{" +:+ _))
    with (Some (InString "0x", [LBrace; Str "nonce"; Colon])).
  cbv iota beta. rewrite scan_app, (scan_plain N "0x" HN). cbv iota beta.
  rewrite scan_app.
  change (scan (InString ("0x" +:+ N)) _)
    with (Some (InString "0x", [Str ("0x" +:+ N); Comma; Str "gasLimit"; Colon])).
  cbv iota beta. rewrite scan_app, (scan_plain G "0x" HG). cbv iota beta.
  rewrite scan_app.
  change (scan (InString ("0x" +:+ G)) _)
    with (Some (InString "0x", [Str ("0x" +:+ G); Comma; Str "difficulty"; Colon])).
  cbv iota beta. rewrite scan_app, (scan_plain D "0x" HD). cbv iota beta.
  rewrite scan_app.
  change (scan (InString ("0x" +:+ D)) _)
    with (Some (Outside, [Str ("0x" +:+ D); Comma; Str "alloc"; Colon])).
  cbv iota beta. rewrite scan_app, Halloc. cbv iota beta.
  change (scan Outside (nl +:+ "}")) with (Some (Outside, [RBrace])).
  cbn. unfold headTokens. cbn. by rewrite app_nil_r.
Qed.

(** **** Parsing and decoding *)

Lemma loopTokens_succ (accounts : list core_testing.GenesisAccount) (i : nat) :
  loopTokens (S i) accounts = loopTokens 1 accounts.
Proof.
  revert i. induction accounts as [|a l IH]; intros i; [done|].
  cbn [loopTokens Nat.eqb]. by rewrite (IH (S i)), (IH 1%nat).
Qed.

Lemma parse_entry (fuel : nat) (b : string) (rest : list token) :
  (3 ≤ fuel)%nat →
  parseValue fuel (LBrace :: Str "balance" :: Colon :: Str b :: RBrace :: rest)
  = Some (Object [("balance", Text b)], rest).
Proof.
  intros Hf. destruct fuel as [|[|[|f]]]; try lia. reflexivity.
Qed.

Lemma parse_members_loop (accounts : list core_testing.GenesisAccount)
    (a : core_testing.GenesisAccount) (fuel : nat) (rest : list token) :
  (length accounts + 4 ≤ fuel)%nat →
  parseMembers fuel (entryTokens (keyText a) (balanceText a)
                     ++ loopTokens 1 accounts ++ RBrace :: rest)
  = Some (members (a :: accounts), rest).
Proof.
  revert a fuel. induction accounts as [|a' l IH]; intros a fuel Hf.
  - destruct fuel as [|f]; [cbn in Hf; lia|].
    cbn [entryTokens app loopTokens parseMembers].
    rewrite parse_entry by (cbn in Hf; lia). reflexivity.
  - destruct fuel as [|f]; [cbn in Hf; lia|].
    cbn [entryTokens app parseMembers].
    rewrite parse_entry by (cbn in Hf; lia).
    cbn [loopTokens Nat.eqb app].
    rewrite (loopTokens_succ l 1).
    rewrite <- (app_assoc (entryTokens (keyText a') (balanceText a'))).
    rewrite (IH a' f) by (cbn [length] in Hf; lia). reflexivity.
Qed.

Lemma parseValue_object (f : nat) (k : string) (ts : list token) :
  parseValue (S f) (LBrace :: Str k :: ts)
  = (λ r, (Object r.1, r.2)) <$> parseMembers f (Str k :: ts).
Proof. reflexivity. Qed.

Lemma parseMembers_text (f : nat) (k s : string) (ts : list token) :
  parseMembers (S (S f)) (Str k :: Colon :: Str s :: Comma :: ts)
  = (λ r, ((k, Text s) :: r.1, r.2)) <$> parseMembers (S f) ts.
Proof. reflexivity. Qed.

Lemma parseMembers_last (f : nat) (k : string) (v : value) (ts rest : list token) :
  parseValue f ts = Some (v, RBrace :: rest) →
  parseMembers (S f) (Str k :: Colon :: ts) = Some ([(k, v)], rest).
Proof. intros Hv. cbn [parseMembers]. by rewrite Hv. Qed.

Lemma parse_alloc (accounts : list core_testing.GenesisAccount) (fuel : nat) (rest : list token) :
  (length accounts + 4 ≤ fuel)%nat →
  parseValue fuel (LBrace :: loopTokens 0 accounts ++ RBrace :: rest)
  = Some (Object (members accounts), rest).
Proof.
  intros Hf. destruct fuel as [|fuel]; [lia|].
  destruct accounts as [|a l]; [reflexivity|].
  cbn [loopTokens Nat.eqb app entryTokens]. rewrite parseValue_object.
  change (Str ("0x" +:+ keyText a) :: Colon :: LBrace :: Str "balance" :: Colon
          :: Str ("0x" +:+ balanceText a) :: RBrace :: loopTokens 1 l ++ RBrace :: rest)
    with (entryTokens (keyText a) (balanceText a) ++ loopTokens 1 l ++ RBrace :: rest).
  rewrite parse_members_loop by (cbn [length] in Hf; lia). reflexivity.
Qed.

Lemma parse_document (accounts : list core_testing.GenesisAccount) (n g d : string) (fuel : nat) :
  (length accounts + 9 ≤ fuel)%nat →
  parseValue fuel (headTokens n g d ++ (LBrace :: loopTokens 0 accounts ++ [RBrace]) ++ [RBrace])
  = Some (Object [("nonce", Text ("0x" +:+ n)); ("gasLimit", Text ("0x" +:+ g));
                  ("difficulty", Text ("0x" +:+ d)); ("alloc", Object (members accounts))], []).
Proof.
  intros Hf. do 5 (destruct fuel as [|fuel]; [lia|]).
  cbn [headTokens app]. rewrite parseValue_object, !parseMembers_text.
  rewrite <- app_assoc.
  rewrite (parseMembers_last fuel "alloc" (Object (members accounts)) _ []).
  - reflexivity.
  - apply parse_alloc. lia.
Qed.

Lemma length_loopTokens (accounts : list core_testing.GenesisAccount) (i : nat) :
  (length accounts ≤ length (loopTokens i accounts))%nat.
Proof.
  revert i. induction accounts as [|a l IH]; intros i; [done|].
  cbn [loopTokens length]. rewrite !length_app. cbn [entryTokens length].
  pose proof (IH (S i)). lia.
Qed.

Lemma alloc_decode (accounts : list core_testing.GenesisAccount) (old : gmap string AllocEntry) :
  decodeAlloc old (Object (members accounts)) = Some (allocOf accounts old).
Proof.
  unfold decodeAlloc, allocOf, members. revert old.
  induction accounts as [|a l IH]; intros old; [done|].
  rewrite fmap_cons. cbn [foldl]. rewrite <- IH. reflexivity.
Qed.

Lemma genesis_decode (n g d : string) (v : value) :
  decodeGenesis (Object [("nonce", Text n); ("gasLimit", Text g);
                         ("difficulty", Text d); ("alloc", v)])
  = (λ m, {| Nonce := n; Timestamp := EmptyString; ParentHash := EmptyString;
             ExtraData := EmptyString; GasLimit := g; Difficulty := d;
             Mixhash := EmptyString; Coinbase := EmptyString; Alloc := m |})
    <$> decodeAlloc ∅ v.
Proof. reflexivity. Qed.

(** **** The allocation table and the state *)

Lemma allocOf_list_to_map (accounts : list core_testing.GenesisAccount) :
  allocOf accounts ∅ = list_to_map (reverse (allocPair <$> accounts)).
Proof.
  unfold allocOf. induction accounts as [|a l IH] using rev_ind; [done|].
  rewrite foldl_app, fmap_app, reverse_app. cbn [foldl fmap list_fmap reverse].
  rewrite IH. reflexivity.
Qed.

Lemma range_empty {V} (r : Range) : fair r → range r (∅ : gmap string V) = [].
Proof.
  intros Hr. unfold range. pose proof (Hr _ (map_to_list (∅ : gmap string V))) as Hp.
  rewrite map_to_list_empty in *. by apply Permutation_nil_r in Hp.
Qed.

Section Testing.
Context `{!types.Hasher, !state.Trie, !params.Defaults}.
#[local] Existing Instance conv.conversions.
#[local] Existing Instance json.decoder.

(** The document decodes, whatever the accounts. *)
Lemma testing_document_decodes (accounts : list core_testing.GenesisAccount) :
  Unmarshal (core_testing.forTestingDocument accounts)
  = inr (core_testing.forTestingGenesis accounts).
Proof.
  unfold Unmarshal, json.decoder, json.Unmarshal, parse, core_testing.forTestingDocument.
  assert (Hn : Forall conv.isByte (types.EncodeNonce 0)) by apply conv_facts.be_bytes_isByte.
  assert (Hg : Forall conv.isByte (conv.Bytes params.GenesisGasLimit))
    by apply conv_facts.be_bytes_isByte.
  assert (Hd : Forall conv.isByte (conv.Bytes params.GenesisDifficulty))
    by apply conv_facts.be_bytes_isByte.
  rewrite (document_lex (types.EncodeNonce 0) (conv.Bytes params.GenesisGasLimit)
             (conv.Bytes params.GenesisDifficulty) (core_testing.accountJson accounts)
             (LBrace :: loopTokens 0 accounts ++ [RBrace]) Hn Hg Hd (accountJson_scan accounts)).
  rewrite parse_document.
  - rewrite genesis_decode, alloc_decode. reflexivity.
  - rewrite !length_app. cbn [headTokens length].
    rewrite length_app. pose proof (length_loopTokens accounts 0). lia.
Qed.

Lemma allocPair_address (account : core_testing.GenesisAccount) :
  core_testing.wellTyped account →
  common.HexToAddress (allocPair account).1 = core_testing.Address account.
Proof. intros Hwt. by apply hex_facts.HexToAddress_hex. Qed.

Lemma allocPair_addresses (accounts : list core_testing.GenesisAccount) :
  Forall core_testing.wellTyped accounts →
  (λ e : string * AllocEntry, common.HexToAddress e.1) <$> (allocPair <$> accounts)
  = core_testing.Address <$> accounts.
Proof.
  induction 1 as [|a l Ha Hl IH]; [done|].
  rewrite !fmap_cons, IH. f_equal. by apply allocPair_address.
Qed.

Lemma allocStep_account (r : Range) (st : state.StateDB) (account : core_testing.GenesisAccount) :
  fair r → core_testing.wellTyped account →
  st !! core_testing.Address account = None →
  allocStep r st (allocPair account)
  = <[core_testing.Address account :=
        {| state.balance := Z.abs (core_testing.Balance account); state.code := [];
           state.storage := ∅ |}]> st.
Proof.
  intros Hr Hwt Hnone. rewrite allocStep_insert, allocPair_address by done.
  f_equal. unfold allocObject, state.GetOrNewStateObject. rewrite Hnone.
  cbn [snd allocPair testnet.entry Storage Balance Code default].
  rewrite (range_empty r Hr). cbn [foldl state.newObject state.balance state.storage].
  cbn [common.String2Big common.Hex2Bytes conv.conversions].
  unfold balanceText. rewrite hex_facts.String2Big_Bytes. f_equal.
Qed.

Lemma allocSteps_accounts (r : Range) (accounts : list core_testing.GenesisAccount)
    (st : state.StateDB) :
  fair r → Forall core_testing.wellTyped accounts →
  NoDup (core_testing.Address <$> accounts) →
  (∀ a, a ∈ accounts → st !! core_testing.Address a = None) →
  foldl (allocStep r) st (allocPair <$> accounts)
  = foldl (λ st account,
             <[core_testing.Address account :=
                 {| state.balance := Z.abs (core_testing.Balance account); state.code := [];
                    state.storage := ∅ |}]> st) st accounts.
Proof.
  intros Hr Hwt. revert st. induction Hwt as [|a l Ha Hl IH]; intros st Hnd Hnone; [done|].
  rewrite fmap_cons in Hnd. apply NoDup_cons in Hnd as [Hnotin Hnd].
  rewrite fmap_cons. cbn [foldl].
  rewrite allocStep_account by (done || apply Hnone, list_elem_of_here).
  apply IH; [done|]. intros a' Ha'. rewrite lookup_insert_ne.
  - apply Hnone. by apply list_elem_of_further.
  - intros Heq. apply Hnotin. rewrite Heq. by apply list_elem_of_fmap_2.
Qed.

Lemma testing_state (r : Range) (accounts : list core_testing.GenesisAccount) :
  fair r → Forall core_testing.wellTyped accounts →
  NoDup (core_testing.Address <$> accounts) →
  genesisState r (core_testing.forTestingGenesis accounts) = core_testing.forTestingState accounts.
Proof.
  intros Hr Hwt Hnd. unfold genesisState, state.SyncObjects, allocate, state.New.
  change (Alloc (core_testing.forTestingGenesis accounts)) with (allocOf accounts ∅).
  assert (Hkeys : NoDup ((λ e : string * AllocEntry, common.HexToAddress e.1)
                          <$> (allocPair <$> accounts))).
  { by rewrite allocPair_addresses. }
  assert (Hfst : NoDup (allocPair <$> accounts).*1).
  { apply (NoDup_fmap_1 common.HexToAddress). by rewrite <- list_fmap_compose. }
  assert (Hperm : allocPair <$> accounts ≡ₚ range r (allocOf accounts ∅)).
  { unfold range. rewrite (Hr _ _), allocOf_list_to_map.
    rewrite map_to_list_to_map.
    - by rewrite reverse_Permutation.
    - by rewrite fmap_reverse, reverse_Permutation. }
  rewrite <- (foldl_arrangement (allocStep r) (λ e, common.HexToAddress e.1)
                _ _ (λ b x y Hne, allocStep_swap r b x y Hne) Hperm Hkeys).
  rewrite allocSteps_accounts; done.
Qed.

Lemma testing_block (r : Range) (accounts : list core_testing.GenesisAccount) :
  fair r → Forall core_testing.wellTyped accounts →
  NoDup (core_testing.Address <$> accounts) →
  genesisBlock (core_testing.forTestingGenesis accounts)
    (state.Root (genesisState r (core_testing.forTestingGenesis accounts)))
  = core_testing.forTestingBlock accounts.
Proof.
  intros Hr Hwt Hnd. rewrite testing_state by done.
  unfold genesisBlock, core_testing.forTestingBlock.
  cbn [core_testing.forTestingGenesis Nonce Timestamp ParentHash ExtraData GasLimit Difficulty
       Mixhash Coinbase].
  cbn [common.String2Big common.HexToHash common.HexToAddress common.FromHex conv.conversions].
  rewrite !hex_facts.String2Big_Bytes. reflexivity.
Qed.

Lemma testing_difficulty (accounts : list core_testing.GenesisAccount) :
  common.String2Big (Difficulty (core_testing.forTestingGenesis accounts))
  = Z.abs params.GenesisDifficulty.
Proof. apply hex_facts.String2Big_Bytes. Qed.

(** [WriteGenesisBlockForTesting] as an installation. *)
Lemma WriteGenesisBlockForTesting_install
    (r : Range) (accounts : list core_testing.GenesisAccount) (s : Store) :
  fair r → Forall core_testing.wellTyped accounts →
  NoDup (core_testing.Address <$> accounts) →
  let run := install (core_testing.forTestingState accounts)
                     (core_testing.forTestingBlock accounts)
                     (Z.abs params.GenesisDifficulty) s in
  core_testing.WriteGenesisBlockForTesting r accounts s
  = (match run.1 with inr block => Some block | inl _ => None end, run.2).
Proof.
  intros Hr Hwt Hnd run. unfold core_testing.WriteGenesisBlockForTesting.
  rewrite (WriteGenesisBlock_decoded _ _ _ _ (testing_document_decodes accounts)).
  rewrite testing_difficulty, testing_block, testing_state by done.
  fold run. by destruct run.
Qed.

(** X9. For accounts with distinct 20-byte addresses and a fair order of
    iteration, [WriteGenesisBlockForTesting] is the installation (lines
    87-109) of the block with the zero nonce, the magnitudes of the default
    gas limit and difficulty and no other field set, over the state in
    which each listed address has the magnitude of its balance, no code
    and no storage; the block it returns is [nil] exactly when that
    installation returns an error. *)
Theorem test_genesis_installs_the_accounts
    (r : Range) (accounts : list core_testing.GenesisAccount) (s : Store) :
  fair r → Forall core_testing.wellTyped accounts →
  NoDup (core_testing.Address <$> accounts) →
  let run := install (core_testing.forTestingState accounts)
                     (core_testing.forTestingBlock accounts)
                     (Z.abs params.GenesisDifficulty) s in
  core_testing.WriteGenesisBlockForTesting r accounts s
  = (match run.1 with inr block => Some block | inl _ => None end, run.2).
Proof.
  intros Hr Hwt Hnd. by apply WriteGenesisBlockForTesting_install.
Qed.

(** X10. The document [WriteGenesisBlockForTesting] formats decodes for
    every list of accounts, so the only error it can drop is a refusal of
    the store: it returns [nil] exactly when the store refuses one of the
    writes of the installation. *)
Theorem test_genesis_nil_only_on_refusal
    (r : Range) (accounts : list core_testing.GenesisAccount) (s : Store) :
  let genesis := core_testing.forTestingGenesis accounts in
  let block := genesisBlock genesis (state.Root (genesisState r genesis)) in
  let writes := installWrites (db s) block (common.String2Big (Difficulty genesis)) in
  Unmarshal (core_testing.forTestingDocument accounts) = inr genesis ∧
  ((core_testing.WriteGenesisBlockForTesting r accounts s).1 = None
   ↔ is_Some (refusal (faults s) (length writes))).
Proof.
  cbv zeta. split; [apply testing_document_decodes|].
  unfold core_testing.WriteGenesisBlockForTesting.
  rewrite (WriteGenesisBlock_decoded _ _ _ _ (testing_document_decodes accounts)), install_run.
  cbv zeta. cbn [fst].
  destruct (refusal _ _) as [e|]; split; intros Hx; try done; try (by eexists);
    by destruct Hx.
Qed.

(** X11. For a 20-byte address, a balance that is not negative and
    defaults that are not negative, [GenesisBlockForTesting] returns a
    block and commits the state in which the address has the balance under
    the root of that block, without any write to the Chain Index: the
    journal, the blocks, the total difficulties, the canonical entries and
    the head are as before.  It is the block
    [WriteGenesisBlockForTesting] installs and returns for that one
    account into a store that does not hold it and grants the writes, with
    the same committed states. *)
Theorem testing_block_is_the_written_block
    (r : Range) (addr balance : Z) (s : Store) :
  fair r → 0 ≤ addr < 2 ^ 160 → 0 ≤ balance →
  0 ≤ params.GenesisGasLimit → 0 ≤ params.GenesisDifficulty →
  let account := {| core_testing.Address := addr; core_testing.Balance := balance |} in
  let made := core_testing.GenesisBlockForTesting addr balance s in
  let written := core_testing.WriteGenesisBlockForTesting r [account] s in
  ∃ block, made.1 = inr block ∧
    journal made.2 = journal s ∧ faults made.2 = faults s ∧
    blocks (db made.2) = blocks (db s) ∧ tds (db made.2) = tds (db s) ∧
    canonical (db made.2) = canonical (db s) ∧ head (db made.2) = head (db s) ∧
    tries (db made.2) !! types.Root (types.header block)
      = Some {[ addr := {| state.balance := balance; state.code := []; state.storage := ∅ |} ]} ∧
    (blocks (db s) !! types.Hash block = None → refusal (faults s) 4 = None →
     written.1 = Some block ∧ blocks (db written.2) !! types.Hash block = Some block ∧
     tries (db written.2) = tries (db made.2)).
Proof.
  intros Hr Haddr Hbal Hgas Hdiff account made written.
  assert (Hwt : Forall core_testing.wellTyped [account]) by (constructor; [exact Haddr|constructor]).
  assert (Hnd : NoDup (core_testing.Address <$> [account])) by apply NoDup_singleton.
  assert (Hst : core_testing.forTestingState [account]
                = {[ addr := {| state.balance := balance; state.code := [];
                               state.storage := ∅ |} ]}).
  { unfold core_testing.forTestingState. cbn [foldl account core_testing.Address
      core_testing.Balance]. rewrite Z.abs_eq by done. by rewrite insert_empty. }
  assert (Hblock : core_testing.forTestingBlock [account]
                   = types.NewBlock
                       {| types.Difficulty := params.GenesisDifficulty;
                          types.GasLimit := params.GenesisGasLimit;
                          types.Root := state.Root (core_testing.forTestingState [account]);
                          types.Nonce := replicate 8 0; types.Time := 0;
                          types.ParentHash := 0; types.Extra := []; types.MixDigest := 0;
                          types.Coinbase := 0; types.Number := 0 |} [] []).
  { unfold core_testing.forTestingBlock. by rewrite !Z.abs_eq by done. }
  exists (core_testing.forTestingBlock [account]).
  assert (Hmade : made = (inr (core_testing.forTestingBlock [account]),
                          {| db := commit (state.Root (core_testing.forTestingState [account]))
                                     (core_testing.forTestingState [account]) (db s);
                             journal := journal s; faults := faults s |})).
  { subst made. unfold core_testing.GenesisBlockForTesting. rewrite Hblock, Hst.
    unfold state.SyncObjects, state.New, state.GetOrNewStateObject, core_testing.SetBalance.
    rewrite lookup_empty. cbn [default state.newObject state.code state.storage].
    rewrite insert_empty. reflexivity. }
  rewrite Hmade. cbn [fst snd db journal faults commit blocks tds canonical head tries].
  split; [done|]. do 6 (split; [done|]). split.
  - rewrite Hblock at 1. cbn [types.NewBlock types.header types.Root].
    by rewrite lookup_insert_eq, Hst.
  - intros Hfresh Hgrant. subst written.
    rewrite WriteGenesisBlockForTesting_install by done.
    rewrite install_run. cbv zeta. cbn [fst snd db].
    unfold installWrites, installBase, installed. rewrite Hfresh.
    cbn [length freshWrites default].
    rewrite Hgrant, (refusal_none_granted _ _ Hgrant). unfold freshWrites.
    cbn [take foldl apply commit blocks tries]. by rewrite lookup_insert_eq.
Qed.

End Testing.
End testing_facts.

(** * The list of methods and the handlers over the pool *)
Module api_pool_facts.
Import shared api api_pool api_facts.

(** Every entry of the table is twinned back: checked entry by entry. *)
Lemma eth_entries_twinned (method : string) (callback : ethhandler.t) :
  ethMapping !! method = Some callback → twinnedBack (method, callback).
Proof.
  intros Hin. apply elem_of_list_to_map_2 in Hin.
  revert Hin. generalize (method, callback). apply Forall_forall.
  apply forallb_True. by vm_compute.
Qed.

Section Facts.
Context `{Node, Pool, !common.Conversions}.

(** The loop of [Methods] after the entries [done] and before [rest]. *)
Lemma methods_loop (rest done : list (string * ethhandler.t)) :
  foldl (λ acc kv,
           '(methods, i) ← acc;
           if decide (i < length methods)%nat then Some (<[i := kv.1]> methods, S i) else None)
        (Some (done.*1 ++ replicate (length rest) EmptyString, length done)) rest
  = Some ((done ++ rest).*1, length (done ++ rest)).
Proof.
  revert done. induction rest as [|kv rest IH]; intros done.
  - cbn [foldl replicate length]. by rewrite !app_nil_r.
  - cbn [foldl mbind option_bind]. 
    destruct (decide (length done < length (done.*1 ++ replicate (length (kv :: rest)) EmptyString))%nat)
      as [_|Hge].
    + replace (<[length done := kv.1]> (done.*1 ++ replicate (length (kv :: rest)) EmptyString))
        with ((done ++ [kv]).*1 ++ replicate (length rest) EmptyString).
      * replace (S (length done)) with (length (done ++ [kv])) by (rewrite length_app; cbn; lia).
        rewrite IH. by rewrite <- app_assoc.
      * rewrite fmap_app, <- app_assoc. cbn [length replicate fmap list_fmap app].
        rewrite insert_app_r_alt by (rewrite length_fmap; lia).
        by rewrite length_fmap, Nat.sub_diag.
    + exfalso. apply Hge. rewrite length_app, length_fmap. cbn. lia.
Qed.

(** X12. [Methods] does not run over the end of its slice and returns the
    names of the table in the order of the visit, each exactly once;
    [Execute] answers a request whose method is not among them with a
    not-implemented error that names the method. *)
Theorem methods_lists_the_table (r : core.Range) (self : ethApi) :
  core.fair r →
  ∃ l, Methods r self = Some l ∧
    l = (core.range r (methods self)).*1 ∧
    NoDup l ∧ length l = size (methods self) ∧
    (∀ m, m ∈ l ↔ is_Some (methods self !! m)) ∧
    (∀ req, Method req ∉ l →
       Execute self req = Return None (Some (NotImplementedError (Method req)))).
Proof.
  intros Hr.
  assert (Hp : core.range r (methods self) ≡ₚ map_to_list (methods self)) by apply Hr.
  assert (Hlen : length (core.range r (methods self)) = size (methods self)).
  { by rewrite Hp, length_map_to_list. }
  exists (core.range r (methods self)).*1. split; [|split; [done|]].
  - unfold Methods. rewrite <- Hlen.
    pose proof (methods_loop (core.range r (methods self)) []) as Hloop.
    cbn [fmap list_fmap app length] in Hloop. rewrite Hloop. reflexivity.
  - assert (Hin : ∀ m, m ∈ (core.range r (methods self)).*1 ↔ is_Some (methods self !! m)).
    { intros m. rewrite Hp. rewrite list_elem_of_fmap. split.
      - intros ([k v] & -> & Hkv). apply elem_of_map_to_list in Hkv. by eexists.
      - intros [v Hv]. exists (m, v). split; [done|]. by apply elem_of_map_to_list. }
    split; [|split; [|split]].
    + rewrite Hp. apply NoDup_fst_map_to_list.
    + by rewrite length_fmap.
    + done.
    + intros req Hnot. unfold Execute.
      destruct (methods self !! Method req) as [callback|] eqn:Hm; [|done].
      destruct Hnot. apply Hin. by eexists.
Qed.

(** X13. Every eth_ method of the table but eth_getNatSpec has a twin
    under exp_ with the same handler; exp_getNatSpec is not in the table,
    so [Execute] answers it with a not-implemented error. *)
Theorem eth_methods_have_exp_twins (X : string) (callback : ethhandler.t) (x : XEth)
    (req : Request) :
  (ethMapping !! ("eth_" +:+ X) = Some callback → X ≠ "getNatSpec" →
   ethMapping !! ("exp_" +:+ X) = Some callback) ∧
  ethMapping !! "eth_getNatSpec" = Some ethhandler.GetNatSpec ∧
  Execute (NewEthApi x) (withMethod req "exp_getNatSpec")
    = Return None (Some (NotImplementedError "exp_getNatSpec")).
Proof.
  split; [|by split].
  intros Heth HX. apply eth_entries_twinned in Heth. unfold twinnedBack in Heth.
  cbn [fst snd] in Heth. rewrite trimPrefix_append in Heth.
  apply orb_True in Heth as [Hnat|Hexp].
  - by apply bool_decide_unpack in Hnat.
  - by apply bool_decide_unpack in Hexp.
Qed.

(** The loop of [Resend] when no pending transaction is the one to resend,
    and when one is. *)
Lemma resendLoop_miss (args : ResendArgs Transaction) (pending : list Transaction)
    (node : Expanse) :
  Forall (λ p, ¬ resent args p) pending →
  resendLoop args (common.HexToAddress (From (Tx args))) pending node
  = (Return None (Some (OtherError ("Transaction " +:+ Hash (Tx args) +:+ " not found"))), node).
Proof.
  induction 1 as [|p pending Hp _ IH]; [reflexivity|].
  cbn [resendLoop]. unfold resent in Hp.
  destruct (TxFrom p) as [e|pFrom]; [exact IH|].
  destruct (bool_decide (pFrom = _)) eqn:Hfrom; [|exact IH].
  destruct (bool_decide (SigHash p = _)) eqn:Hsig; [|exact IH].
  apply bool_decide_eq_true in Hfrom, Hsig. destruct Hp. by subst.
Qed.

Lemma resendLoop_hit (args : ResendArgs Transaction) (pending : list Transaction)
    (node : Expanse) :
  Exists (resent args) pending →
  resendLoop args (common.HexToAddress (From (Tx args))) pending node
  = (Return (Some (resubmit args node).1.1) (resubmit args node).1.2, (resubmit args node).2).
Proof.
  induction pending as [|p pending IH]; intros Hex; [by apply Exists_nil in Hex|].
  cbn [resendLoop].
  destruct (decide (resent args p)) as [[Hfrom Hsig]|Hno].
  - rewrite Hfrom, Hsig, !bool_decide_eq_true_2 by done. cbn [andb].
    cbv zeta. unfold resubmit. by destruct (Transact _ _ _ _ _ _ _ _) as [[v err] node'].
  - apply Exists_cons in Hex as [Hyes|Hex]; [done|].
    unfold resent in Hno.
    destruct (TxFrom p) as [e|pFrom]; [by apply IH|].
    destruct (bool_decide (pFrom = _)) eqn:Hfrom; [|by apply IH].
    destruct (bool_decide (SigHash p = _)) eqn:Hsig; [|by apply IH].
    apply bool_decide_eq_true in Hfrom, Hsig. destruct Hno. by subst.
Qed.

(** X14. Once its parameters decode, [Resend] looks for a pending
    transaction with the sender and the signature hash of the given one.
    If there is one it removes from the pool the transaction of the hash
    given in the parameters, submits the new transaction once and returns
    what [Transact] returns; if there is none it leaves the node as it is
    and returns the error that the transaction of that hash was not
    found. *)
Theorem resend_replaces_or_reports (self : ethApi) (req : Request) (node : Expanse)
    (args : ResendArgs Transaction) :
  DecodeResendArgs (Params req) = inr args →
  (Exists (resent args) (GetTransactions node) →
   Resend self req node
   = (Return (Some (resubmit args node).1.1) (resubmit args node).1.2,
      (resubmit args node).2)) ∧
  (Forall (λ p, ¬ resent args p) (GetTransactions node) →
   Resend self req node
   = (Return None (Some (OtherError ("Transaction " +:+ Hash (Tx args) +:+ " not found"))),
      node)).
Proof.
  intros Hdec. unfold Resend. rewrite Hdec. cbv zeta. split.
  - apply resendLoop_hit.
  - apply resendLoop_miss.
Qed.

(** The set of the accounts holds their addresses. *)
Lemma accountSet_elem (accounts : list Account) (start : gset Z) (a : Z) :
  a ∈ foldl (λ set account, {[ AccountAddress account ]} ∪ set) start accounts
  ↔ a ∈ start ∨ a ∈ AccountAddress <$> accounts.
Proof.
  revert start. induction accounts as [|x l IH]; intros start; cbn [foldl fmap list_fmap].
  - rewrite elem_of_nil. tauto.
  - rewrite IH, elem_of_union, elem_of_singleton, elem_of_cons. tauto.
Qed.

(** The loop of [PendingTransactions] is a filter. *)
Lemma pending_loop (set : gset Z) (txs : list Transaction) (done : list TxRes) :
  foldl (λ ltxs t, if bool_decide (senderOrZero t ∈ set) then ltxs ++ [newTx t] else ltxs)
        done txs
  = done ++ (newTx <$> filter (λ t, senderOrZero t ∈ set) txs).
Proof.
  revert done. induction txs as [|t txs IH]; intros done; cbn [foldl].
  - by rewrite app_nil_r.
  - rewrite IH. destruct (decide (senderOrZero t ∈ set)) as [Hin|Hout].
    + rewrite bool_decide_eq_true_2, filter_cons_True by done.
      by rewrite fmap_cons, <- app_assoc.
    + by rewrite bool_decide_eq_false_2, filter_cons_False by done.
Qed.

(** X15. [PendingTransactions] returns the error of the account manager
    if it gives one; otherwise the pooled transactions whose sender (the
    zero address when the sender cannot be recovered) is an address of one
    of the accounts, in the order of the pool: never more than the pool
    holds, and none when there is no account. *)
Theorem pending_transactions_are_own (self : ethApi) (req : Request) (node : Expanse) :
  match Accounts node with
  | inl err => PendingTransactions self req node = Return None (Some (OtherError err))
  | inr accounts =>
      ∃ ltxs, PendingTransactions self req node = Return (Some ltxs) None ∧
        ltxs = newTx <$> filter (λ t, senderOrZero t ∈ AccountAddress <$> accounts)
                                (GetTransactions node) ∧
        (length ltxs ≤ length (GetTransactions node))%nat ∧
        (accounts = [] → ltxs = [])
  end.
Proof.
  unfold PendingTransactions. destruct (Accounts node) as [err|accounts]; [done|].
  cbv zeta. eexists. split; [reflexivity|].
  rewrite pending_loop. cbn [app].
  assert (Heq : filter (λ t, senderOrZero t ∈
                   foldl (λ set account, {[ AccountAddress account ]} ∪ set) (∅ : gset Z) accounts)
                  (GetTransactions node)
                = filter (λ t, senderOrZero t ∈ AccountAddress <$> accounts)
                         (GetTransactions node)).
  { apply list_filter_iff. intros t. rewrite accountSet_elem, elem_of_empty. tauto. }
  rewrite Heq. split; [done|]. split.
  - rewrite length_fmap. apply length_filter.
  - intros ->. cbn [fmap list_fmap]. clear Heq.
    induction (GetTransactions node) as [|t l IH]; [done|].
    rewrite filter_cons_False; [exact IH|]. apply not_elem_of_nil.
Qed.

End Facts.
End api_pool_facts.

(** * The further properties on concrete inputs *)
Module coverage_examples.
Import ethdb core core_facts.

Section Examples.
#[local] Existing Instance sample.hasher.
#[local] Existing Instance sample.trie.
#[local] Existing Instance conv.conversions.
#[local] Existing Instance json.decoder.
#[local] Existing Instance sample.defaults.
#[local] Existing Instance sample.node.
#[local] Existing Instance fixtures.pool.

(** The hypotheses of X4 hold for the installation of the sample
    description into the empty store. *)
Example install_leaves_other_records_witness :
  let r := sample.listed in
  let contents := sample.description in
  let genesis := sample.genesis in
  let s := sample.fresh in
  let s' := sample.installed in
  let res := inr sample.block in
  let statedb := genesisState r genesis in
  let block := genesisBlock genesis (state.Root statedb) in
  let hash := types.Hash block in
  let stored := installed (db s) block in
  Unmarshal contents = inr genesis ∧
  WriteGenesisBlock r (NewReader contents) s = (res, s') ∧
  (∀ h, h ≠ hash → blocks (db s') !! h = blocks (db s) !! h ∧ tds (db s') !! h = tds (db s) !! h) ∧
  (∀ n, n ≠ types.NumberU64 stored → canonical (db s') !! n = canonical (db s) !! n) ∧
  (∀ root, root ≠ state.Root statedb → tries (db s') !! root = tries (db s) !! root) ∧
  (head (db s') = head (db s) ∨ head (db s') = Some hash).
Proof.
  cbv zeta. split; [by vm_compute|]. split; [by vm_compute|].
  apply install_facts.install_leaves_other_records
    with (contents := sample.description) (res := inr sample.block); by vm_compute.
Defined.

(** The hypotheses of X6 hold for a run into the empty store that the
    second write cut short, repaired by a run that visits the tables
    backwards. *)
Example early_cut_is_repaired_witness :
  let r1 := sample.listed in
  let r2 := sample.backwards in
  let contents := sample.description in
  let genesis := sample.genesis in
  let d := ethdb.empty in
  let e := "power loss" in
  let k := 1%nat in
  let statedb := genesisState r1 genesis in
  let block := genesisBlock genesis (state.Root statedb) in
  let cut := (WriteGenesisBlock r1 (NewReader contents)
                {| db := d; journal := []; faults := replicate k None ++ [Some e] |}).2 in
  let clean := (WriteGenesisBlock r1 (NewReader contents)
                  {| db := d; journal := []; faults := [] |}).2 in
  Unmarshal contents = inr genesis ∧
  genesisState r2 genesis = statedb ∧
  blocks d !! types.Hash block = None ∧
  (k < 2)%nat ∧
  WriteGenesisBlock r2 (NewReader contents) {| db := db cut; journal := []; faults := [] |}
    = (inr block, clean).
Proof.
  cbv zeta. split; [by vm_compute|]. split; [by vm_compute|]. split; [by vm_compute|].
  split; [lia|].
  apply install_facts.early_cut_is_repaired with (genesis := sample.genesis);
    [by vm_compute | by vm_compute | by vm_compute | lia].
Defined.

(** The hypotheses of X7 hold for two further runs, in two orders, against
    the store one installation left. *)
Example stored_block_is_never_completed_witness :
  let rs := [sample.listed; sample.backwards] in
  let contents := sample.description in
  let genesis := sample.genesis in
  let hash := types.Hash sample.block in
  let found := sample.block in
  let s := sample.installed in
  let s' := foldl (λ s r, (WriteGenesisBlock r (NewReader contents) s).2) s rs in
  Unmarshal contents = inr genesis ∧
  Forall (λ r, types.Hash (genesisBlock genesis (state.Root (genesisState r genesis))) = hash) rs ∧
  blocks (db s) !! hash = Some found ∧
  blocks (db s') = blocks (db s) ∧
  tds (db s') = tds (db s) ∧
  tries (db s') = tries (db s) ∧
  head (db s') = head (db s) ∧
  (canonical (db s') = canonical (db s) ∨
   canonical (db s') = <[types.NumberU64 found := types.Hash found]> (canonical (db s))).
Proof.
  cbv zeta. split; [by vm_compute|].
  split; [repeat constructor; by vm_compute|]. split; [by vm_compute|].
  apply install_facts.stored_block_is_never_completed
    with (genesis := sample.genesis) (hash := types.Hash sample.block);
    [by vm_compute | repeat constructor; by vm_compute | by vm_compute].
Defined.

(** The hypothesis of X8 holds for the duplicated description visited
    backwards; its two keys denote the address 1. *)
Example duplicate_keys_witness :
  let r := sample.backwards in
  let genesis := fixtures.duplicated in
  let a := 1 in
  fair r ∧
  match last (alloc.sameAddress a (range r (Alloc genesis))) with
  | None => alloc.sameAddress a (map_to_list (Alloc genesis)) = []
            ∧ genesisState r genesis !! a = None
  | Some e => ∃ o, genesisState r genesis !! a = Some o ∧
      state.balance o = alloc.credit (alloc.sameAddress a (map_to_list (Alloc genesis))) ∧
      state.code o = common.Hex2Bytes (Code e.2)
  end.
Proof.
  cbv zeta. split; [exact core_examples.fair_backwards|].
  apply alloc_facts.duplicate_keys_add_balances. exact core_examples.fair_backwards.
Defined.

(** The hypotheses of X9 hold for the two accounts of the fixtures. *)
Example test_genesis_witness :
  let r := sample.backwards in
  let accounts := fixtures.accounts in
  let s := sample.fresh in
  let run := install (core_testing.forTestingState accounts)
                     (core_testing.forTestingBlock accounts)
                     (Z.abs params.GenesisDifficulty) s in
  fair r ∧ Forall core_testing.wellTyped accounts ∧
  NoDup (core_testing.Address <$> accounts) ∧
  core_testing.WriteGenesisBlockForTesting r accounts s
  = (match run.1 with inr block => Some block | inl _ => None end, run.2).
Proof.
  cbv zeta. split; [exact core_examples.fair_backwards|].
  split; [repeat constructor; unfold core_testing.wellTyped; cbn; lia|].
  split; [apply (bool_decide_unpack _); by vm_compute|].
  apply testing_facts.test_genesis_installs_the_accounts.
  - exact core_examples.fair_backwards.
  - repeat constructor; unfold core_testing.wellTyped; cbn; lia.
  - apply (bool_decide_unpack _); by vm_compute.
Defined.

(** The hypotheses of X11 hold for the address 1 with the balance 100. *)
Example testing_block_witness :
  let r := sample.listed in
  let addr := 1 in
  let balance := 100 in
  let s := sample.fresh in
  let account := {| core_testing.Address := addr; core_testing.Balance := balance |} in
  let made := core_testing.GenesisBlockForTesting addr balance s in
  let written := core_testing.WriteGenesisBlockForTesting r [account] s in
  fair r ∧ 0 ≤ addr < 2 ^ 160 ∧ 0 ≤ balance ∧
  0 ≤ params.GenesisGasLimit ∧ 0 ≤ params.GenesisDifficulty ∧
  ∃ block, made.1 = inr block ∧
    journal made.2 = journal s ∧ faults made.2 = faults s ∧
    blocks (db made.2) = blocks (db s) ∧ tds (db made.2) = tds (db s) ∧
    canonical (db made.2) = canonical (db s) ∧ head (db made.2) = head (db s) ∧
    tries (db made.2) !! types.Root (types.header block)
      = Some {[ addr := {| state.balance := balance; state.code := []; state.storage := ∅ |} ]} ∧
    (blocks (db s) !! types.Hash block = None → refusal (faults s) 4 = None →
     written.1 = Some block ∧ blocks (db written.2) !! types.Hash block = Some block ∧
     tries (db written.2) = tries (db made.2)).
Proof.
  cbv zeta. split; [exact core_examples.fair_listed|]. split; [lia|]. split; [lia|].
  split; [by vm_compute|]. split; [by vm_compute|].
  apply (testing_facts.testing_block_is_the_written_block sample.listed 1 100 sample.fresh);
    [exact core_examples.fair_listed | lia | lia | by vm_compute | by vm_compute].
Defined.

(** The hypothesis of X12 holds for the table visited as listed. *)
Example methods_witness :
  let r := sample.listed in
  let self := api.NewEthApi () in
  fair r ∧
  ∃ l, api_pool.Methods r self = Some l ∧
    l = (range r (api.methods self)).*1 ∧
    NoDup l ∧ length l = size (api.methods self) ∧
    (∀ m, m ∈ l ↔ is_Some (api.methods self !! m)) ∧
    (∀ req, shared.Method req ∉ l →
       api.Execute self req
       = api.Return None (Some (shared.NotImplementedError (shared.Method req)))).
Proof.
  cbv zeta. split; [exact core_examples.fair_listed|].
  apply api_pool_facts.methods_lists_the_table. exact core_examples.fair_listed.
Defined.

(** The hypothesis of X14 holds for a pool of two transactions, the first
    of which is the one to resend. *)
Example resend_witness :
  let self := api.NewEthApi () in
  let req := sample.request "eth_resend" "7" in
  let node := [(1, 7); (2, 9)] in
  let args := fixtures.resendArgs in
  api_pool.DecodeResendArgs (shared.Params req) = inr args ∧
  (Exists (api_pool.resent args) (api_pool.GetTransactions node) →
   api_pool.Resend self req node
   = (api.Return (Some (api_pool.resubmit args node).1.1) (api_pool.resubmit args node).1.2,
      (api_pool.resubmit args node).2)) ∧
  (Forall (λ p, ¬ api_pool.resent args p) (api_pool.GetTransactions node) →
   api_pool.Resend self req node
   = (api.Return None
        (Some (shared.OtherError
                 ("Transaction " +:+ api_pool.Hash (api_pool.Tx args) +:+ " not found"))),
      node)).
Proof.
  cbv zeta. split; [reflexivity|].
  apply (@api_pool_facts.resend_replaces_or_reports sample.node fixtures.pool conv.conversions
           (@api.NewEthApi sample.node ()) (sample.request "eth_resend" "7")
           [(1, 7); (2, 9)] fixtures.resendArgs).
  reflexivity.
Defined.

(** On that pool [Resend] drops the transaction of hash 7 and submits a
    new one; [PendingTransactions] lists the transactions of the accounts 1
    and 2 and leaves out one whose sender is unknown. *)
Example resend_and_pending_on_the_sample_pool :
  api_pool.Resend (api.NewEthApi ()) (sample.request "eth_resend" "7") [(1, 7); (2, 9)]
    = (api.Return (Some "0x08") None, [(2, 9); (1, 8)]) ∧
  api_pool.PendingTransactions (api.NewEthApi ()) (sample.request "eth_pendingTransactions" "")
      [(1, 7); (-1, 3); (5, 4); (2, 9)]
    = api.Return (Some [(1, 7); (2, 9)]) None.
Proof. split; by vm_compute. Qed.

End Examples.
End coverage_examples.
